(** * Pricing API: the Flask prediction service of [src/app.py]

    A shallow embedding of the request handlers of the price-prediction
    service ([/domains], [/predict], [/predict_batch], [/model_info]), of
    the helpers they call and of the training script of
    [src/train_model.py], followed by the properties the specification
    states about them and by further properties read off the code.

    Conventions.
    - A Python [float] (and a [numpy.float64]) is an IEEE 754 binary64 number:
      Rocq's primitive [float], whose operations are specified against
      [SpecFloat] by the kernel's float axioms.
    - A Python [int] is a [Z].
    - A Python [str] is a [string] holding its UTF-8 encoding; equality and
      the substring test on well-formed UTF-8 agree with those on code points.
    - A decoded JSON value is a [json]; a [dict] is an association list whose
      keys are pairwise distinct.
    - An exception is a value of [exn]; code that may raise runs in the
      [result] monad. *)

From Stdlib Require Import ZArith List String Ascii Bool Lia.
From Stdlib Require Import Floats.
From Stdlib Require Import Sorted.
From Stdlib Require DecimalString.
Import ListNotations.

Set Warnings "-inexact-float,-register-all".

Local Open Scope string_scope.
Local Open Scope list_scope.
Local Open Scope Z_scope.

(* ===================================================================== *)
(** * Python numbers *)
(* ===================================================================== *)

Module PyFloat.

(** [bool(x)] for a float: every value but [0.0] and [-0.0] is true, NaN
    included. *)
Definition truthy (x : float) : bool := negb (PrimFloat.eqb x 0%float).

Definition is_finite (x : float) : bool :=
  negb (PrimFloat.is_nan x) && negb (PrimFloat.is_infinity x).

(** The binary64 number nearest to [n / d] (ties to even), for [n >= 0] and
    [d > 0]; infinite when the quotient is out of range. *)
Definition nearest_quotient (neg : bool) (n : Z) (d : positive) : spec_float :=
  match n with
  | Zpos p => SFdiv prec emax (S754_finite neg p 0) (S754_finite false d 0)
  | _ => S754_zero neg
  end.

(** [n / d] rounded to the nearest integer, a tie going to the even one, for
    [n >= 0]. *)
Definition round_half_even (n : Z) (d : positive) : Z :=
  let q := n / Zpos d in
  let r := n mod Zpos d in
  match (2 * r) ?= Zpos d with
  | Lt => q
  | Gt => q + 1
  | Eq => if Z.even q then q else q + 1
  end.

(** [round(x, ndigits)] on a float, for [0 <= ndigits]: the decimal with
    [ndigits] places nearest to the exact value of [x] (ties to even),
    converted back to the nearest float. Non-finite values and zeros are
    returned as they are. *)
Definition py_round (x : float) (ndigits : N) : float :=
  match Prim2SF x with
  | S754_finite s m e =>
      let p10 := match ndigits with N0 => 1%positive | Npos k => Pos.pow 10 k end in
      match e with
      | Zneg k =>
          let n := round_half_even (Zpos m * Zpos p10) (Pos.pow 2 k) in
          SF2Prim (nearest_quotient s n p10)
      | _ => x
      end
  | _ => x
  end.

(** [float(n)] for an int: the nearest float, [None] standing for the
    [OverflowError] of an int too large for a float. *)
Definition of_int (n : Z) : option float :=
  match binary_normalize prec emax n 0 false with
  | S754_infinity _ => None
  | sf => Some (SF2Prim sf)
  end.

(** [a / b] on ints (true division), for [b <> 0]: the float nearest to the
    exact quotient. *)
Definition int_truediv (a b : Z) : float :=
  match b with
  | Z0 => nan
  | Zpos d => SF2Prim (nearest_quotient (Z.ltb a 0) (Z.abs a) d)
  | Zneg d => SF2Prim (nearest_quotient (Z.ltb 0 a) (Z.abs a) d)
  end.

(** [int(x)] on a float: truncation toward zero; [None] for NaN and the
    infinities, on which [int] raises. *)
Definition trunc (x : float) : option Z :=
  match Prim2SF x with
  | S754_zero _ => Some 0
  | S754_finite s m e =>
      let a := match e with
               | Zneg k => Zpos m / Zpos (Pos.pow 2 k)
               | _ => Zpos m * 2 ^ e
               end in
      Some (if s then - a else a)
  | _ => None
  end.

(** The comparisons of [SpecFloat] read on a key: two numbers that are not
    NaN compare as their keys do, lexicographically. *)
Definition key (x : spec_float) : Z * Z * Z :=
  match x with
  | S754_zero _ => (0, 0, 0)
  | S754_infinity s => (if s then -2 else 2, 0, 0)
  | S754_nan => (0, 0, 0)
  | S754_finite s m e => if s then (-1, - e, Zneg m) else (1, e, Zpos m)
  end.

Definition lex (a b : Z * Z * Z) : comparison :=
  let '(a1, a2, a3) := a in
  let '(b1, b2, b3) := b in
  match a1 ?= b1 with
  | Eq => match a2 ?= b2 with
          | Eq => a3 ?= b3
          | c => c
          end
  | c => c
  end.

Definition lex_le (a b : Z * Z * Z) : Prop :=
  let '(a1, a2, a3) := a in
  let '(b1, b2, b3) := b in
  a1 < b1 \/ (a1 = b1 /\ (a2 < b2 \/ (a2 = b2 /\ a3 <= b3))).

Definition lex_lt (a b : Z * Z * Z) : Prop :=
  let '(a1, a2, a3) := a in
  let '(b1, b2, b3) := b in
  a1 < b1 \/ (a1 = b1 /\ (a2 < b2 \/ (a2 = b2 /\ a3 < b3))).

Definition not_nan (x : float) : Prop := Prim2SF x <> S754_nan.

End PyFloat.

Import PyFloat.

(* ===================================================================== *)
(** * Python strings *)
(* ===================================================================== *)

Module PyStr.

(** [needle in hay] on two strings. *)
Fixpoint contains (needle hay : string) : bool :=
  String.prefix needle hay
  || match hay with
     | EmptyString => false
     | String _ rest => contains needle rest
     end.

(** [x in xs] on a sequence of strings (a list, or a numpy array of
    strings, where it is [(xs == x).any()]). *)
Definition mem (x : string) (xs : list string) : bool :=
  existsb (String.eqb x) xs.

(** The double quote, and a string between double quotes. *)
Definition dq : string := String (ascii_of_nat 34) EmptyString.
Definition quoted (s : string) : string := (dq ++ s ++ dq)%string.

(** [str(n)] on an int. *)
Definition of_Z (n : Z) : string :=
  DecimalString.NilZero.string_of_int (Z.to_int n).

(** The characters of a string, one string per character: a byte that is
    not a UTF-8 continuation byte (10xxxxxx) starts a new character. *)
Definition is_continuation (c : ascii) : bool :=
  let n := nat_of_ascii c in (128 <=? n)%nat && (n <? 192)%nat.

Fixpoint chars_aux (cur : string) (s : string) : list string :=
  match s with
  | EmptyString => match cur with EmptyString => [] | _ => [cur] end
  | String c rest =>
      if is_continuation c then chars_aux (cur ++ String c EmptyString)%string rest
      else match cur with
           | EmptyString => chars_aux (String c EmptyString) rest
           | _ => cur :: chars_aux (String c EmptyString) rest
           end
  end.

Definition chars (s : string) : list string := chars_aux EmptyString s.

(** [str.lower] restricted to ASCII letters; it is [str.lower] itself on a
    string of ASCII characters. *)
Definition ascii_lower_char (c : ascii) : ascii :=
  let n := nat_of_ascii c in
  if (65 <=? n)%nat && (n <=? 90)%nat then ascii_of_nat (n + 32) else c.

Fixpoint ascii_lower (s : string) : string :=
  match s with
  | EmptyString => EmptyString
  | String c rest => String (ascii_lower_char c) (ascii_lower rest)
  end.

End PyStr.

(* ===================================================================== *)
(** * JSON values, exceptions, responses *)
(* ===================================================================== *)

(** What [request.get_json()] decodes, and what [jsonify] encodes. *)
Inductive json : Type :=
| JNull
| JBool (b : bool)
| JInt (n : Z)
| JFloat (x : float)
| JStr (s : string)
| JList (items : list json)
| JObj (fields : list (string * json)).

Definition dict := list (string * json).

(** [d.get(key)]: the value bound to [key], [None] when there is none. *)
Fixpoint dict_get (d : dict) (key : string) : json :=
  match d with
  | [] => JNull
  | (k, v) :: rest => if String.eqb k key then v else dict_get rest key
  end.

(** [key in d]. *)
Definition dict_has (d : dict) (key : string) : bool :=
  existsb (fun kv => String.eqb (fst kv) key) d.

(** [d[key] = v]: the binding is replaced where it stands, or added last. *)
Fixpoint dict_set (d : dict) (key : string) (v : json) : dict :=
  match d with
  | [] => [(key, v)]
  | (k, w) :: rest =>
      if String.eqb k key then (k, v) :: rest else (k, w) :: dict_set rest key v
  end.

(** A field of a JSON object, for reading responses. *)
Definition field (key : string) (j : json) : option json :=
  match j with
  | JObj d => if dict_has d key then Some (dict_get d key) else None
  | _ => None
  end.

Definition field2 (k1 k2 : string) (j : json) : option json :=
  match field k1 j with
  | Some sub => field k2 sub
  | None => None
  end.

(** [bool(v)]: the truth value of a decoded JSON value. *)
Definition py_bool (v : json) : bool :=
  match v with
  | JNull => false
  | JBool b => b
  | JInt n => negb (n =? 0)
  | JFloat x => PyFloat.truthy x
  | JStr s => negb (String.eqb s "")
  | JList items => match items with [] => false | _ => true end
  | JObj fields => match fields with [] => false | _ => true end
  end.

(** [v is None]. *)
Definition is_none (v : json) : bool :=
  match v with JNull => true | _ => false end.

Inductive exn_class : Type :=
| ValueError | TypeError | IndexError | KeyError | OverflowError
| AttributeError | FileNotFoundError | OtherError.

Scheme Equality for exn_class.

(** A raised exception: its class, the operation that raised it and the value
    it was raised on. Its message ([str(e)]) is left to the runtime. *)
Record exn : Type := Raised {
  exn_cls : exn_class;
  exn_op : string;
  exn_val : json
}.

Inductive result (A : Type) : Type :=
| Ok (a : A)
| Raise (e : exn).
Arguments Ok {A} a.
Arguments Raise {A} e.

Definition bind {A B : Type} (r : result A) (k : A -> result B) : result B :=
  match r with
  | Ok a => k a
  | Raise e => Raise e
  end.

Notation "x <- r ;; k" := (bind r (fun x => k))
  (at level 61, r at next level, right associativity).

(** What a handler gives back to the framework: a JSON body with a status
    code, or an exception it did not catch (the framework answers 500). *)
Inductive http_response : Type :=
| Response (body : json) (status : Z)
| Unhandled (e : exn).

Definition body_of (r : http_response) : json :=
  match r with
  | Response body _ => body
  | Unhandled _ => JNull
  end.

Definition status_of (r : http_response) : Z :=
  match r with
  | Response _ status => status
  | Unhandled _ => 500
  end.

(* ===================================================================== *)
(** * The model artifacts and the process-wide state *)
(* ===================================================================== *)

(** A cell of the one-row feature table: the domain code is an integer, the
    three other columns are floats. *)
Inductive cell : Type :=
| CInt (n : Z)
| CFloat (x : float).

(** The one-row [pandas.DataFrame] built from a dict literal: a later
    binding of a column name replaces the earlier one where it stands. *)
Definition dataframe := list (string * cell).

Fixpoint frame_set (df : dataframe) (col : string) (v : cell) : dataframe :=
  match df with
  | [] => [(col, v)]
  | (k, w) :: rest =>
      if String.eqb k col then (k, v) :: rest else (k, w) :: frame_set rest col v
  end.

Definition frame_of (cols : list (string * cell)) : dataframe :=
  fold_left (fun df kv => frame_set df (fst kv) (snd kv)) cols [].

(** The unpickled regression model, opaque but for what the service reads:
    its type name, [predict] on a one-row table (the first element of the
    returned array, or the exception raised), and the attributes the info
    summary looks for. *)
Record Model : Type := {
  model_type : string;
  model_predict : dataframe -> result float;
  coef_ : option (list float);
  intercept_ : option float;
  feature_importances_ : option (list float)
}.

(** The fitted [LabelEncoder]: [classes_] holds the category names, sorted
    and pairwise distinct; the code of a name is its position. *)
Record LabelEncoder : Type := {
  classes_ : list string
}.

Fixpoint index_of (x : string) (xs : list string) : option Z :=
  match xs with
  | [] => None
  | y :: rest =>
      if String.eqb x y then Some 0
      else match index_of x rest with
           | Some i => Some (i + 1)
           | None => None
           end
  end.

(** [label_encoder.transform([d])[0]]: the code of [d], or the [ValueError]
    of a label that was not seen at fit time. *)
Definition transform (enc : LabelEncoder) (d : string) : result Z :=
  match index_of d (classes_ enc) with
  | Some i => Ok i
  | None => Raise (Raised ValueError "transform" (JStr d))
  end.

(** [xs[i]] for [0 <= i]. *)
Definition subscript {A : Type} (op : string) (xs : list A) (i : Z) : result A :=
  match nth_error xs (Z.to_nat i) with
  | Some x => Ok x
  | None => Raise (Raised IndexError op (JInt i))
  end.

(** A code of the domain mapping: a Python [int] when the mapping was
    rebuilt at load time, a [numpy.int64] when it was pickled by the
    trainer. [jsonify] serializes the first and raises on the second. *)
Inductive code_value : Type :=
| PyInt (n : Z)
| NumpyInt64 (n : Z).

Definition mapping := list (string * code_value).

Record app_state : Type := {
  model : option Model;
  label_encoder : option LabelEncoder;
  feature_names : option (list string);
  domain_mapping : option mapping;
  model_info : dict;
  model_loaded : bool
}.

(** Reading an attribute or an element of a global that may still be
    [None]. *)
Definition need {A : Type} (cls : exn_class) (op : string) (g : option A) : result A :=
  match g with
  | Some a => Ok a
  | None => Raise (Raised cls op JNull)
  end.

Definition the_classes (st : app_state) : result (list string) :=
  enc <- need AttributeError "classes_" (label_encoder st) ;;
  Ok (classes_ enc).

Definition json_strings (xs : list string) : json := JList (map JStr xs).

Definition len {A : Type} (xs : list A) : Z := Z.of_nat (List.length xs).

(** [jsonify] on the domain mapping. *)
Fixpoint mapping_fields (m : mapping) : result dict :=
  match m with
  | [] => Ok []
  | (k, PyInt n) :: rest => d <- mapping_fields rest ;; Ok ((k, JInt n) :: d)
  | (k, NumpyInt64 n) :: rest => Raise (Raised TypeError "jsonify" (JInt n))
  end.

Definition jsonify_mapping (m : option mapping) : result json :=
  match m with
  | None => Ok JNull
  | Some m => d <- mapping_fields m ;; Ok (JObj d)
  end.

(* ===================================================================== *)
(** * Helpers of the service *)
(* ===================================================================== *)

(** [get_domain_description]: a fixed table with a fallback. *)
Definition descriptions : list (string * string) :=
  [ ("Électronique", "Appareils électroniques, composants, gadgets");
    ("Mode", "Vêtements, accessoires, chaussures");
    ("Maison", "Articles ménagers, décoration, mobilier");
    ("Sport", "Équipements sportifs, vêtements de sport");
    ("Automobile", "Pièces auto, accessoires véhicules");
    ("Livres", "Ouvrages, manuels, littérature");
    ("Beauté", "Cosmétiques, soins, parfums");
    ("Alimentation", "Produits alimentaires, boissons") ].

Fixpoint lookup_default (table : list (string * string)) (key default : string) : string :=
  match table with
  | [] => default
  | (k, v) :: rest => if String.eqb k key then v else lookup_default rest key default
  end.

Definition get_domain_description (domain : string) : string :=
  lookup_default descriptions domain "Secteur économique spécialisé".

Definition msg_prix_concurrent : string := "prix_concurrent doit être positif".
Definition msg_cout_production : string := "cout_production doit être positif".
Definition msg_marge_voulue : string := "marge_voulue doit être positive".
Definition msg_cout_eleve : string :=
  "cout_production semble trop élevé par rapport au prix_concurrent".

(** [errors.append(msg)] under a condition. *)
Definition append_if (cond : bool) (msg : string) (errors : list string) : list string :=
  if cond then errors ++ [msg] else errors.

Definition validate_numeric_ranges (prix_concurrent cout_production marge_voulue : float)
  : list string :=
  let errors := [] in
  let errors := append_if (prix_concurrent <? 0)%float msg_prix_concurrent errors in
  let errors := append_if (cout_production <? 0)%float msg_cout_production errors in
  let errors := append_if (marge_voulue <? 0)%float msg_marge_voulue errors in
  let errors := append_if (prix_concurrent * 0.9 <? cout_production)%float
                          msg_cout_eleve errors in
  errors.

(** The four required fields, read with [.get]. *)
Record raw_fields : Type := {
  raw_domaine : json;
  raw_prix_concurrent : json;
  raw_cout_production : json;
  raw_marge_voulue : json
}.

Definition read_fields (d : dict) : raw_fields :=
  {| raw_domaine := dict_get d "domaine";
     raw_prix_concurrent := dict_get d "prix_concurrent";
     raw_cout_production := dict_get d "cout_production";
     raw_marge_voulue := dict_get d "marge_voulue" |}.

(** The names of the four fields, in the order they are checked. *)
Definition required_fields : list string :=
  ["domaine"; "prix_concurrent"; "cout_production"; "marge_voulue"].

Definition missing_fields (f : raw_fields) : list string :=
  let missing := [] in
  let missing := append_if (is_none (raw_domaine f)) "domaine" missing in
  let missing := append_if (is_none (raw_prix_concurrent f)) "prix_concurrent" missing in
  let missing := append_if (is_none (raw_cout_production f)) "cout_production" missing in
  let missing := append_if (is_none (raw_marge_voulue f)) "marge_voulue" missing in
  missing.

(** [item.get]: only a dict has it. *)
Definition as_dict (v : json) : result dict :=
  match v with
  | JObj d => Ok d
  | _ => Raise (Raised AttributeError "get" v)
  end.

(** [int(v)] for a decoded JSON value that is not a string (strings are
    resolved by name and never reach it). *)
Definition py_int (v : json) : result Z :=
  match v with
  | JInt n => Ok n
  | JBool b => Ok (if b then 1 else 0)
  | JFloat x =>
      match PyFloat.trunc x with
      | Some n => Ok n
      | None => Raise (Raised (if PrimFloat.is_nan x then ValueError else OverflowError)
                              "int" v)
      end
  | JStr _ => Raise (Raised ValueError "int" v)
  | _ => Raise (Raised TypeError "int" v)
  end.

(** How the domain-resolution block ends when it raises nothing. *)
Inductive domain_outcome : Type :=
| Resolved (domaine_nom : string) (domaine_encode : Z)
| NotRecognized (domaine : string)
| InvalidCode (domaine : json).

(** The derived figures of a prediction. *)
Definition marge_calculee (predicted_price cout_production : float) : float :=
  if (0 <? cout_production)%float
  then ((predicted_price - cout_production) / cout_production)%float
  else 0%float.

Definition ratio_concurrent (predicted_price prix_concurrent : float) : option float :=
  if (0 <? prix_concurrent)%float
  then Some (predicted_price / prix_concurrent)%float
  else None.

(** [ratio_concurrent and test(ratio_concurrent)], as a truth value: [None]
    and a zero ratio are both false. *)
Definition ratio_and (ratio : option float) (test : float -> bool) : bool :=
  match ratio with
  | Some r => PyFloat.truthy r && test r
  | None => false
  end.

Definition strategie_prix (ratio : option float) : string :=
  if ratio_and ratio (fun r => r <? 0.9)%float then "Agressive (prix bas)"
  else if ratio_and ratio (fun r => 1.1 <? r)%float then "Premium (prix élevé)"
  else "Équilibrée".

Definition competitivite (ratio : option float) : string :=
  if ratio_and ratio (fun r => (0.95 <=? r) && (r <=? 1.05))%float
  then "Compétitif" else "À ajuster".

Definition rentabilite (marge marge_voulue : float) : string :=
  if (marge_voulue * 0.8 <=? marge)%float then "Bonne" else "Faible".

(** [round(float(ratio), 3) if ratio else None]. *)
Definition rounded_ratio (ratio : option float) : json :=
  match ratio with
  | Some r => if PyFloat.truthy r then JFloat (py_round r 3) else JNull
  | None => JNull
  end.

(* ===================================================================== *)
(** * The request handlers *)
(* ===================================================================== *)

(** What the handlers take from the Python runtime and leave opaque here:
    [str.lower], the text of a float, list or dict inside an f-string, the
    message of an exception ([str(e)]), [float] on a string ([None] for its
    [ValueError]) and the clock reading of [datetime.now().isoformat()]. *)
Record Runtime : Type := {
  lower : string -> string;
  py_repr : json -> string;
  str_exn : exn -> string;
  float_of_str : string -> option float;
  now : string
}.

Section Service.

Variable rt : Runtime.

(** [f'{v}'] on a decoded JSON value. *)
Definition py_str (v : json) : string :=
  match v with
  | JStr s => s
  | JInt n => PyStr.of_Z n
  | JBool b => if b then "True" else "False"
  | JNull => "None"
  | _ => py_repr rt v
  end.

(** [float(v)] on a decoded JSON value. *)
Definition py_float (v : json) : result float :=
  match v with
  | JFloat x => Ok x
  | JInt n =>
      match PyFloat.of_int n with
      | Some x => Ok x
      | None => Raise (Raised OverflowError "float" v)
      end
  | JBool b => Ok (if b then 1%float else 0%float)
  | JStr s =>
      match float_of_str rt s with
      | Some x => Ok x
      | None => Raise (Raised ValueError "float" v)
      end
  | _ => Raise (Raised TypeError "float" v)
  end.

(** ** [/predict] *)

(** The two-way, case-insensitive substring test of the single path. *)
Definition fuzzy_match (domaine d : string) : bool :=
  PyStr.contains (lower rt domaine) (lower rt d)
  || PyStr.contains (lower rt d) (lower rt domaine).

(** The domain-resolution block of [predict] (the body of its first inner
    [try]). *)
Definition predict_resolve (st : app_state) (domaine : json) : result domain_outcome :=
  match domaine with
  | JStr s =>
      classes <- the_classes st ;;
      if negb (PyStr.mem s classes) then
        match filter (fuzzy_match s) classes with
        | d :: _ =>
            enc <- need AttributeError "transform" (label_encoder st) ;;
            code <- transform enc d ;;
            Ok (Resolved d code)
        | [] => Ok (NotRecognized s)
        end
      else
        enc <- need AttributeError "transform" (label_encoder st) ;;
        code <- transform enc s ;;
        Ok (Resolved s code)
  | _ =>
      code <- py_int domaine ;;
      classes <- the_classes st ;;
      if (code <? 0) || (code >=? len classes) then Ok (InvalidCode domaine)
      else
        nom <- subscript "classes_" classes code ;;
        Ok (Resolved nom code)
  end.

(** The three coercions of the second inner [try]. *)
Definition coerce_numbers (f : raw_fields) : result (float * float * float) :=
  prix <- py_float (raw_prix_concurrent f) ;;
  cout <- py_float (raw_cout_production f) ;;
  marge <- py_float (raw_marge_voulue f) ;;
  Ok (prix, cout, marge).

(** The feature table in the trained column order, and the model call. *)
Definition run_model (st : app_state) (code : Z) (prix cout marge : float)
  : result float :=
  names <- need TypeError "feature_names" (feature_names st) ;;
  n0 <- subscript "feature_names" names 0 ;;
  n1 <- subscript "feature_names" names 1 ;;
  n2 <- subscript "feature_names" names 2 ;;
  n3 <- subscript "feature_names" names 3 ;;
  let features_df :=
    frame_of [(n0, CInt code); (n1, CFloat prix); (n2, CFloat cout); (n3, CFloat marge)] in
  m <- need AttributeError "predict" (model st) ;;
  model_predict m features_df.

Definition no_data_body : json :=
  JObj [ ("error", JStr "Aucune donnée JSON fournie");
         ("format_attendu",
           JObj [ ("domaine", JStr "string ou int");
                  ("prix_concurrent", JStr "float");
                  ("cout_production", JStr "float");
                  ("marge_voulue", JStr "float") ]) ].

Definition exemple_complet : json :=
  JObj [ ("domaine", JStr "Électronique");
         ("prix_concurrent", JFloat 750);
         ("cout_production", JFloat 500);
         ("marge_voulue", JFloat 0.6) ].

Definition missing_body (missing : list string) (classes : list string) : json :=
  JObj [ ("error", JStr "Caractéristiques manquantes");
         ("manquantes", json_strings missing);
         ("domaines_disponibles", json_strings classes);
         ("exemple_complet", exemple_complet) ].

Definition not_recognized_body (domaine : string) (classes : list string) : json :=
  JObj [ ("error", JStr ("Domaine " ++ PyStr.quoted domaine ++ " non reconnu")%string);
         ("domaines_disponibles", json_strings classes);
         ("suggestion", JStr "Vérifiez l'orthographe ou utilisez un code numérique") ].

Definition invalid_code_body (domaine : json) (classes : list string) (m : json) : json :=
  JObj [ ("error", JStr ("Code domaine " ++ py_str domaine ++ " invalide")%string);
         ("codes_valides", JStr ("0 à " ++ PyStr.of_Z (len classes - 1))%string);
         ("domaines_disponibles", m) ].

Definition encoding_error_body (e : exn) (classes : list string) : json :=
  JObj [ ("error", JStr ("Erreur d'encodage du domaine: " ++ str_exn rt e)%string);
         ("domaines_disponibles", json_strings classes) ].

Definition conversion_error_body (e : exn) : json :=
  JObj [ ("error", JStr ("Erreur de conversion numérique: " ++ str_exn rt e)%string);
         ("message", JStr "Toutes les valeurs numériques doivent être des nombres valides") ].

Definition validation_error_body (errors : list string) (prix cout marge : float) : json :=
  JObj [ ("error", JStr "Erreurs de validation");
         ("details", json_strings errors);
         ("valeurs_recues",
           JObj [ ("prix_concurrent", JFloat prix);
                  ("cout_production", JFloat cout);
                  ("marge_voulue", JFloat marge) ]) ].

(** The body of a successful prediction. *)
Definition success_body (domaine_nom : string) (domaine_encode : Z)
    (prix cout marge predicted_price : float) : json :=
  let marge_c := marge_calculee predicted_price cout in
  let benefice_unitaire := (predicted_price - cout)%float in
  let ratio := ratio_concurrent predicted_price prix in
  JObj [ ("prix_predit", JFloat (py_round predicted_price 2));
         ("caracteristiques_utilisees",
           JObj [ ("domaine", JStr domaine_nom);
                  ("domaine_encode", JInt domaine_encode);
                  ("prix_concurrent", JFloat prix);
                  ("cout_production", JFloat cout);
                  ("marge_voulue", JFloat marge) ]);
         ("analyse_economique",
           JObj [ ("marge_realisee", JFloat (py_round marge_c 4));
                  ("benefice_unitaire", JFloat (py_round benefice_unitaire 2));
                  ("ratio_prix_concurrent", rounded_ratio ratio);
                  ("strategie_prix", JStr (strategie_prix ratio)) ]);
         ("recommandations",
           JObj [ ("competitivite", JStr (competitivite ratio));
                  ("rentabilite", JStr (rentabilite marge_c marge)) ]);
         ("statut", JStr "success");
         ("timestamp", JStr (now rt)) ].

(** [except (C1, C2) as e]: whether the handler takes [e]. *)
Definition caught (classes : list exn_class) (e : exn) : bool :=
  existsb (exn_class_beq (exn_cls e)) classes.

(** The body of the outer [try] of [predict]: the response it returns, or
    the exception that reaches the outer [except]. *)
Definition predict_try (st : app_state) (payload : result json) : result http_response :=
  data <- payload ;;
  if negb (py_bool data) then Ok (Response no_data_body 400) else
  d <- as_dict data ;;
  let f := read_fields d in
  match missing_fields f with
  | (_ :: _) as missing =>
      classes <- the_classes st ;;
      Ok (Response (missing_body missing classes) 400)
  | [] =>
      let resolution :=
        match predict_resolve st (raw_domaine f) with
        | Ok (Resolved nom code) => Ok (inr (nom, code))
        | Ok (NotRecognized s) =>
            classes <- the_classes st ;;
            Ok (inl (Response (not_recognized_body s classes) 400))
        | Ok (InvalidCode v) =>
            classes <- the_classes st ;;
            m <- jsonify_mapping (domain_mapping st) ;;
            Ok (inl (Response (invalid_code_body v classes m) 400))
        | Raise e => Raise e
        end in
      let resolution :=
        match resolution with
        | Raise e =>
            if caught [ValueError; IndexError] e then
              classes <- the_classes st ;;
              Ok (inl (Response (encoding_error_body e classes) 400))
            else Raise e
        | r => r
        end in
      r <- resolution ;;
      match r with
      | inl response => Ok response
      | inr (domaine_nom, domaine_encode) =>
          match coerce_numbers f with
          | Raise e =>
              if caught [ValueError; TypeError] e
              then Ok (Response (conversion_error_body e) 400)
              else Raise e
          | Ok (prix, cout, marge) =>
              match validate_numeric_ranges prix cout marge with
              | (_ :: _) as validation_errors =>
                  Ok (Response (validation_error_body validation_errors prix cout marge) 400)
              | [] =>
                  predicted_price <- run_model st domaine_encode prix cout marge ;;
                  Ok (Response
                        (success_body domaine_nom domaine_encode prix cout marge
                                      predicted_price) 200)
              end
          end
      end
  end.

Definition not_loaded_predict : json :=
  JObj [ ("error", JStr "Modèle non chargé");
         ("message", JStr "Veuillez entraîner le modèle avec le script d'entraînement") ].

Definition internal_error_body (e : exn) : json :=
  JObj [ ("error", JStr "Erreur interne lors de la prédiction");
         ("details", JStr (str_exn rt e));
         ("timestamp", JStr (now rt)) ].

(** [POST /predict]; [payload] is what [request.get_json()] returns or
    raises. *)
Definition predict (st : app_state) (payload : result json) : http_response :=
  if negb (model_loaded st) then Response not_loaded_predict 500
  else
    match predict_try st payload with
    | Ok response => response
    | Raise e => Response (internal_error_body e) 500
    end.

(** ** [/predict_batch] *)

(** An entry of the batch results: the dict appended for a record, by its
    [statut]. [more] holds the fields an error entry has besides [index],
    [error], [caracteristiques] and [statut]. *)
Inductive batch_entry : Type :=
| Success (index : Z) (prix_predit : float) (domaine : string)
          (marge_realisee : float) (ratio : json) (caracteristiques : json)
| Failure (index : Z) (error : string) (more : dict) (caracteristiques : json).

Definition statut (r : batch_entry) : string :=
  match r with
  | Success _ _ _ _ _ _ => "success"
  | Failure _ _ _ _ => "error"
  end.

Definition entry_json (r : batch_entry) : json :=
  match r with
  | Success i prix nom marge ratio item =>
      JObj [ ("index", JInt i);
             ("prix_predit", JFloat prix);
             ("domaine", JStr nom);
             ("marge_realisee", JFloat marge);
             ("ratio_concurrent", ratio);
             ("caracteristiques", item);
             ("statut", JStr "success") ]
  | Failure i error more item =>
      JObj ([ ("index", JInt i); ("error", JStr error) ] ++ more
            ++ [ ("caracteristiques", item); ("statut", JStr "error") ])
  end.

(** The one-way substring test of the batch path. *)
Definition batch_fuzzy_match (domaine d : string) : bool :=
  PyStr.contains (lower rt domaine) (lower rt d).

(** The domain-resolution block of the batch loop. *)
Definition batch_resolve (st : app_state) (domaine : json) : result domain_outcome :=
  match domaine with
  | JStr s =>
      classes <- the_classes st ;;
      if negb (PyStr.mem s classes) then
        match filter (batch_fuzzy_match s) classes with
        | d :: _ =>
            enc <- need AttributeError "transform" (label_encoder st) ;;
            code <- transform enc d ;;
            Ok (Resolved d code)
        | [] => Ok (NotRecognized s)
        end
      else
        enc <- need AttributeError "transform" (label_encoder st) ;;
        code <- transform enc s ;;
        Ok (Resolved s code)
  | _ =>
      code <- py_int domaine ;;
      classes <- the_classes st ;;
      if (code <? 0) || (code >=? len classes) then Ok (InvalidCode domaine)
      else
        nom <- subscript "classes_" classes code ;;
        Ok (Resolved nom code)
  end.

(** The body of the [try] inside the loop, for the record [item] at
    position [i]: the entry it appends. *)
Definition batch_item_try (st : app_state) (i : Z) (item : json) : result batch_entry :=
  d <- as_dict item ;;
  let f := read_fields d in
  match missing_fields f with
  | (_ :: _) as missing =>
      Ok (Failure i "Caractéristiques manquantes"
                  [("manquantes", json_strings missing)] item)
  | [] =>
      let resolution :=
        match batch_resolve st (raw_domaine f) with
        | Ok (Resolved nom code) => Ok (inr (nom, code))
        | Ok (NotRecognized s) =>
            Ok (inl (Failure i ("Domaine " ++ PyStr.quoted s ++ " non reconnu")%string
                             [] item))
        | Ok (InvalidCode v) =>
            Ok (inl (Failure i ("Code domaine " ++ py_str v ++ " invalide")%string
                             [] item))
        | Raise e =>
            if caught [ValueError; IndexError] e then
              Ok (inl (Failure i ("Erreur d'encodage du domaine: " ++ str_exn rt e)%string
                               [] item))
            else Raise e
        end in
      r <- resolution ;;
      match r with
      | inl entry => Ok entry
      | inr (domaine_nom, domaine_encode) =>
          match coerce_numbers f with
          | Raise e =>
              if caught [ValueError; TypeError] e then
                Ok (Failure i ("Erreur de conversion numérique: " ++ str_exn rt e)%string
                            [] item)
              else Raise e
          | Ok (prix, cout, marge) =>
              match validate_numeric_ranges prix cout marge with
              | (_ :: _) as validation_errors =>
                  Ok (Failure i "Erreurs de validation"
                              [("details", json_strings validation_errors)] item)
              | [] =>
                  predicted_price <- run_model st domaine_encode prix cout marge ;;
                  let marge_c := marge_calculee predicted_price cout in
                  let ratio := ratio_concurrent predicted_price prix in
                  Ok (Success i (py_round predicted_price 2) domaine_nom
                              (py_round marge_c 4) (rounded_ratio ratio) item)
              end
          end
      end
  end.

(** One turn of the loop: the [except Exception] inside it turns whatever
    the body raises into an error entry. *)
Definition batch_item (st : app_state) (i : Z) (item : json) : batch_entry :=
  match batch_item_try st i item with
  | Ok entry => entry
  | Raise e => Failure i (str_exn rt e) [] item
  end.

(** [for i, item in enumerate(predictions_data)], appending to [results]. *)
Fixpoint batch_loop (st : app_state) (i : Z) (items : list json)
    (results : list batch_entry) : list batch_entry :=
  match items with
  | [] => results
  | item :: rest => batch_loop st (i + 1) rest (results ++ [batch_item st i item])
  end.

(** [r['prix_predit']] on an entry. *)
Definition prix_predit_of (r : batch_entry) : result float :=
  match r with
  | Success _ prix _ _ _ _ => Ok prix
  | Failure i _ _ _ => Raise (Raised KeyError "prix_predit" (JInt i))
  end.

Fixpoint map_result {A B : Type} (f : A -> result B) (xs : list A) : result (list B) :=
  match xs with
  | [] => Ok []
  | x :: rest => y <- f x ;; ys <- map_result f rest ;; Ok (y :: ys)
  end.

(** [sum], [min] and [max] over floats. [sum] starts from the int 0 and adds
    from left to right (CPython 3.12 and later carry a compensation term
    besides, which leaves an exact or an overflowed sum as it is). [min] and
    [max] keep the first element unless a later one compares strictly below
    (above) the current one. *)
Definition py_sum (xs : list float) : float := fold_left PrimFloat.add xs 0%float.

Definition py_min (x : float) (rest : list float) : float :=
  fold_left (fun cur item => if (item <? cur)%float then item else cur) rest x.

Definition py_max (x : float) (rest : list float) : float :=
  fold_left (fun cur item => if (cur <? item)%float then item else cur) rest x.

(** [float(n)] for a length [n]: a length is far below the ints that
    overflow a float. *)
Definition of_len (n : Z) : float := SF2Prim (binary_normalize prec emax n 0 false).

(** The price-range summary over the successful entries. *)
Definition price_range (successful : list batch_entry) : result json :=
  match successful with
  | [] => Ok JNull
  | _ :: _ =>
      prices <- map_result prix_predit_of successful ;;
      match prices with
      | [] => Raise (Raised ValueError "min" JNull)
      | x :: rest =>
          let avg_price := (py_sum prices / of_len (len successful))%float in
          Ok (JObj [ ("min", JFloat (py_min x rest));
                     ("max", JFloat (py_max x rest));
                     ("moyenne", JFloat (py_round avg_price 2)) ])
      end
  end.

Definition taux_succes (n_success n_results : Z) : json :=
  if n_results =? 0 then JInt 0
  else JFloat (py_round (PyFloat.int_truediv n_success n_results * 100)%float 1).

(** The rate as the specification words it, in exact arithmetic:
    [100 * succes / total] rounded to one decimal (a tie going to the even
    digit), as the float nearest to that decimal. *)
Definition exact_rate (succes total : Z) : float :=
  SF2Prim (PyFloat.nearest_quotient false
             (PyFloat.round_half_even (1000 * succes) (Z.to_pos total)) 10).

Definition has_statut (s : string) (r : batch_entry) : bool := String.eqb (statut r) s.

Definition statistiques (results : list batch_entry) : result json :=
  let successful_predictions := filter (has_statut "success") results in
  range <- price_range successful_predictions ;;
  Ok (JObj [ ("total", JInt (len results));
             ("succes", JInt (len successful_predictions));
             ("erreurs", JInt (len (filter (has_statut "error") results)));
             ("taux_succes", taux_succes (len successful_predictions) (len results));
             ("prix_range", range) ]).

(** The [prix_predit] of the successful entries, in order. *)
Definition success_prices (results : list batch_entry) : list float :=
  flat_map (fun r => match r with
                     | Success _ prix _ _ _ _ => [prix]
                     | Failure _ _ _ _ => []
                     end) results.

(** ['predictions' in data], [data['predictions']] and the iteration over
    the value, on whatever JSON value the payload is. *)
Definition has_predictions (data : json) : result bool :=
  match data with
  | JObj d => Ok (dict_has d "predictions")
  | JList items =>
      Ok (existsb (fun v => match v with
                            | JStr s => String.eqb s "predictions"
                            | _ => false
                            end) items)
  | JStr s => Ok (PyStr.contains "predictions" s)
  | _ => Raise (Raised TypeError "in" data)
  end.

Definition get_predictions (data : json) : result json :=
  match data with
  | JObj d =>
      if dict_has d "predictions" then Ok (dict_get d "predictions")
      else Raise (Raised KeyError "predictions" data)
  | _ => Raise (Raised TypeError "subscript" data)
  end.

Definition py_iter (v : json) : result (list json) :=
  match v with
  | JList items => Ok items
  | JObj d => Ok (map (fun kv => JStr (fst kv)) d)
  | JStr s => Ok (map JStr (PyStr.chars s))
  | _ => Raise (Raised TypeError "iter" v)
  end.

Definition batch_format_body : json :=
  JObj [ ("error",
           JStr ("Format incorrect. Utilisez: {" ++ PyStr.quoted "predictions" ++ ": [{"
                 ++ PyStr.quoted "domaine" ++ ": ..., " ++ PyStr.quoted "prix_concurrent"
                 ++ ": ..., etc.}]}")%string);
         ("exemple", JObj [ ("predictions", JList [exemple_complet]) ]) ].

Definition batch_try (st : app_state) (payload : result json) : result http_response :=
  data <- payload ;;
  if negb (py_bool data) then Ok (Response batch_format_body 400) else
  present <- has_predictions data ;;
  if negb present then Ok (Response batch_format_body 400) else
  predictions_data <- get_predictions data ;;
  items <- py_iter predictions_data ;;
  let results := batch_loop st 0 items [] in
  stats <- statistiques results ;;
  Ok (Response (JObj [ ("predictions", JList (map entry_json results));
                       ("statistiques", stats);
                       ("timestamp", JStr (now rt)) ]) 200).

Definition not_loaded_batch : json :=
  JObj [ ("error", JStr "Modèle non chargé");
         ("message", JStr "Veuillez entraîner le modèle") ].

Definition batch_error_body (e : exn) : json :=
  JObj [ ("error", JStr "Erreur lors du traitement en lot");
         ("details", JStr (str_exn rt e));
         ("timestamp", JStr (now rt)) ].

(** [POST /predict_batch]. *)
Definition predict_batch (st : app_state) (payload : result json) : http_response :=
  if negb (model_loaded st) then Response not_loaded_batch 500
  else
    match batch_try st payload with
    | Ok response => response
    | Raise e => Response (batch_error_body e) 500
    end.

(** ** [/domains] and [/model_info] *)

Definition not_loaded_body : json := JObj [ ("error", JStr "Modèle non chargé") ].

(** [{domain: int(label_encoder.transform([domain])[0]) for domain in
    label_encoder.classes_}] and its variant with a description. *)
Fixpoint encode_all (st : app_state) (entry : string -> Z -> json)
    (domains : list string) (acc : dict) : result dict :=
  match domains with
  | [] => Ok acc
  | domain :: rest =>
      enc <- need AttributeError "transform" (label_encoder st) ;;
      code <- transform enc domain ;;
      encode_all st entry rest (dict_set acc domain (entry domain code))
  end.

Definition domain_entry (domain : string) (code : Z) : json :=
  JObj [ ("code", JInt code);
         ("description", JStr (get_domain_description domain)) ].

Definition get_domains_body (st : app_state) : result json :=
  classes <- the_classes st ;;
  domains_info <- encode_all st domain_entry classes [] ;;
  Ok (JObj [ ("domaines_disponibles", JObj domains_info);
             ("total", JInt (len classes));
             ("format_accepte",
               JObj [ ("nom", JStr ("Utilisez le nom du domaine (ex: "
                                    ++ PyStr.quoted "Électronique" ++ ")")%string);
                      ("code", JStr "Ou utilisez le code numérique (ex: 0)") ]) ]).

(** [GET /domains]: no [try] here, an exception goes to the framework. *)
Definition get_domains (st : app_state) : http_response :=
  if negb (model_loaded st) then Response not_loaded_body 500
  else
    match get_domains_body st with
    | Ok body => Response body 200
    | Raise e => Unhandled e
    end.

(** [d.get(key, default)] and [d[key]]. *)
Definition dict_get_default (d : dict) (key : string) (default : json) : json :=
  if dict_has d key then dict_get d key else default.

Definition dict_item (d : dict) (key : string) : result json :=
  if dict_has d key then Ok (dict_get d key)
  else Raise (Raised KeyError key JNull).

Definition json_of_names (names : option (list string)) : json :=
  match names with
  | Some l => json_strings l
  | None => JNull
  end.

Definition conseils_utilisation : json :=
  JObj [ ("format_donnees", JStr "Utilisez des valeurs réelles (ex: 750.0 pour 750€)");
         ("domaines", JStr "Nom complet ou code numérique acceptés");
         ("validation", JStr "L'API valide automatiquement la cohérence économique");
         ("precision", JStr "Les prédictions sont arrondies à 2 décimales") ].

Definition model_info_try (st : app_state) : result json :=
  let type := dict_get_default (model_info st) "type" (JStr "N/A") in
  classes <- the_classes st ;;
  let charge_le := dict_get_default (model_info st) "loaded_at" (JStr "N/A") in
  encodage <- encode_all st (fun _ code => JInt code) classes [] ;;
  let info :=
    [ ("modele",
        JObj [ ("type", type);
               ("caracteristiques", json_of_names (feature_names st));
               ("domaines_supportes", json_strings classes);
               ("nombre_domaines", JInt (len classes));
               ("charge_le", charge_le) ]);
      ("encodage_domaines", JObj encodage) ] in
  info <-
    (if dict_has (model_info st) "coefficients" then
       coefficients <- dict_item (model_info st) "coefficients" ;;
       let info := dict_set info "coefficients" coefficients in
       intercept <- dict_item (model_info st) "intercept" ;;
       Ok (dict_set info "ordonnee_origine" intercept)
     else Ok info) ;;
  Ok (JObj (dict_set info "conseils_utilisation" conseils_utilisation)).

Definition model_info_error_body (e : exn) : json :=
  JObj [ ("error", JStr "Erreur lors de la récupération des informations du modèle");
         ("details", JStr (str_exn rt e)) ].

(** [GET /model_info]. *)
Definition model_info_endpoint (st : app_state) : http_response :=
  if negb (model_loaded st) then Response not_loaded_body 500
  else
    match model_info_try st with
    | Ok body => Response body 200
    | Raise e => Response (model_info_error_body e) 500
    end.

End Service.

(* ===================================================================== *)
(** * Startup: loading the artifacts *)
(* ===================================================================== *)

Section Startup.

Variable rt : Runtime.

(** What unpickling each of the four files gives, or the exception raised
    on the way (a missing file, a corrupt one). *)
Record artifacts : Type := {
  pickled_model : result Model;
  pickled_encoder : result LabelEncoder;
  pickled_features : result (list string);
  pickled_mapping : result mapping
}.

(** The module-level globals before the load. *)
Definition initial_state : app_state :=
  {| model := None; label_encoder := None; feature_names := None;
     domain_mapping := None; model_info := []; model_loaded := false |}.

Definition set_model (g : app_state) (m : Model) : app_state :=
  {| model := Some m; label_encoder := label_encoder g;
     feature_names := feature_names g; domain_mapping := domain_mapping g;
     model_info := model_info g; model_loaded := model_loaded g |}.

Definition set_label_encoder (g : app_state) (enc : LabelEncoder) : app_state :=
  {| model := model g; label_encoder := Some enc;
     feature_names := feature_names g; domain_mapping := domain_mapping g;
     model_info := model_info g; model_loaded := model_loaded g |}.

Definition set_feature_names (g : app_state) (names : list string) : app_state :=
  {| model := model g; label_encoder := label_encoder g;
     feature_names := Some names; domain_mapping := domain_mapping g;
     model_info := model_info g; model_loaded := model_loaded g |}.

Definition set_domain_mapping (g : app_state) (m : mapping) : app_state :=
  {| model := model g; label_encoder := label_encoder g;
     feature_names := feature_names g; domain_mapping := Some m;
     model_info := model_info g; model_loaded := model_loaded g |}.

Definition set_model_info (g : app_state) (info : dict) : app_state :=
  {| model := model g; label_encoder := label_encoder g;
     feature_names := feature_names g; domain_mapping := domain_mapping g;
     model_info := info; model_loaded := model_loaded g |}.

Definition set_model_loaded (g : app_state) (b : bool) : app_state :=
  {| model := model g; label_encoder := label_encoder g;
     feature_names := feature_names g; domain_mapping := domain_mapping g;
     model_info := model_info g; model_loaded := b |}.

(** [m[domain] = code]. *)
Fixpoint mapping_set (m : mapping) (domain : string) (code : code_value) : mapping :=
  match m with
  | [] => [(domain, code)]
  | (k, w) :: rest =>
      if String.eqb k domain then (k, code) :: rest
      else (k, w) :: mapping_set rest domain code
  end.

(** The mapping rebuilt from the encoder when its file is absent. *)
Fixpoint rebuild_mapping (enc : LabelEncoder) (domains : list string) (acc : mapping)
  : result mapping :=
  match domains with
  | [] => Ok acc
  | domain :: rest =>
      code <- transform enc domain ;;
      rebuild_mapping enc rest (mapping_set acc domain (PyInt code))
  end.

Definition load_mapping (a : artifacts) (enc : LabelEncoder) : result mapping :=
  match pickled_mapping a with
  | Ok m => Ok m
  | Raise e =>
      if exn_class_beq (exn_cls e) FileNotFoundError
      then rebuild_mapping enc (classes_ enc) []
      else Raise e
  end.

(** [{feature_names[i]: float(values[i]) for i in range(len(feature_names))}]. *)
Fixpoint by_feature (names : list string) (values : list float) (i : Z) (acc : dict)
  : result dict :=
  match names with
  | [] => Ok acc
  | name :: rest =>
      v <- subscript "coef_" values i ;;
      by_feature rest values (i + 1) (dict_set acc name (JFloat v))
  end.

(** The part of [load_model_components] after the four files are read:
    the info summary, assigned first without the model's figures, then
    completed key by key. It gives the last value of [model_info] and
    whether the end was reached. *)
Definition summarize (m : Model) (enc : LabelEncoder) (names : list string)
  : dict * bool :=
  let info :=
    [ ("type", JStr (model_type m));
      ("features", json_strings names);
      ("domains", json_strings (classes_ enc));
      ("n_domains", JInt (len (classes_ enc)));
      ("loaded_at", JStr (now rt)) ] in
  match coef_ m with
  | Some coefs =>
      match by_feature names coefs 0 [] with
      | Raise _ => (info, false)
      | Ok coefficients =>
          let info := dict_set info "coefficients" (JObj coefficients) in
          match intercept_ m with
          | None => (info, false)
          | Some b => (dict_set info "intercept" (JFloat b), true)
          end
      end
  | None =>
      match feature_importances_ m with
      | Some importances =>
          match by_feature names importances 0 [] with
          | Raise _ => (info, false)
          | Ok fi => (dict_set info "feature_importances" (JObj fi), true)
          end
      | None => (info, true)
      end
  end.

(** [load_model_components]: the globals it leaves and the flag it
    returns. Whatever is raised on the way is caught, and the globals
    assigned so far stay. *)
Definition load_model_components (a : artifacts) (g : app_state) : app_state * bool :=
  match pickled_model a with
  | Raise _ => (g, false)
  | Ok m =>
      let g := set_model g m in
      match pickled_encoder a with
      | Raise _ => (g, false)
      | Ok enc =>
          let g := set_label_encoder g enc in
          match pickled_features a with
          | Raise _ => (g, false)
          | Ok names =>
              let g := set_feature_names g names in
              match load_mapping a enc with
              | Raise _ => (g, false)
              | Ok mp =>
                  let g := set_domain_mapping g mp in
                  let '(info, done) := summarize m enc names in
                  (set_model_info g info, done)
              end
          end
      end
  end.

(** [model_loaded = load_model_components()]: the state every request
    sees. *)
Definition startup (a : artifacts) : app_state :=
  let '(g, flag) := load_model_components a initial_state in
  set_model_loaded g flag.

End Startup.

(** When the summary of the model can be completed. *)
Definition summary_completes (m : Model) (names : list string) : Prop :=
  match coef_ m with
  | Some coefs => len names <= len coefs /\ intercept_ m <> None
  | None =>
      match feature_importances_ m with
      | Some importances => len names <= len importances
      | None => True
      end
  end.

(** [r['index']] and [r['caracteristiques']] on an entry of the batch
    results. *)
Definition entry_index (r : batch_entry) : Z :=
  match r with
  | Success i _ _ _ _ _ => i
  | Failure i _ _ _ => i
  end.

Definition entry_record (r : batch_entry) : json :=
  match r with
  | Success _ _ _ _ _ item => item
  | Failure _ _ _ item => item
  end.

(* ===================================================================== *)
(** * The training script of [src/train_model.py] *)
(* ===================================================================== *)

Module Train.

(** The dataset files tried, in this order. *)
Definition csv_files : list string :=
  [ "dataset_projet_reseau_cameroun_enrichi.csv";
    "dataset_projet_reseau_100.csv" ].

(** The loop over the candidates: [read_csv] is what [pd.read_csv] gives
    for a path, a table or the exception it raises. A [FileNotFoundError]
    moves on to the next file, any other exception leaves the loop; [None]
    is [df] still being [None] after the loop. *)
Fixpoint load_dataset {D : Type} (read_csv : string -> result D) (files : list string)
  : result (option D) :=
  match files with
  | [] => Ok None
  | csv_file :: rest =>
      match read_csv csv_file with
      | Ok df => Ok (Some df)
      | Raise e =>
          if exn_class_beq (exn_cls e) FileNotFoundError
          then load_dataset read_csv rest
          else Raise e
      end
  end.

(** A candidate that is not there: reading it raises [FileNotFoundError]. *)
Definition not_found {D : Type} (read_csv : string -> result D) (csv_file : string) : Prop :=
  exists e, read_csv csv_file = Raise e /\ exn_cls e = FileNotFoundError.

(** [numpy.unique] on a column of strings: its distinct values in
    increasing order (the order of code points, which is the order of the
    UTF-8 bytes). *)
Fixpoint insert_unique (x : string) (xs : list string) : list string :=
  match xs with
  | [] => [x]
  | y :: rest =>
      match String.compare x y with
      | Lt => x :: xs
      | Eq => xs
      | Gt => y :: insert_unique x rest
      end
  end.

Definition unique (column : list string) : list string :=
  fold_right insert_unique [] column.

(** A list of strings in strictly increasing order. *)
Definition increasing : list string -> Prop :=
  StronglySorted (fun a b => String.compare a b = Lt).

(** [LabelEncoder().fit(column)] and [fit_transform(column)]. *)
Definition fit (column : list string) : LabelEncoder :=
  {| classes_ := unique column |}.

Definition fit_transform (column : list string) : result (LabelEncoder * list Z) :=
  let le := fit column in
  codes <- map_result (transform le) column ;;
  Ok (le, codes).

(** [dict(zip(le.classes_, le.transform(le.classes_)))]: the codes are the
    [numpy.int64] elements of the array [transform] returns. *)
Definition domain_mapping (le : LabelEncoder) : result mapping :=
  codes <- map_result (transform le) (classes_ le) ;;
  Ok (fold_left (fun m kv => mapping_set m (fst kv) (NumpyInt64 (snd kv)))
                (combine (classes_ le) codes) []).

(** [list(X.columns)]. *)
Definition feature_columns : list string :=
  ["Domaine_encoded"; "Prix_concurrent"; "Cout_production"; "Marge_voulue"].

(** The four objects of [model_files], as the service unpickles them. *)
Definition model_files (m : Model) (le : LabelEncoder) (mp : mapping) : artifacts :=
  {| pickled_model := Ok m;
     pickled_encoder := Ok le;
     pickled_features := Ok feature_columns;
     pickled_mapping := Ok mp |}.

(** [train_cameroon_pricing_model]: the files it leaves for the service,
    or [None] where it returns [(None, None)] and writes nothing. The
    tables are opaque: [domaine_column] is [df['Domaine']] once the rows
    with missing values are dropped, and [fit_model] is the split, the
    regression and its evaluation on the table with the encoded column;
    writing the four files is taken to succeed. *)
Definition train_cameroon_pricing_model {D : Type}
    (read_csv : string -> result D)
    (domaine_column : D -> result (list string))
    (fit_model : D -> list Z -> result Model) : option artifacts :=
  let run :=
    df <- load_dataset read_csv csv_files ;;
    match df with
    | None => Ok None
    | Some df =>
        column <- domaine_column df ;;
        fitted <- fit_transform column ;;
        let '(le, codes) := fitted in
        mp <- domain_mapping le ;;
        m <- fit_model df codes ;;
        Ok (Some (model_files m le mp))
    end in
  match run with
  | Ok files => files
  | Raise _ => None
  end.

End Train.

(* ===================================================================== *)
(** * A concrete runtime, model and state *)
(* ===================================================================== *)

Module Example.

(** A runtime for strings of ASCII characters. The message of an exception
    is shortened to the operation that raised it, and no string is read as a
    float. *)
Definition runtime : Runtime :=
  {| lower := PyStr.ascii_lower;
     py_repr := fun _ => "?";
     str_exn := exn_op;
     float_of_str := fun _ => None;
     now := "2025-01-01T00:00:00" |}.

Definition cell_value (c : cell) : float :=
  match c with
  | CInt n => SF2Prim (binary_normalize prec emax n 0 false)
  | CFloat x => x
  end.

(** A linear regression: [X @ coef_ + intercept_], after the check that
    the row is finite. *)
Definition linear_predict (coefs : list float) (intercept : float) (df : dataframe)
  : result float :=
  if forallb (fun kv => PyFloat.is_finite (cell_value (snd kv))) df then
    Ok (fold_left (fun acc xw => acc + cell_value (snd (fst xw)) * snd xw)
                  (combine df coefs) 0 + intercept)%float
  else Raise (Raised ValueError "predict" JNull).

Definition linear_model (coefs : list float) (intercept : float) : Model :=
  {| model_type := "LinearRegression";
     model_predict := linear_predict coefs intercept;
     coef_ := Some coefs;
     intercept_ := Some intercept;
     feature_importances_ := None |}.

Definition encoder : LabelEncoder :=
  {| classes_ := ["Automobile"; "Livres"; "Maison"; "Mode"; "Sport"] |}.

Definition columns : list string :=
  ["Domaine_encoded"; "Prix_concurrent"; "Cout_production"; "Marge_voulue"].

Definition missing_file : exn := Raised FileNotFoundError "open" JNull.

(** The artifacts of a training run, the mapping file left out. *)
Definition trained (m : Model) : artifacts :=
  {| pickled_model := Ok m;
     pickled_encoder := Ok encoder;
     pickled_features := Ok columns;
     pickled_mapping := Raise missing_file |}.

(** No artifact on disk. *)
Definition untrained : artifacts :=
  {| pickled_model := Raise missing_file;
     pickled_encoder := Raise missing_file;
     pickled_features := Raise missing_file;
     pickled_mapping := Raise missing_file |}.

(** A model that prices at the competitor's price, and one that prices at
    1.6 times the production cost. *)
Definition follow_competitor : Model := linear_model [0; 1; 0; 0]%float 0%float.
Definition cost_plus : Model := linear_model [0; 0; 1.6; 0]%float 0%float.

Definition record (domaine : json) (prix cout marge : float) : json :=
  JObj [ ("domaine", domaine);
         ("prix_concurrent", JFloat prix);
         ("cout_production", JFloat cout);
         ("marge_voulue", JFloat marge) ].

(** A second encoder, with a name that contains another. *)
Definition crafts : LabelEncoder := {| classes_ := ["Art"; "Artisanat"] |}.

Definition crafts_state : app_state :=
  startup runtime
    {| pickled_model := Ok follow_competitor;
       pickled_encoder := Ok crafts;
       pickled_features := Ok columns;
       pickled_mapping := Raise missing_file |}.

End Example.
Import Example.

(* ===================================================================== *)
(** * Facts on float comparisons *)
(* ===================================================================== *)

Lemma lex_spec (a b : Z * Z * Z) :
  match lex a b with
  | Lt => lex_lt a b
  | Eq => a = b
  | Gt => lex_lt b a
  end.
Proof.
  destruct a as [[a1 a2] a3], b as [[b1 b2] b3]. unfold lex, lex_lt.
  destruct (Z.compare_spec a1 b1); [subst | lia | lia].
  destruct (Z.compare_spec a2 b2); [subst | lia | lia].
  destruct (Z.compare_spec a3 b3); [subst; reflexivity | lia | lia].
Qed.

Lemma SFcompare_key (x y : spec_float) :
  x <> S754_nan -> y <> S754_nan -> SFcompare x y = Some (lex (key x) (key y)).
Proof.
  intros Hx Hy.
  destruct x as [sx|sx| |sx mx ex], y as [sy|sy| |sy my ey]; try congruence;
    try destruct sx; try destruct sy; try reflexivity.
  simpl. rewrite Z.compare_opp, (Z.compare_antisym ex ey).
  change (Pos.compare_cont Eq mx my) with (Pos.compare mx my).
  destruct (ex ?= ey); reflexivity.
Qed.

Lemma SFleb_key (x y : spec_float) :
  x <> S754_nan -> y <> S754_nan ->
  (SFleb x y = true <-> lex_le (key x) (key y)).
Proof.
  intros Hx Hy. unfold SFleb. rewrite (SFcompare_key x y Hx Hy).
  generalize (lex_spec (key x) (key y)).
  destruct (key x) as [[a1 a2] a3], (key y) as [[b1 b2] b3].
  destruct (lex (a1, a2, a3) (b1, b2, b3)); unfold lex_lt, lex_le.
  - intros E. injection E as -> -> ->. split; [lia | reflexivity].
  - intros H. split; [lia | reflexivity].
  - intros H. split; [discriminate | lia].
Qed.

Lemma SFltb_key (x y : spec_float) :
  x <> S754_nan -> y <> S754_nan ->
  (SFltb x y = true <-> lex_lt (key x) (key y)).
Proof.
  intros Hx Hy. unfold SFltb. rewrite (SFcompare_key x y Hx Hy).
  generalize (lex_spec (key x) (key y)).
  destruct (key x) as [[a1 a2] a3], (key y) as [[b1 b2] b3].
  destruct (lex (a1, a2, a3) (b1, b2, b3)); unfold lex_lt.
  - intros E. injection E as -> -> ->. split; [discriminate | lia].
  - intros H. split; [auto | reflexivity].
  - intros H. split; [discriminate | lia].
Qed.

Lemma SFleb_not_nan (x y : spec_float) :
  SFleb x y = true -> x <> S754_nan /\ y <> S754_nan.
Proof.
  unfold SFleb. destruct x, y; simpl; try discriminate; split; congruence.
Qed.

Lemma SFltb_not_nan (x y : spec_float) :
  SFltb x y = true -> x <> S754_nan /\ y <> S754_nan.
Proof.
  unfold SFltb. destruct x, y; simpl; try discriminate; split; congruence.
Qed.

Lemma leb_trans (x y z : float) :
  (x <=? y)%float = true -> (y <=? z)%float = true -> (x <=? z)%float = true.
Proof.
  rewrite !leb_spec. intros Hxy Hyz.
  destruct (SFleb_not_nan _ _ Hxy) as [Hx Hy].
  destruct (SFleb_not_nan _ _ Hyz) as [_ Hz].
  apply SFleb_key in Hxy; auto. apply SFleb_key in Hyz; auto.
  apply SFleb_key; auto.
  destruct (key (Prim2SF x)) as [[a1 a2] a3], (key (Prim2SF y)) as [[b1 b2] b3],
    (key (Prim2SF z)) as [[c1 c2] c3].
  unfold lex_le in *. lia.
Qed.

Lemma leb_of_not_ltb (x y : float) :
  not_nan x -> not_nan y -> (x <? y)%float = false -> (y <=? x)%float = true.
Proof.
  unfold not_nan. rewrite ltb_spec, leb_spec. intros Hx Hy H.
  apply SFleb_key; auto.
  assert (N : ~ lex_lt (key (Prim2SF x)) (key (Prim2SF y))).
  { intros L. apply SFltb_key in L; auto. congruence. }
  destruct (key (Prim2SF x)) as [[a1 a2] a3], (key (Prim2SF y)) as [[b1 b2] b3].
  unfold lex_lt, lex_le in *. lia.
Qed.

Lemma leb_refl (x : float) : not_nan x -> (x <=? x)%float = true.
Proof.
  unfold not_nan. rewrite leb_spec. intros Hx. apply SFleb_key; auto.
  destruct (key (Prim2SF x)) as [[a1 a2] a3]. unfold lex_le. lia.
Qed.

Lemma leb_of_ltb (x y : float) : (x <? y)%float = true -> (x <=? y)%float = true.
Proof.
  rewrite ltb_spec, leb_spec. unfold SFltb, SFleb.
  destruct (SFcompare (Prim2SF x) (Prim2SF y)) as [[| |]|]; congruence.
Qed.

(** A float equal to zero is not below zero, and zero is not below it. *)
Lemma zero_not_negative (x : float) :
  (x =? 0)%float = true -> (x <? 0)%float = false.
Proof.
  rewrite eqb_spec, ltb_spec. unfold SFeqb, SFltb.
  destruct (SFcompare (Prim2SF x) (Prim2SF 0)) as [[| |]|]; congruence.
Qed.

Lemma zero_not_positive (x : float) :
  (x =? 0)%float = true -> (0 <? x)%float = false.
Proof.
  rewrite eqb_spec, ltb_spec. unfold SFeqb, SFltb.
  change (Prim2SF 0) with (S754_zero false).
  destruct (Prim2SF x) as [s|s| |s m e]; try destruct s; simpl; congruence.
Qed.

Lemma not_nan_is_nan (x : float) : not_nan x <-> PrimFloat.is_nan x = false.
Proof.
  unfold not_nan, PrimFloat.is_nan. rewrite eqb_spec. unfold SFeqb. split.
  - intros H. rewrite (SFcompare_key _ _ H H).
    generalize (lex_spec (key (Prim2SF x)) (key (Prim2SF x))).
    destruct (key (Prim2SF x)) as [[a1 a2] a3].
    destruct (lex (a1, a2, a3) (a1, a2, a3)); unfold lex_lt; [reflexivity | lia | lia].
  - intros H E. rewrite E in H. discriminate.
Qed.

(** Below 0.9 and above 1.1 exclude each other. *)
Lemma below_not_above (r : float) :
  (r <? 0.9)%float = true -> (1.1 <? r)%float = false.
Proof.
  intros H. destruct (1.1 <? r)%float eqn:E; [exfalso | reflexivity].
  rewrite ltb_spec in H, E.
  destruct (SFltb_not_nan _ _ H) as [Hr H9].
  destruct (SFltb_not_nan _ _ E) as [H11 _].
  apply SFltb_key in H; auto. apply SFltb_key in E; auto.
  revert H E. set (a := key (Prim2SF 0.9)). set (b := key (Prim2SF 1.1)).
  vm_compute in a, b. subst a b.
  destruct (key (Prim2SF r)) as [[a1 a2] a3]. unfold lex_lt. lia.
Qed.

(* ===================================================================== *)
(** * The steps of [/predict] *)
(* ===================================================================== *)

(** A payload that is a non-empty dict with its four fields, whose domain
    resolves and whose numbers coerce, reaches the range validation; what
    follows depends on the validation errors only. *)
Lemma predict_try_validated (rt : Runtime) (st : app_state) (d : dict)
    (nom : string) (code : Z) (p c m : float) :
  py_bool (JObj d) = true ->
  missing_fields (read_fields d) = [] ->
  predict_resolve rt st (raw_domaine (read_fields d)) = Ok (Resolved nom code) ->
  coerce_numbers rt (read_fields d) = Ok (p, c, m) ->
  predict_try rt st (Ok (JObj d)) =
    match validate_numeric_ranges p c m with
    | [] =>
        predicted_price <- run_model st code p c m ;;
        Ok (Response (success_body rt nom code p c m predicted_price) 200)
    | (_ :: _) as errors => Ok (Response (validation_error_body errors p c m) 400)
    end.
Proof.
  intros Hdata Hmissing Hresolve Hcoerce.
  unfold predict_try. cbn [bind as_dict].
  rewrite Hdata. cbn [negb]. rewrite Hmissing, Hresolve. cbn [bind].
  rewrite Hcoerce. reflexivity.
Qed.

(** The error list, violation by violation. *)
Lemma validate_numeric_ranges_eq (p c m : float) :
  validate_numeric_ranges p c m =
    (if (p <? 0)%float then [msg_prix_concurrent] else [])
    ++ (if (c <? 0)%float then [msg_cout_production] else [])
    ++ (if (m <? 0)%float then [msg_marge_voulue] else [])
    ++ (if (p * 0.9 <? c)%float then [msg_cout_eleve] else []).
Proof.
  unfold validate_numeric_ranges, append_if.
  destruct (p <? 0)%float, (c <? 0)%float, (m <? 0)%float, (p * 0.9 <? c)%float;
    reflexivity.
Qed.

Ltac by_violation p c m :=
  rewrite (validate_numeric_ranges_eq p c m);
  unfold msg_prix_concurrent, msg_cout_production, msg_marge_voulue, msg_cout_eleve;
  destruct (p <? 0)%float, (c <? 0)%float, (m <? 0)%float, (p * 0.9 <? c)%float;
  cbn [app In].

Lemma validate_numeric_ranges_in (p c m : float) :
  let errors := validate_numeric_ranges p c m in
  (In msg_prix_concurrent errors <-> (p <? 0)%float = true)
  /\ (In msg_cout_production errors <-> (c <? 0)%float = true)
  /\ (In msg_marge_voulue errors <-> (m <? 0)%float = true)
  /\ (In msg_cout_eleve errors <-> (p * 0.9 <? c)%float = true).
Proof.
  cbv zeta. repeat split;
    by_violation p c m; intros; try reflexivity; try discriminate; intuition discriminate.
Qed.

(** C6. Range validation reports every violation at once: the message of a
    field is in the list exactly when the field is strictly negative, the
    business-rule message exactly when the production cost exceeds 0.9 times
    the competitor price, whatever the signs; the list holds one message per
    violation and nothing else; and [/predict] answers 400 with the whole
    list when it is not empty. *)
Theorem validate_numeric_ranges_reports_all (p c m : float) :
  let errors := validate_numeric_ranges p c m in
  (In msg_prix_concurrent errors <-> (p <? 0)%float = true)
  /\ (In msg_cout_production errors <-> (c <? 0)%float = true)
  /\ (In msg_marge_voulue errors <-> (m <? 0)%float = true)
  /\ (In msg_cout_eleve errors <-> (p * 0.9 <? c)%float = true)
  /\ len errors = Z.b2z (p <? 0)%float + Z.b2z (c <? 0)%float + Z.b2z (m <? 0)%float
                  + Z.b2z (p * 0.9 <? c)%float
  /\ NoDup errors
  /\ (forall (rt : Runtime) (st : app_state) (d : dict) (nom : string) (code : Z),
        model_loaded st = true ->
        py_bool (JObj d) = true ->
        missing_fields (read_fields d) = [] ->
        predict_resolve rt st (raw_domaine (read_fields d)) = Ok (Resolved nom code) ->
        coerce_numbers rt (read_fields d) = Ok (p, c, m) ->
        errors <> [] ->
        predict rt st (Ok (JObj d)) = Response (validation_error_body errors p c m) 400
        /\ field "details" (validation_error_body errors p c m)
           = Some (json_strings errors)).
Proof.
  cbv zeta.
  destruct (validate_numeric_ranges_in p c m) as (Hp & Hc & Hm & Hb).
  split; [exact Hp |]. split; [exact Hc |]. split; [exact Hm |]. split; [exact Hb |].
  split; [| split].
  - by_violation p c m; reflexivity.
  - by_violation p c m; repeat constructor; cbn [In]; intuition discriminate.
  - intros rt st d nom code Hloaded Hdata Hmissing Hresolve Hcoerce Herrors.
    split; [| reflexivity].
    unfold predict. rewrite Hloaded. cbn [negb].
    rewrite (predict_try_validated rt st d nom code p c m) by assumption.
    destruct (validate_numeric_ranges p c m); [congruence | reflexivity].
Qed.

Lemma validate_numeric_ranges_reports_all_witness :
  let st := startup runtime (trained follow_competitor) in
  let d := [ ("domaine", JStr "Mode"); ("prix_concurrent", JFloat (-10));
             ("cout_production", JFloat (-1)); ("marge_voulue", JFloat (-0.5)) ] in
  let errors := validate_numeric_ranges (-10) (-1) (-0.5) in
  errors = [msg_prix_concurrent; msg_cout_production; msg_marge_voulue; msg_cout_eleve]
  /\ predict runtime st (Ok (JObj d))
     = Response (validation_error_body errors (-10) (-1) (-0.5)) 400.
Proof.
  cbv zeta. split; [reflexivity |].
  destruct (validate_numeric_ranges_reports_all (-10) (-1) (-0.5))
    as (_ & _ & _ & _ & _ & _ & H).
  apply (H runtime (startup runtime (trained follow_competitor))
           [ ("domaine", JStr "Mode"); ("prix_concurrent", JFloat (-10));
             ("cout_production", JFloat (-1)); ("marge_voulue", JFloat (-0.5)) ]
           "Mode" 3); try reflexivity.
  vm_compute. discriminate.
Defined.

(** Two answers that differ by their status code, or an answer equated to an
    exception. *)
Ltac absurd_answer H :=
  solve [ discriminate H
        | injection H; intros; discriminate
        | injection H; intros; subst; discriminate ].

(** The same after the handlers of the domain block have been run through. *)
Ltac stuck_answer H :=
  cbn [bind] in H;
  first [ absurd_answer H
        | match type of H with
          | context [caught ?cs ?e] => destruct (caught cs e); stuck_answer H
          | context [the_classes ?st] => destruct (the_classes st); stuck_answer H
          | context [jsonify_mapping ?m] => destruct (jsonify_mapping m); stuck_answer H
          end ].

(** A 200 answer of [/predict] comes from the last line of the handler: the
    payload is a dict with its four fields, the domain resolves, the numbers
    coerce and pass the validation, and the model gives a price. *)
Lemma predict_success_inv (rt : Runtime) (st : app_state) (payload : result json)
    (body : json) :
  predict rt st payload = Response body 200 ->
  exists d nom code p c m price,
    payload = Ok (JObj d)
    /\ model_loaded st = true
    /\ missing_fields (read_fields d) = []
    /\ predict_resolve rt st (raw_domaine (read_fields d)) = Ok (Resolved nom code)
    /\ coerce_numbers rt (read_fields d) = Ok (p, c, m)
    /\ validate_numeric_ranges p c m = []
    /\ run_model st code p c m = Ok price
    /\ body = success_body rt nom code p c m price.
Proof.
  unfold predict.
  destruct (model_loaded st) eqn:L; cbn [negb]; [| discriminate].
  destruct (predict_try rt st payload) as [r | e] eqn:T; [| discriminate].
  intros ->. unfold predict_try in T.
  destruct payload as [data | e]; cbn [bind] in T; [| absurd_answer T].
  destruct (py_bool data); cbn [negb] in T; [| absurd_answer T].
  destruct data; cbn [as_dict bind] in T; try absurd_answer T.
  destruct (missing_fields (read_fields fields)) eqn:M.
  2: { destruct (the_classes st); cbn [bind] in T; absurd_answer T. }
  destruct (predict_resolve rt st (raw_domaine (read_fields fields)))
    as [[nom code | s | v] | e] eqn:R; cbn [bind] in T.
  - destruct (coerce_numbers rt (read_fields fields)) as [[[p c] m] | e] eqn:C.
    + destruct (validate_numeric_ranges p c m) eqn:V.
      * destruct (run_model st code p c m) as [price | e] eqn:P; cbn [bind] in T;
          [| absurd_answer T].
        injection T as <-.
        exists fields, nom, code, p, c, m, price. repeat split; assumption.
      * absurd_answer T.
    + stuck_answer T.
  - stuck_answer T.
  - stuck_answer T.
  - stuck_answer T.
Qed.

(** The fields of a successful answer that the claims read. *)
Lemma success_body_fields (rt : Runtime) (nom : string) (code : Z)
    (p c m price : float) :
  let body := success_body rt nom code p c m price in
  let ratio := ratio_concurrent price p in
  field "prix_predit" body = Some (JFloat (py_round price 2))
  /\ field2 "analyse_economique" "ratio_prix_concurrent" body = Some (rounded_ratio ratio)
  /\ field2 "analyse_economique" "strategie_prix" body = Some (JStr (strategie_prix ratio))
  /\ field2 "recommandations" "competitivite" body = Some (JStr (competitivite ratio))
  /\ field "statut" body = Some (JStr "success").
Proof. cbv zeta. repeat split. Qed.

(** With a ratio that is not zero, the strategy follows the two thresholds. *)
Lemma strategie_prix_nonzero (r : float) :
  PyFloat.truthy r = true ->
  (strategie_prix (Some r) = "Agressive (prix bas)" <-> (r <? 0.9)%float = true)
  /\ (strategie_prix (Some r) = "Premium (prix élevé)" <-> (1.1 <? r)%float = true)
  /\ (strategie_prix (Some r) = "Équilibrée"
      <-> (r <? 0.9)%float = false /\ (1.1 <? r)%float = false).
Proof.
  intros Ht. unfold strategie_prix, ratio_and. rewrite Ht. cbn [andb].
  destruct (r <? 0.9)%float eqn:Hlow.
  - rewrite (below_not_above r Hlow).
    repeat split; intros; try reflexivity; try discriminate.
    destruct H; discriminate.
  - destruct (1.1 <? r)%float; repeat split; intros; try reflexivity; try discriminate.
    destruct H; discriminate.
Qed.

(** C9. With the model-loaded flag false, each of the four endpoints answers
    500 with its fixed body, whose [error] field reads "Modèle non chargé":
    the answer is the same whatever the request holds (a payload, or an
    exception raised while reading it) and whatever the other globals
    hold. *)
Theorem not_loaded_short_circuit (rt : Runtime) (st : app_state)
    (payload batch_payload : result json) :
  model_loaded st = false ->
  get_domains st = Response not_loaded_body 500
  /\ predict rt st payload = Response not_loaded_predict 500
  /\ predict_batch rt st batch_payload = Response not_loaded_batch 500
  /\ model_info_endpoint rt st = Response not_loaded_body 500
  /\ field "error" not_loaded_body = Some (JStr "Modèle non chargé")
  /\ field "error" not_loaded_predict = Some (JStr "Modèle non chargé")
  /\ field "error" not_loaded_batch = Some (JStr "Modèle non chargé").
Proof.
  intros Hflag.
  unfold get_domains, predict, predict_batch, model_info_endpoint.
  rewrite Hflag. cbn [negb]. repeat split.
Qed.

Lemma not_loaded_short_circuit_witness :
  model_loaded (startup runtime untrained) = false
  /\ predict runtime (startup runtime untrained) (Ok (record (JStr "Mode") 750 500 0.6))
     = Response not_loaded_predict 500.
Proof.
  split; [reflexivity |].
  apply (not_loaded_short_circuit runtime (startup runtime untrained)
           (Ok (record (JStr "Mode") 750 500 0.6)) (Ok JNull)).
  reflexivity.
Defined.

(** A failed load leaves the flag false, and a flag that is true comes with
    the four artifacts in place. *)
Lemma startup_flag (rt : Runtime) (a : artifacts) :
  model_loaded (startup rt a) = snd (load_model_components rt a initial_state).
Proof.
  unfold startup. destruct (load_model_components rt a initial_state). reflexivity.
Qed.


(** The coerced competitor price of a payload. *)
Lemma coerce_numbers_prix (rt : Runtime) (d : dict) (p c m : float) :
  coerce_numbers rt (read_fields d) = Ok (p, c, m) ->
  py_float rt (dict_get d "prix_concurrent") = Ok p.
Proof.
  unfold coerce_numbers, read_fields. cbn [raw_prix_concurrent raw_cout_production
    raw_marge_voulue].
  destruct (py_float rt (dict_get d "prix_concurrent")) as [p' |]; cbn [bind];
    [| discriminate].
  destruct (py_float rt (dict_get d "cout_production")) as [c' |]; cbn [bind];
    [| discriminate].
  destruct (py_float rt (dict_get d "marge_voulue")) as [m' |]; cbn [bind];
    [| discriminate].
  intros H. injection H as -> _ _. reflexivity.
Qed.

(** C10. A field equal to zero draws no positivity error from the range
    validation; a prediction whose competitor price is zero, when it
    succeeds, carries a null price ratio and the "À ajuster" competitiveness;
    and such a request does succeed on a loaded model. *)
Theorem zero_values_pass_validation :
  (forall p c m : float,
      ((p =? 0)%float = true -> ~ In msg_prix_concurrent (validate_numeric_ranges p c m))
      /\ ((c =? 0)%float = true -> ~ In msg_cout_production (validate_numeric_ranges p c m))
      /\ ((m =? 0)%float = true -> ~ In msg_marge_voulue (validate_numeric_ranges p c m)))
  /\ (forall (rt : Runtime) (st : app_state) (d : dict) (p : float) (body : json),
        py_float rt (dict_get d "prix_concurrent") = Ok p ->
        (p =? 0)%float = true ->
        predict rt st (Ok (JObj d)) = Response body 200 ->
        field2 "analyse_economique" "ratio_prix_concurrent" body = Some JNull
        /\ field2 "recommandations" "competitivite" body = Some (JStr "À ajuster"))
  /\ (exists body : json,
        predict runtime (startup runtime (trained follow_competitor))
                (Ok (record (JStr "Mode") 0 0 0.6)) = Response body 200).
Proof.
  split; [| split].
  - intros p c m.
    destruct (validate_numeric_ranges_in p c m) as (Hp & Hc & Hm & _).
    repeat split; intros Hz Hin.
    + apply Hp in Hin. rewrite (zero_not_negative p Hz) in Hin. discriminate.
    + apply Hc in Hin. rewrite (zero_not_negative c Hz) in Hin. discriminate.
    + apply Hm in Hin. rewrite (zero_not_negative m Hz) in Hin. discriminate.
  - intros rt st d p body Hprix Hz Hok.
    destruct (predict_success_inv rt st _ body Hok)
      as (d' & nom & code & p' & c & m & price & Hd & _ & _ & _ & Hc & _ & _ & ->).
    injection Hd as <-.
    apply coerce_numbers_prix in Hc. rewrite Hprix in Hc. injection Hc as <-.
    destruct (success_body_fields rt nom code p c m price) as (_ & Hr & _ & Hk & _).
    rewrite Hr, Hk. unfold ratio_concurrent. rewrite (zero_not_positive p Hz).
    split; reflexivity.
  - eexists. vm_compute. reflexivity.
Qed.

Lemma zero_values_pass_validation_witness :
  let st := startup runtime (trained follow_competitor) in
  let d := [ ("domaine", JStr "Mode"); ("prix_concurrent", JFloat 0);
             ("cout_production", JFloat 0); ("marge_voulue", JFloat 0.6) ] in
  status_of (predict runtime st (Ok (JObj d))) = 200
  /\ field2 "analyse_economique" "ratio_prix_concurrent"
            (success_body runtime "Mode" 3 0 0 0.6 0) = Some JNull
  /\ field2 "recommandations" "competitivite"
            (success_body runtime "Mode" 3 0 0 0.6 0) = Some (JStr "À ajuster").
Proof.
  cbv zeta. split; [reflexivity |].
  destruct zero_values_pass_validation as (_ & H & _).
  apply (H runtime (startup runtime (trained follow_competitor))
           [ ("domaine", JStr "Mode"); ("prix_concurrent", JFloat 0);
             ("cout_production", JFloat 0); ("marge_voulue", JFloat 0.6) ] 0%float);
    reflexivity.
Defined.

(* ===================================================================== *)
(** * The price ratio and the strategy *)
(* ===================================================================== *)

(** C2, at the failing input. The model prices at 1.6 times the cost; a
    request for domain 3 with competitor price 750, cost 0 and margin 0.6
    succeeds with a predicted price of 0. The ratio 0 / 750 is computed and
    is below 0.9, and the strategy returned is "Équilibrée", not
    "Agressive (prix bas)": the test [ratio_concurrent and ...] takes a zero
    ratio for a missing one. *)
Theorem zero_ratio_is_balanced :
  let st := startup runtime (trained cost_plus) in
  let payload := Ok (record (JInt 3) 750 0 0.6) in
  predict runtime st payload = Response (success_body runtime "Mode" 3 750 0 0.6 0) 200
  /\ ratio_concurrent 0 750 = Some 0%float
  /\ (0 <? 0.9)%float = true
  /\ field2 "analyse_economique" "strategie_prix" (success_body runtime "Mode" 3 750 0 0.6 0)
     = Some (JStr "Équilibrée").
Proof. cbv zeta. repeat split. Qed.

(** C3, at the same input. The competitor price is 750, not 0, and the
    [ratio_prix_concurrent] field is null: [round(...) if ratio_concurrent
    else None] takes the zero ratio for a missing one. *)
Theorem zero_ratio_is_null :
  let st := startup runtime (trained cost_plus) in
  let payload := Ok (record (JInt 3) 750 0 0.6) in
  predict runtime st payload = Response (success_body runtime "Mode" 3 750 0 0.6 0) 200
  /\ (750 =? 0)%float = false
  /\ ratio_concurrent 0 750 = Some 0%float
  /\ field2 "analyse_economique" "ratio_prix_concurrent"
            (success_body runtime "Mode" 3 750 0 0.6 0) = Some JNull.
Proof. cbv zeta. repeat split. Qed.

(** Away from that case the ratio field is as the specification has it:
    null when the competitor price is zero, the rounded quotient when the
    quotient is not zero. *)
Lemma ratio_field_nonzero (rt : Runtime) (st : app_state) (payload : result json)
    (body : json) :
  predict rt st payload = Response body 200 ->
  exists d p c m price,
    payload = Ok (JObj d)
    /\ coerce_numbers rt (read_fields d) = Ok (p, c, m)
    /\ field "prix_predit" body = Some (JFloat (py_round price 2))
    /\ ((p =? 0)%float = true ->
        field2 "analyse_economique" "ratio_prix_concurrent" body = Some JNull)
    /\ ((0 <? p)%float = true -> PyFloat.truthy (price / p) = true ->
        field2 "analyse_economique" "ratio_prix_concurrent" body
        = Some (JFloat (py_round (price / p) 3))
        /\ field2 "analyse_economique" "strategie_prix" body
           = Some (JStr (strategie_prix (Some (price / p)%float)))).
Proof.
  intros Hok.
  destruct (predict_success_inv rt st payload body Hok)
    as (d & nom & code & p & c & m & price & -> & _ & _ & _ & Hc & _ & _ & ->).
  exists d, p, c, m, price.
  destruct (success_body_fields rt nom code p c m price) as (Hprix & Hr & Hs & _ & _).
  repeat split; try assumption.
  - intros Hz. rewrite Hr. unfold ratio_concurrent.
    rewrite (zero_not_positive p Hz). reflexivity.
  - rewrite Hr. unfold ratio_concurrent, rounded_ratio. rewrite H, H0. reflexivity.
  - rewrite Hs. unfold ratio_concurrent. rewrite H. reflexivity.
Qed.

(* ===================================================================== *)
(** * Domain resolution *)
(* ===================================================================== *)

(** C1, at two failing inputs. On "Mode Femme", which contains the name
    "Mode", the single path resolves to ("Mode", 3) and the batch path fails
    with domain not recognized: the batch filter only keeps the names that
    contain the input. On "artisan" the two paths resolve to different
    domains: "Art" (contained in the input) comes first in the single path,
    "Artisanat" (containing the input) is the only match of the batch path.
    The entries of the two endpoints differ accordingly. *)
Theorem fuzzy_paths_differ :
  let st := startup runtime (trained follow_competitor) in
  predict_resolve runtime st (JStr "Mode Femme") = Ok (Resolved "Mode" 3)
  /\ batch_resolve runtime st (JStr "Mode Femme") = Ok (NotRecognized "Mode Femme")
  /\ predict_resolve runtime crafts_state (JStr "artisan") = Ok (Resolved "Art" 0)
  /\ batch_resolve runtime crafts_state (JStr "artisan") = Ok (Resolved "Artisanat" 1)
  /\ status_of (predict runtime st (Ok (record (JStr "Mode Femme") 750 500 0.6))) = 200
  /\ statut (batch_item runtime st 0 (record (JStr "Mode Femme") 750 500 0.6))
     = "error".
Proof. cbv zeta. repeat split. Qed.

(** Where no fuzzy matching takes place the two paths do agree: on a value
    that is not a string, and on a string that is a category name. *)
Lemma resolve_paths_agree_exact (rt : Runtime) (st : app_state) (domaine : json) :
  match domaine with
  | JStr s => forall classes, the_classes st = Ok classes -> PyStr.mem s classes = true
  | _ => True
  end ->
  predict_resolve rt st domaine = batch_resolve rt st domaine.
Proof.
  destruct domaine; try reflexivity.
  intros H. unfold predict_resolve, batch_resolve.
  destruct (the_classes st) as [classes |]; [| reflexivity].
  cbn [bind]. rewrite (H classes eq_refl). reflexivity.
Qed.

(** Whatever the batch path resolves by fuzzy matching is a match of the
    single path too (which may prefer an earlier one). *)
Lemma batch_match_is_single_match (rt : Runtime) (domaine d : string) :
  batch_fuzzy_match rt domaine d = true -> fuzzy_match rt domaine d = true.
Proof.
  unfold batch_fuzzy_match, fuzzy_match. intros ->. reflexivity.
Qed.

Lemma index_of_nth (x : string) (xs : list string) (i : Z) :
  index_of x xs = Some i ->
  0 <= i < len xs /\ nth_error xs (Z.to_nat i) = Some x.
Proof.
  revert i. induction xs as [| y rest IH]; intros i; cbn [index_of]; [discriminate |].
  destruct (String.eqb_spec x y) as [-> | Hne].
  - intros H. injection H as <-. unfold len. cbn [List.length nth_error Z.to_nat].
    split; [lia | reflexivity].
  - destruct (index_of x rest) as [j |]; [| discriminate].
    intros H. injection H as <-.
    destruct (IH j eq_refl) as [Hj Hnth]. unfold len in *. cbn [List.length].
    split; [lia |].
    replace (Z.to_nat (j + 1)) with (S (Z.to_nat j)) by lia. exact Hnth.
Qed.

Lemma index_of_In (x : string) (xs : list string) :
  In x xs -> exists i, index_of x xs = Some i.
Proof.
  induction xs as [| y rest IH]; cbn [In index_of]; [tauto |].
  intros [-> | Hin].
  - rewrite String.eqb_refl. eauto.
  - destruct (String.eqb x y); [eauto |].
    destruct (IH Hin) as [i ->]. eauto.
Qed.

Lemma mem_In (x : string) (xs : list string) : PyStr.mem x xs = true <-> In x xs.
Proof.
  unfold PyStr.mem. rewrite existsb_exists. split.
  - intros (y & Hin & Heq). apply String.eqb_eq in Heq. subst. exact Hin.
  - intros Hin. exists x. split; [exact Hin | apply String.eqb_refl].
Qed.

(** C5. For a name of the encoder's category set, encoding gives a code in
    range and decoding that code gives the name back; resolving the name and
    resolving its code yield the same canonical name and code, in the single
    path and in the batch path. *)
Theorem resolve_name_code_roundtrip (rt : Runtime) (st : app_state)
    (enc : LabelEncoder) (name : string) :
  label_encoder st = Some enc ->
  In name (classes_ enc) ->
  exists code : Z,
    transform enc name = Ok code
    /\ 0 <= code < len (classes_ enc)
    /\ subscript "classes_" (classes_ enc) code = Ok name
    /\ predict_resolve rt st (JStr name) = Ok (Resolved name code)
    /\ predict_resolve rt st (JInt code) = Ok (Resolved name code)
    /\ batch_resolve rt st (JStr name) = Ok (Resolved name code)
    /\ batch_resolve rt st (JInt code) = Ok (Resolved name code).
Proof.
  intros Henc Hin.
  destruct (index_of_In name (classes_ enc) Hin) as [code Hcode].
  destruct (index_of_nth name (classes_ enc) code Hcode) as [Hrange Hnth].
  assert (Hmem : PyStr.mem name (classes_ enc) = true) by (apply mem_In; exact Hin).
  assert (Hlow : (code <? 0) = false) by lia.
  assert (Hhigh : (code >=? len (classes_ enc)) = false) by lia.
  exists code.
  unfold predict_resolve, batch_resolve, the_classes, transform, subscript, py_int.
  rewrite Henc. cbn [need bind]. rewrite Hmem, Hcode, Hnth, Hlow, Hhigh.
  cbn [negb orb bind]. repeat split; lia.
Qed.

Lemma resolve_name_code_roundtrip_witness :
  exists code : Z,
    transform encoder "Maison" = Ok code
    /\ 0 <= code < len (classes_ encoder)
    /\ subscript "classes_" (classes_ encoder) code = Ok "Maison"
    /\ predict_resolve runtime (startup runtime (trained follow_competitor)) (JStr "Maison")
       = Ok (Resolved "Maison" code)
    /\ predict_resolve runtime (startup runtime (trained follow_competitor)) (JInt code)
       = Ok (Resolved "Maison" code)
    /\ batch_resolve runtime (startup runtime (trained follow_competitor)) (JStr "Maison")
       = Ok (Resolved "Maison" code)
    /\ batch_resolve runtime (startup runtime (trained follow_competitor)) (JInt code)
       = Ok (Resolved "Maison" code).
Proof.
  apply (resolve_name_code_roundtrip runtime (startup runtime (trained follow_competitor))
           encoder "Maison").
  - reflexivity.
  - cbn. tauto.
Defined.

(* ===================================================================== *)
(** * Missing fields *)
(* ===================================================================== *)

(** The missing fields are the required names that [.get] maps to [None]. *)
Lemma missing_fields_eq (d : dict) :
  missing_fields (read_fields d)
  = filter (fun name => is_none (dict_get d name)) required_fields.
Proof.
  unfold missing_fields, read_fields, required_fields, append_if.
  cbn [raw_domaine raw_prix_concurrent raw_cout_production raw_marge_voulue filter].
  destruct (is_none (dict_get d "domaine")), (is_none (dict_get d "prix_concurrent")),
    (is_none (dict_get d "cout_production")), (is_none (dict_get d "marge_voulue"));
    reflexivity.
Qed.

Lemma is_none_spec (v : json) : is_none v = true <-> v = JNull.
Proof. destruct v; cbn; split; intros H; try discriminate; reflexivity. Qed.

(** A payload that is true but not a dict has no [.get]: the outer handler
    answers 500. So does a payload that could not be read. *)
Lemma non_dict_payload_is_internal_error (rt : Runtime) (st : app_state) (data : json) :
  model_loaded st = true ->
  py_bool data = true ->
  (forall d, data <> JObj d) ->
  predict rt st (Ok data)
  = Response (internal_error_body rt (Raised AttributeError "get" data)) 500.
Proof.
  intros Hloaded Htrue Hdict. unfold predict, predict_try. rewrite Hloaded.
  cbn [negb bind]. rewrite Htrue. cbn [negb].
  destruct data; try reflexivity. elim (Hdict fields). reflexivity.
Qed.

Lemma unread_payload_is_internal_error (rt : Runtime) (st : app_state) (e : exn) :
  model_loaded st = true ->
  predict rt st (Raise e) = Response (internal_error_body rt e) 500.
Proof.
  intros Hloaded. unfold predict, predict_try. rewrite Hloaded. reflexivity.
Qed.

(** C7, the counterexample. The payload [{}] lacks the four fields; the
    answer is the 400 of a missing payload, which lists no missing field and
    shows the expected types, not an example payload. *)
Lemma empty_payload_counterexample :
  let st := startup runtime (trained follow_competitor) in
  missing_fields (read_fields []) = required_fields
  /\ predict runtime st (Ok (JObj [])) = Response no_data_body 400
  /\ field "manquantes" no_data_body = None
  /\ field "exemple_complet" no_data_body = None
  /\ field "format_attendu" no_data_body
     = Some (JObj [ ("domaine", JStr "string ou int");
                    ("prix_concurrent", JStr "float");
                    ("cout_production", JStr "float");
                    ("marge_voulue", JStr "float") ]).
Proof. cbv zeta. repeat split. Qed.

(** C7, amended. On a loaded model, a payload that is absent or empty (a
    false value: [None], [{}], ...) is answered 400 with the fixed
    "Aucune donnée JSON fournie" body; a payload that is a non-empty dict
    lacking at least one of the four fields (absent, or null) is answered
    400 with [manquantes] listing exactly the lacking fields, in the order
    of the four names, and with the example payload. *)
Theorem missing_fields_reported (rt : Runtime) (st : app_state) (enc : LabelEncoder)
    (data : json) :
  model_loaded st = true ->
  label_encoder st = Some enc ->
  (py_bool data = false -> predict rt st (Ok data) = Response no_data_body 400)
  /\ (forall d : dict,
        data = JObj d -> d <> [] ->
        (exists name, In name required_fields /\ dict_get d name = JNull) ->
        let missing := filter (fun name => is_none (dict_get d name)) required_fields in
        predict rt st (Ok data) = Response (missing_body missing (classes_ enc)) 400
        /\ field "manquantes" (missing_body missing (classes_ enc))
           = Some (json_strings missing)
        /\ field "exemple_complet" (missing_body missing (classes_ enc))
           = Some exemple_complet
        /\ (forall name, In name missing
                         <-> In name required_fields /\ dict_get d name = JNull)).
Proof.
  intros Hloaded Henc. split.
  - intros Hfalse. unfold predict. rewrite Hloaded. cbn [negb].
    unfold predict_try. cbn [bind]. rewrite Hfalse. reflexivity.
  - intros d -> Hne (name & Hin & Hnull). cbv zeta.
    assert (Hfilter : forall n,
               In n (filter (fun name => is_none (dict_get d name)) required_fields)
               <-> In n required_fields /\ dict_get d n = JNull).
    { intros n. rewrite filter_In, is_none_spec. reflexivity. }
    split; [| repeat split; apply Hfilter; assumption].
    unfold predict. rewrite Hloaded. cbn [negb].
    unfold predict_try. cbn [bind as_dict].
    assert (Htrue : py_bool (JObj d) = true) by (destruct d; [congruence | reflexivity]).
    rewrite Htrue. cbn [negb]. rewrite missing_fields_eq.
    destruct (filter (fun name => is_none (dict_get d name)) required_fields)
      as [| m0 rest] eqn:Hmissing.
    + exfalso. assert (Hnone : In name []) by (apply Hfilter; split; assumption).
      exact Hnone.
    + unfold the_classes. rewrite Henc. reflexivity.
Qed.

Lemma missing_fields_reported_witness :
  let st := startup runtime (trained follow_competitor) in
  let d := [ ("domaine", JStr "Mode"); ("cout_production", JNull);
             ("marge_voulue", JFloat 0.6) ] in
  predict runtime st (Ok JNull) = Response no_data_body 400
  /\ predict runtime st (Ok (JObj d))
     = Response (missing_body ["prix_concurrent"; "cout_production"] (classes_ encoder)) 400.
Proof.
  cbv zeta.
  destruct (missing_fields_reported runtime (startup runtime (trained follow_competitor))
              encoder JNull eq_refl eq_refl) as [Habsent _].
  destruct (missing_fields_reported runtime (startup runtime (trained follow_competitor))
              encoder
              (JObj [ ("domaine", JStr "Mode"); ("cout_production", JNull);
                      ("marge_voulue", JFloat 0.6) ]) eq_refl eq_refl) as [_ Hdict].
  split.
  - apply Habsent. reflexivity.
  - apply (Hdict _ eq_refl).
    + discriminate.
    + exists "prix_concurrent". split; [cbn; tauto | reflexivity].
Defined.

(* ===================================================================== *)
(** * The batch loop and its statistics *)
(* ===================================================================== *)

Lemma batch_loop_app (rt : Runtime) (st : app_state) (items : list json) :
  forall (i : Z) (results : list batch_entry),
    batch_loop rt st i items results = results ++ batch_loop rt st i items [].
Proof.
  induction items as [| item rest IH]; intros i results; cbn [batch_loop].
  - rewrite app_nil_r. reflexivity.
  - rewrite (IH (i + 1) (results ++ [batch_item rt st i item])).
    rewrite (IH (i + 1) ([] ++ [batch_item rt st i item])).
    rewrite <- app_assoc. reflexivity.
Qed.

(** One entry per record. *)
Lemma batch_loop_length (rt : Runtime) (st : app_state) (items : list json) (i : Z) :
  len (batch_loop rt st i items []) = len items.
Proof.
  unfold len. f_equal. revert i.
  induction items as [| item rest IH]; intros i; cbn [batch_loop].
  - reflexivity.
  - rewrite batch_loop_app, length_app, IH. reflexivity.
Qed.

(** Every entry is a success or an error. *)
Lemma statut_partition (results : list batch_entry) :
  len (filter (has_statut "success") results) + len (filter (has_statut "error") results)
  = len results.
Proof.
  unfold len. induction results as [| r rest IH]; [reflexivity |].
  destruct r; cbn [filter has_statut statut String.eqb Ascii.eqb Bool.eqb andb List.length];
    cbn [List.length] in *; lia.
Qed.

Lemma success_prices_filter (results : list batch_entry) :
  map_result prix_predit_of (filter (has_statut "success") results)
  = Ok (success_prices results)
  /\ len (filter (has_statut "success") results) = len (success_prices results).
Proof.
  unfold len. induction results as [| r rest [IHm IHl]]; [split; reflexivity |].
  destruct r as [i prix nom marge ratio item | i error more item].
  - change (filter (has_statut "success") (Success i prix nom marge ratio item :: rest))
      with (Success i prix nom marge ratio item :: filter (has_statut "success") rest).
    change (success_prices (Success i prix nom marge ratio item :: rest))
      with (prix :: success_prices rest).
    cbn [map_result prix_predit_of bind List.length]. rewrite IHm. cbn [bind].
    split; [reflexivity | lia].
  - change (filter (has_statut "success") (Failure i error more item :: rest))
      with (filter (has_statut "success") rest).
    change (success_prices (Failure i error more item :: rest))
      with (success_prices rest).
    split; assumption.
Qed.

Lemma filter_success_nil (results : list batch_entry) :
  filter (has_statut "success") results = [] <-> success_prices results = [].
Proof.
  destruct (success_prices_filter results) as [_ Hlen]. unfold len in Hlen.
  split; intros H; rewrite H in Hlen; cbn [List.length] in Hlen.
  - destruct (success_prices results); [reflexivity | cbn [List.length] in Hlen; lia].
  - destruct (filter (has_statut "success") results);
      [reflexivity | cbn [List.length] in Hlen; lia].
Qed.

(** The statistics never raise, and read as follows. *)
Lemma statistiques_eq (results : list batch_entry) :
  let n_success := len (success_prices results) in
  statistiques results =
    Ok (JObj [ ("total", JInt (len results));
               ("succes", JInt n_success);
               ("erreurs", JInt (len results - n_success));
               ("taux_succes", taux_succes n_success (len results));
               ("prix_range",
                 match success_prices results with
                 | [] => JNull
                 | x :: rest =>
                     JObj [ ("min", JFloat (py_min x rest));
                            ("max", JFloat (py_max x rest));
                            ("moyenne",
                              JFloat (py_round (py_sum (x :: rest) / of_len n_success) 2)) ]
                 end) ]).
Proof.
  cbv zeta. unfold statistiques, price_range.
  destruct (success_prices_filter results) as [Hmap Hlen].
  pose proof (statut_partition results) as Hpart.
  pose proof (filter_success_nil results) as Hnil.
  replace (len (filter (has_statut "error") results))
    with (len results - len (success_prices results)) by lia.
  rewrite Hlen.
  destruct (filter (has_statut "success") results) as [| r0 rs] eqn:Hf.
  - destruct Hnil as [Hnil _]. rewrite (Hnil eq_refl). reflexivity.
  - rewrite Hmap. cbn [bind].
    destruct (success_prices results) as [| x rest] eqn:Hs.
    + destruct Hnil as [_ Hnil]. discriminate (Hnil eq_refl).
    + reflexivity.
Qed.

(** A 200 answer of [/predict_batch] comes from the last line of the handler:
    the payload holds a [predictions] value that can be iterated, every
    record got its entry, and the statistics were computed over them. *)
Lemma batch_success_inv (rt : Runtime) (st : app_state) (payload : result json)
    (body : json) :
  predict_batch rt st payload = Response body 200 ->
  exists data predictions_data items stats,
    payload = Ok data
    /\ model_loaded st = true
    /\ get_predictions data = Ok predictions_data
    /\ py_iter predictions_data = Ok items
    /\ statistiques (batch_loop rt st 0 items []) = Ok stats
    /\ body = JObj [ ("predictions", JList (map entry_json (batch_loop rt st 0 items [])));
                     ("statistiques", stats);
                     ("timestamp", JStr (now rt)) ].
Proof.
  unfold predict_batch.
  destruct (model_loaded st) eqn:L; cbn [negb]; [| discriminate].
  destruct (batch_try rt st payload) as [r | e] eqn:T; [| discriminate].
  intros ->. unfold batch_try in T.
  destruct payload as [data | e]; cbn [bind] in T; [| discriminate T].
  destruct (py_bool data); cbn [negb] in T; [| absurd_answer T].
  destruct (has_predictions data) as [present | e]; cbn [bind] in T; [| discriminate T].
  destruct present; cbn [negb] in T; [| absurd_answer T].
  destruct (get_predictions data) as [pd | e] eqn:G; cbn [bind] in T; [| discriminate T].
  destruct (py_iter pd) as [items | e] eqn:I; cbn [bind] in T; [| discriminate T].
  destruct (statistiques (batch_loop rt st 0 items [])) as [stats | e] eqn:S;
    cbn [bind] in T; [| discriminate T].
  injection T as <-.
  exists data, pd, items, stats. repeat split; assumption.
Qed.

(** C8, the counterexample. Of 80 records, 23 succeed. The rate
    100 * 23 / 80 is 28.75, which rounds to 28.8 (so does Python's
    [round(100 * 23 / 80, 1)]); the handler divides first, and its
    [round(23 / 80 * 100, 1)] is 28.7. *)
Lemma success_rate_counterexample :
  let st := startup runtime (trained follow_competitor) in
  let payload :=
    Ok (JObj [("predictions",
               JList (repeat (record (JStr "Mode") 750 500 0.6) 23
                      ++ repeat (record (JStr "Inconnu") 750 500 0.6) 57))]) in
  let body := body_of (predict_batch runtime st payload) in
  field2 "statistiques" "total" body = Some (JInt 80)
  /\ field2 "statistiques" "succes" body = Some (JInt 23)
  /\ field2 "statistiques" "taux_succes" body = Some (JFloat 28.7)
  /\ exact_rate 23 80 = 28.8%float
  /\ py_round (PyFloat.int_truediv (100 * 23) 80) 1 = 28.8%float
  /\ (28.7 =? 28.8)%float = false.
Proof. cbv zeta. repeat split; vm_compute; reflexivity. Qed.

(** C8, amended. In a 200 answer of [/predict_batch], [total] is the number
    of records, [succes] and [erreurs] count the entries of each [statut]
    and add up to [total], and [taux_succes] is the int 0 for an empty batch
    and otherwise the float quotient [succes / total], multiplied by 100 in
    binary64, rounded to one decimal. The empty batch is answered 200 with a
    rate of 0. *)
Theorem batch_success_rate :
  (forall (rt : Runtime) (st : app_state) (payload : result json) (body : json),
      predict_batch rt st payload = Response body 200 ->
      exists items : list json,
        let results := batch_loop rt st 0 items [] in
        let total := len results in
        let succes := len (filter (has_statut "success") results) in
        let erreurs := len (filter (has_statut "error") results) in
        (exists data predictions_data,
            payload = Ok data
            /\ get_predictions data = Ok predictions_data
            /\ py_iter predictions_data = Ok items)
        /\ total = len items
        /\ field2 "statistiques" "total" body = Some (JInt total)
        /\ field2 "statistiques" "succes" body = Some (JInt succes)
        /\ field2 "statistiques" "erreurs" body = Some (JInt erreurs)
        /\ total = succes + erreurs
        /\ field2 "statistiques" "taux_succes" body
           = Some (if total =? 0 then JInt 0
                   else JFloat (py_round (PyFloat.int_truediv succes total * 100)%float 1)))
  /\ (forall (rt : Runtime) (st : app_state),
        model_loaded st = true ->
        exists body : json,
          predict_batch rt st (Ok (JObj [("predictions", JList [])])) = Response body 200
          /\ field2 "statistiques" "total" body = Some (JInt 0)
          /\ field2 "statistiques" "taux_succes" body = Some (JInt 0)).
Proof.
  split.
  - intros rt st payload body Hok.
    destruct (batch_success_inv rt st payload body Hok)
      as (data & pd & items & stats & -> & _ & Hget & Hiter & Hstats & ->).
    exists items. cbv zeta.
    pose proof (statut_partition (batch_loop rt st 0 items [])) as Hpart.
    destruct (success_prices_filter (batch_loop rt st 0 items [])) as [_ Hlen].
    rewrite statistiques_eq in Hstats. cbv zeta in Hstats. injection Hstats as <-.
    rewrite Hlen.
    replace (len (filter (has_statut "error") (batch_loop rt st 0 items [])))
      with (len (batch_loop rt st 0 items [])
            - len (success_prices (batch_loop rt st 0 items []))) by lia.
    split; [exists data, pd; repeat split; assumption |].
    split; [apply batch_loop_length |].
    repeat split. lia.
  - intros rt st Hloaded. eexists. unfold predict_batch. rewrite Hloaded.
    cbn. repeat split.
Qed.

Lemma batch_success_rate_witness :
  let st := startup runtime (trained follow_competitor) in
  let payload :=
    Ok (JObj [("predictions",
               JList [ record (JStr "Mode") 750 500 0.6;
                       record (JStr "Inconnu") 750 500 0.6;
                       record (JInt 1) 100 50 0.5 ])]) in
  let body := body_of (predict_batch runtime st payload) in
  field2 "statistiques" "taux_succes" body = Some (JFloat 66.7)
  /\ exists items : list json,
       let results := batch_loop runtime st 0 items [] in
       let total := len results in
       let succes := len (filter (has_statut "success") results) in
       let erreurs := len (filter (has_statut "error") results) in
       (exists data predictions_data,
           payload = Ok data
           /\ get_predictions data = Ok predictions_data
           /\ py_iter predictions_data = Ok items)
       /\ total = len items
       /\ field2 "statistiques" "total" body = Some (JInt total)
       /\ field2 "statistiques" "succes" body = Some (JInt succes)
       /\ field2 "statistiques" "erreurs" body = Some (JInt erreurs)
       /\ total = succes + erreurs
       /\ field2 "statistiques" "taux_succes" body
          = Some (if total =? 0 then JInt 0
                  else JFloat (py_round (PyFloat.int_truediv succes total * 100)%float 1)).
Proof.
  cbv zeta. split; [reflexivity |].
  apply (proj1 batch_success_rate). reflexivity.
Defined.

(** ** The price range *)

(** [min] and [max] return an element of the sequence. *)
Lemma py_min_In (rest : list float) :
  forall x : float, In (py_min x rest) (x :: rest).
Proof.
  unfold py_min. induction rest as [| y rest IH]; intros x; cbn [fold_left].
  - left. reflexivity.
  - destruct (IH (if (y <? x)%float then y else x)) as [H | H].
    + rewrite <- H. destruct (y <? x)%float; [right; left | left]; reflexivity.
    + right. right. exact H.
Qed.

Lemma py_max_In (rest : list float) :
  forall x : float, In (py_max x rest) (x :: rest).
Proof.
  unfold py_max. induction rest as [| y rest IH]; intros x; cbn [fold_left].
  - left. reflexivity.
  - destruct (IH (if (x <? y)%float then y else x)) as [H | H].
    + rewrite <- H. destruct (x <? y)%float; [right; left | left]; reflexivity.
    + right. right. exact H.
Qed.

(** Over numbers that are not NaN, [min] is below every element and [max]
    above. *)
Lemma py_min_lower (rest : list float) :
  forall x : float,
    (forall p, In p (x :: rest) -> not_nan p) ->
    forall p, In p (x :: rest) -> (py_min x rest <=? p)%float = true.
Proof.
  induction rest as [| y rest IH]; intros x Hnan p Hin.
  - destruct Hin as [<- | []]. apply leb_refl. apply Hnan. left. reflexivity.
  - change (py_min x (y :: rest)) with (py_min (if (y <? x)%float then y else x) rest).
    assert (Hx : not_nan x) by (apply Hnan; left; reflexivity).
    assert (Hy : not_nan y) by (apply Hnan; right; left; reflexivity).
    set (x' := if (y <? x)%float then y else x).
    assert (Hx'x : (x' <=? x)%float = true).
    { subst x'. destruct (y <? x)%float eqn:E; [apply leb_of_ltb; exact E | apply leb_refl; exact Hx]. }
    assert (Hx'y : (x' <=? y)%float = true).
    { subst x'. destruct (y <? x)%float eqn:E;
        [apply leb_refl; exact Hy | apply leb_of_not_ltb; assumption]. }
    assert (Hnan' : forall q, In q (x' :: rest) -> not_nan q).
    { intros q [<- | Hq].
      - subst x'. destruct (y <? x)%float; assumption.
      - apply Hnan. right. right. exact Hq. }
    assert (Hstart : (py_min x' rest <=? x')%float = true)
      by (apply IH; [exact Hnan' | left; reflexivity]).
    destruct Hin as [<- | [<- | Hin]].
    + apply (leb_trans _ x'); assumption.
    + apply (leb_trans _ x'); assumption.
    + apply IH; [exact Hnan' | right; exact Hin].
Qed.

Lemma py_max_upper (rest : list float) :
  forall x : float,
    (forall p, In p (x :: rest) -> not_nan p) ->
    forall p, In p (x :: rest) -> (p <=? py_max x rest)%float = true.
Proof.
  induction rest as [| y rest IH]; intros x Hnan p Hin.
  - destruct Hin as [<- | []]. apply leb_refl. apply Hnan. left. reflexivity.
  - change (py_max x (y :: rest)) with (py_max (if (x <? y)%float then y else x) rest).
    assert (Hx : not_nan x) by (apply Hnan; left; reflexivity).
    assert (Hy : not_nan y) by (apply Hnan; right; left; reflexivity).
    set (x' := if (x <? y)%float then y else x).
    assert (Hxx' : (x <=? x')%float = true).
    { subst x'. destruct (x <? y)%float eqn:E; [apply leb_of_ltb; exact E | apply leb_refl; exact Hx]. }
    assert (Hyx' : (y <=? x')%float = true).
    { subst x'. destruct (x <? y)%float eqn:E;
        [apply leb_refl; exact Hy | apply leb_of_not_ltb; assumption]. }
    assert (Hnan' : forall q, In q (x' :: rest) -> not_nan q).
    { intros q [<- | Hq].
      - subst x'. destruct (x <? y)%float; assumption.
      - apply Hnan. right. right. exact Hq. }
    assert (Hstart : (x' <=? py_max x' rest)%float = true)
      by (apply IH; [exact Hnan' | left; reflexivity]).
    destruct Hin as [<- | [<- | Hin]].
    + apply (leb_trans _ x'); assumption.
    + apply (leb_trans _ x'); assumption.
    + apply IH; [exact Hnan' | right; exact Hin].
Qed.

(** C4, the counterexample. The model prices at the competitor's price.
    Two records at 1e308 both succeed; their sum overflows, so the mean is
    infinite while the minimum and the maximum are 1e308. Three records at
    58839118510970.7 succeed as well; their sum is rounded up, and the
    mean, 58839118510970.71, is above the maximum. *)
Lemma mean_outside_range_counterexample :
  let st := startup runtime (trained follow_competitor) in
  let batch (prix : float) (n : nat) :=
    Ok (JObj [("predictions", JList (repeat (record (JInt 0) prix 0 0) n))]) in
  let huge := body_of (predict_batch runtime st (batch 1e308%float 2%nat)) in
  let large := body_of (predict_batch runtime st (batch 58839118510970.7%float 3%nat)) in
  status_of (predict_batch runtime st (batch 1e308%float 2%nat)) = 200
  /\ field2 "statistiques" "succes" huge = Some (JInt 2)
  /\ field2 "statistiques" "prix_range" huge
     = Some (JObj [ ("min", JFloat 1e308); ("max", JFloat 1e308);
                    ("moyenne", JFloat infinity) ])
  /\ (infinity <=? 1e308)%float = false
  /\ status_of (predict_batch runtime st (batch 58839118510970.7%float 3%nat)) = 200
  /\ field2 "statistiques" "succes" large = Some (JInt 3)
  /\ field2 "statistiques" "prix_range" large
     = Some (JObj [ ("min", JFloat 58839118510970.7); ("max", JFloat 58839118510970.7);
                    ("moyenne", JFloat 58839118510970.71) ])
  /\ (58839118510970.71 <=? 58839118510970.7)%float = false.
Proof. cbv zeta. repeat split. Qed.

(** C4, amended. In a 200 answer of [/predict_batch] the price range is
    null exactly when no record succeeds. Otherwise [min] and [max] are
    Python's [min] and [max] over the [prix_predit] of the successful
    entries, each one of those prices, and [moyenne] is their float sum
    divided by their number, rounded to two decimals; when none of the
    prices is NaN, [min] is below and [max] above every one of them, so
    [min <= max]. *)
Theorem batch_price_range (rt : Runtime) (st : app_state) (payload : result json)
    (body : json) :
  predict_batch rt st payload = Response body 200 ->
  exists items : list json,
    let results := batch_loop rt st 0 items [] in
    let prices := success_prices results in
    (exists data predictions_data,
        payload = Ok data
        /\ get_predictions data = Ok predictions_data
        /\ py_iter predictions_data = Ok items)
    /\ len prices = len (filter (has_statut "success") results)
    /\ (field2 "statistiques" "prix_range" body = Some JNull
        <-> filter (has_statut "success") results = [])
    /\ (forall (x : float) (rest : list float),
          prices = x :: rest ->
          field2 "statistiques" "prix_range" body
          = Some (JObj [ ("min", JFloat (py_min x rest));
                         ("max", JFloat (py_max x rest));
                         ("moyenne",
                           JFloat (py_round (py_sum prices / of_len (len prices)) 2)) ])
          /\ In (py_min x rest) prices
          /\ In (py_max x rest) prices
          /\ ((forall p, In p prices -> PrimFloat.is_nan p = false) ->
              (forall p, In p prices ->
                         (py_min x rest <=? p)%float = true
                         /\ (p <=? py_max x rest)%float = true)
              /\ (py_min x rest <=? py_max x rest)%float = true)).
Proof.
  intros Hok.
  destruct (batch_success_inv rt st payload body Hok)
    as (data & pd & items & stats & -> & _ & Hget & Hiter & Hstats & ->).
  exists items. cbv zeta.
  set (results := batch_loop rt st 0 items []) in *.
  destruct (success_prices_filter results) as [_ Hlen].
  pose proof (filter_success_nil results) as Hnil.
  rewrite statistiques_eq in Hstats. cbv zeta in Hstats. injection Hstats as <-.
  split; [exists data, pd; repeat split; assumption |].
  split; [symmetry; exact Hlen |].
  split.
  - rewrite Hnil. destruct (success_prices results) as [| x rest].
    + split; reflexivity.
    + split; intros H; discriminate H.
  - intros x rest Hprices. rewrite Hprices.
    split; [reflexivity |].
    split; [apply py_min_In |]. split; [apply py_max_In |].
    intros Hnan.
    assert (Hnan' : forall p, In p (x :: rest) -> not_nan p).
    { intros p Hp. apply not_nan_is_nan. apply Hnan. exact Hp. }
    split.
    + intros p Hp. split; [apply py_min_lower | apply py_max_upper]; assumption.
    + apply (leb_trans _ x);
        [apply py_min_lower | apply py_max_upper]; try assumption; left; reflexivity.
Qed.

Lemma batch_price_range_witness :
  let st := startup runtime (trained follow_competitor) in
  let payload :=
    Ok (JObj [("predictions",
               JList [ record (JStr "Mode") 750 500 0.6;
                       record (JStr "Inconnu") 750 500 0.6;
                       record (JInt 1) 100 50 0.5 ])]) in
  let body := body_of (predict_batch runtime st payload) in
  field2 "statistiques" "prix_range" body
  = Some (JObj [ ("min", JFloat 100); ("max", JFloat 750); ("moyenne", JFloat 425) ])
  /\ exists items : list json,
       let results := batch_loop runtime st 0 items [] in
       let prices := success_prices results in
       (exists data predictions_data,
           payload = Ok data
           /\ get_predictions data = Ok predictions_data
           /\ py_iter predictions_data = Ok items)
       /\ len prices = len (filter (has_statut "success") results)
       /\ (field2 "statistiques" "prix_range" body = Some JNull
           <-> filter (has_statut "success") results = [])
       /\ (forall (x : float) (rest : list float),
             prices = x :: rest ->
             field2 "statistiques" "prix_range" body
             = Some (JObj [ ("min", JFloat (py_min x rest));
                            ("max", JFloat (py_max x rest));
                            ("moyenne",
                              JFloat (py_round (py_sum prices / of_len (len prices)) 2)) ])
             /\ In (py_min x rest) prices
             /\ In (py_max x rest) prices
             /\ ((forall p, In p prices -> PrimFloat.is_nan p = false) ->
                 (forall p, In p prices ->
                            (py_min x rest <=? p)%float = true
                            /\ (p <=? py_max x rest)%float = true)
                 /\ (py_min x rest <=? py_max x rest)%float = true)).
Proof.
  cbv zeta. split; [reflexivity |].
  apply (batch_price_range runtime (startup runtime (trained follow_competitor))).
  reflexivity.
Defined.

(* ===================================================================== *)
(** * The informational endpoints *)
(* ===================================================================== *)

Lemma dict_get_set (d : dict) (key : string) (v : json) (k : string) :
  dict_get (dict_set d key v) k = if String.eqb key k then v else dict_get d k.
Proof.
  induction d as [| [k0 w] rest IH]; cbn [dict_set dict_get].
  - reflexivity.
  - destruct (String.eqb_spec k0 key) as [-> | Hne]; cbn [dict_get].
    + destruct (String.eqb key k); reflexivity.
    + rewrite IH. destruct (String.eqb_spec k0 k) as [-> | Hk]; [| reflexivity].
      destruct (String.eqb_spec key k) as [-> | _]; [congruence | reflexivity].
Qed.

Lemma dict_has_set (d : dict) (key : string) (v : json) (k : string) :
  dict_has (dict_set d key v) k = String.eqb key k || dict_has d k.
Proof.
  unfold dict_has. induction d as [| [k0 w] rest IH]; cbn [dict_set existsb fst].
  - reflexivity.
  - destruct (String.eqb_spec k0 key) as [-> | Hne]; cbn [existsb fst].
    + destruct (String.eqb key k); reflexivity.
    + rewrite IH. destruct (String.eqb k0 k), (String.eqb key k); reflexivity.
Qed.

(** The code of a name of the category set (0 for a name outside it). *)
Lemma transform_known (enc : LabelEncoder) (name : string) :
  In name (classes_ enc) ->
  exists code, transform enc name = Ok code
               /\ 0 <= code < len (classes_ enc)
               /\ nth_error (classes_ enc) (Z.to_nat code) = Some name.
Proof.
  intros Hin. destruct (index_of_In name (classes_ enc) Hin) as [code Hcode].
  exists code. unfold transform. rewrite Hcode.
  destruct (index_of_nth name (classes_ enc) code Hcode). repeat split; tauto.
Qed.

(** Encoding a list of known names never raises: every name of the list is
    bound to the entry of its own code, the other keys stay as they were. *)
Lemma encode_all_known (st : app_state) (enc : LabelEncoder)
    (entry : string -> Z -> json) (domains : list string) :
  label_encoder st = Some enc ->
  (forall name, In name domains -> In name (classes_ enc)) ->
  forall acc : dict,
  exists info : dict,
    encode_all st entry domains acc = Ok info
    /\ (forall name, dict_has info name = PyStr.mem name domains || dict_has acc name)
    /\ (forall name code,
          In name domains -> transform enc name = Ok code ->
          dict_get info name = entry name code)
    /\ (forall name, ~ In name domains -> dict_get info name = dict_get acc name).
Proof.
  intros Henc. induction domains as [| d rest IH]; intros Hknown acc.
  - exists acc. cbn [encode_all]. split; [reflexivity |]. split; [| split].
    + intros name. reflexivity.
    + intros name code [].
    + intros name _. reflexivity.
  - destruct (transform_known enc d (Hknown d (or_introl eq_refl))) as (c & Hc & _).
    assert (Hrest : forall name, In name rest -> In name (classes_ enc))
      by (intros name H; apply Hknown; right; exact H).
    destruct (IH Hrest (dict_set acc d (entry d c))) as (info & Hinfo & Hhas & Hget & Hout).
    exists info. cbn [encode_all]. rewrite Henc. cbn [need bind]. rewrite Hc. cbn [bind].
    split; [exact Hinfo |]. split; [| split].
    + intros name. rewrite Hhas, dict_has_set. unfold PyStr.mem. cbn [existsb].
      rewrite (String.eqb_sym name d).
      destruct (String.eqb d name), (existsb (String.eqb name) rest); reflexivity.
    + intros name code Hin Hcode.
      destruct (in_dec string_dec name rest) as [Hr | Hr]; [apply Hget; assumption |].
      destruct Hin as [<- | Hin]; [| contradiction].
      rewrite (Hout d Hr), dict_get_set, String.eqb_refl. congruence.
    + intros name Hnot. cbn [In] in Hnot.
      rewrite (Hout name) by tauto. rewrite dict_get_set.
      destruct (String.eqb_spec d name) as [-> | _]; [tauto | reflexivity].
Qed.

(** X1. On a loaded model, [/domains] answers 200; [total] is the number of
    categories, and [domaines_disponibles] has exactly the category names
    as keys, each bound to its code (its position in [classes_]) and to its
    description. *)
Theorem get_domains_lists_every_class (st : app_state) (enc : LabelEncoder) :
  model_loaded st = true ->
  label_encoder st = Some enc ->
  exists (body : json) (info : dict),
    get_domains st = Response body 200
    /\ field "total" body = Some (JInt (len (classes_ enc)))
    /\ field "domaines_disponibles" body = Some (JObj info)
    /\ (forall name, dict_has info name = true <-> In name (classes_ enc))
    /\ (forall name code,
          In name (classes_ enc) -> transform enc name = Ok code ->
          nth_error (classes_ enc) (Z.to_nat code) = Some name
          /\ dict_get info name
             = JObj [ ("code", JInt code);
                      ("description", JStr (get_domain_description name)) ]).
Proof.
  intros Hloaded Henc.
  destruct (encode_all_known st enc domain_entry (classes_ enc) Henc (fun _ H => H) [])
    as (info & Hinfo & Hhas & Hget & _).
  unfold get_domains, get_domains_body, the_classes.
  rewrite Hloaded, Henc. cbn [negb need bind]. rewrite Hinfo. cbn [bind].
  eexists. exists info. split; [reflexivity |].
  split; [reflexivity |]. split; [reflexivity |]. split.
  - intros name. rewrite Hhas. cbn [dict_has existsb]. rewrite orb_false_r.
    apply mem_In.
  - intros name code Hin Hcode. split.
    + unfold transform in Hcode.
      destruct (index_of name (classes_ enc)) as [i |] eqn:Hi; [| discriminate].
      injection Hcode as <-. apply (index_of_nth name (classes_ enc) i Hi).
    + apply (Hget name code Hin Hcode).
Qed.

Lemma get_domains_lists_every_class_witness :
  exists (body : json) (info : dict),
    get_domains (startup runtime (trained follow_competitor)) = Response body 200
    /\ field "total" body = Some (JInt (len (classes_ encoder)))
    /\ field "domaines_disponibles" body = Some (JObj info)
    /\ (forall name, dict_has info name = true <-> In name (classes_ encoder))
    /\ (forall name code,
          In name (classes_ encoder) -> transform encoder name = Ok code ->
          nth_error (classes_ encoder) (Z.to_nat code) = Some name
          /\ dict_get info name
             = JObj [ ("code", JInt code);
                      ("description", JStr (get_domain_description name)) ]).
Proof.
  apply (get_domains_lists_every_class (startup runtime (trained follow_competitor)) encoder);
    reflexivity.
Defined.

(** Resolving a code in range gives the name at that position, on both
    paths. *)
Lemma resolve_by_code (rt : Runtime) (st : app_state) (enc : LabelEncoder)
    (name : string) (code : Z) :
  label_encoder st = Some enc ->
  0 <= code < len (classes_ enc) ->
  nth_error (classes_ enc) (Z.to_nat code) = Some name ->
  predict_resolve rt st (JInt code) = Ok (Resolved name code)
  /\ batch_resolve rt st (JInt code) = Ok (Resolved name code).
Proof.
  intros Henc Hrange Hnth.
  assert (Hlow : (code <? 0) = false) by lia.
  assert (Hhigh : (code >=? len (classes_ enc)) = false) by lia.
  unfold predict_resolve, batch_resolve, the_classes, subscript, py_int.
  rewrite Henc. cbn [need bind]. rewrite Hlow, Hhigh, Hnth. split; reflexivity.
Qed.

(** X2. Whatever [/domains] advertises can be sent back: the code listed
    under a name resolves, in [/predict] and in [/predict_batch], to that
    name and that code. *)
Theorem advertised_code_resolves (rt : Runtime) (st : app_state) (body : json)
    (info : dict) (name : string) (code : Z) :
  get_domains st = Response body 200 ->
  field "domaines_disponibles" body = Some (JObj info) ->
  dict_has info name = true ->
  field "code" (dict_get info name) = Some (JInt code) ->
  predict_resolve rt st (JInt code) = Ok (Resolved name code)
  /\ batch_resolve rt st (JInt code) = Ok (Resolved name code).
Proof.
  unfold get_domains.
  destruct (model_loaded st) eqn:Hloaded; cbn [negb]; [| intros H; absurd_answer H].
  destruct (label_encoder st) as [enc |] eqn:Henc.
  2: { unfold get_domains_body, the_classes. rewrite Henc. cbn [need bind].
       intros H. discriminate H. }
  destruct (encode_all_known st enc domain_entry (classes_ enc) Henc (fun _ H => H) [])
    as (info' & Hinfo & Hhas & Hget & _).
  unfold get_domains_body, the_classes. rewrite Henc. cbn [need bind].
  rewrite Hinfo. cbn [bind]. intros Hbody Hfield Hname Hcode.
  injection Hbody as <-. cbn in Hfield. injection Hfield as <-.
  rewrite Hhas in Hname. cbn [dict_has existsb] in Hname. rewrite orb_false_r in Hname.
  apply mem_In in Hname.
  destruct (transform_known enc name Hname) as (c & Hc & Hrange & Hnth).
  rewrite (Hget name c Hname Hc) in Hcode. cbn in Hcode. injection Hcode as <-.
  apply (resolve_by_code rt st enc name c); assumption.
Qed.

Lemma advertised_code_resolves_witness :
  let st := startup runtime (trained follow_competitor) in
  predict_resolve runtime st (JInt 4) = Ok (Resolved "Sport" 4)
  /\ batch_resolve runtime st (JInt 4) = Ok (Resolved "Sport" 4).
Proof.
  cbv zeta.
  apply (advertised_code_resolves runtime (startup runtime (trained follow_competitor))
           (body_of (get_domains (startup runtime (trained follow_competitor))))
           [ ("Automobile", domain_entry "Automobile" 0);
             ("Livres", domain_entry "Livres" 1);
             ("Maison", domain_entry "Maison" 2);
             ("Mode", domain_entry "Mode" 3);
             ("Sport", domain_entry "Sport" 4) ]
           "Sport" 4); reflexivity.
Defined.

(* ===================================================================== *)
(** * Startup *)
(* ===================================================================== *)

(** The figures of the model are laid out by feature name when, and only
    when, the model has one figure per feature name at least. *)
Lemma by_feature_from (names : list string) (values : list float) :
  forall (i : Z) (acc : dict),
    0 <= i ->
    ((exists d, by_feature names values i acc = Ok d)
     <-> names = [] \/ i + len names <= len values).
Proof.
  unfold len. induction names as [| name rest IH]; intros i acc Hi; cbn [by_feature].
  - split; [intros _; left; reflexivity | eauto].
  - unfold subscript.
    destruct (nth_error values (Z.to_nat i)) as [v |] eqn:Hnth; cbn [bind].
    + assert (Hlt : (Z.to_nat i < List.length values)%nat)
        by (apply nth_error_Some; congruence).
      rewrite (IH (i + 1) (dict_set acc name (JFloat v))) by lia.
      cbn [List.length]. split.
      * intros [-> | H]; right; cbn [List.length]; lia.
      * intros [H | H]; [discriminate H |].
        destruct rest; [left; reflexivity | right; cbn [List.length] in *; lia].
    + apply nth_error_None in Hnth. cbn [List.length]. split.
      * intros [d H]. discriminate H.
      * intros [H | H]; [discriminate H | lia].
Qed.

Lemma by_feature_ok (names : list string) (values : list float) :
  (exists d, by_feature names values 0 [] = Ok d) <-> len names <= len values.
Proof.
  rewrite (by_feature_from names values 0 []) by lia. unfold len. split.
  - intros [-> | H]; [cbn [List.length] |]; lia.
  - intros H. right. lia.
Qed.

(** The mapping is always rebuilt from the encoder's own names. *)
Lemma rebuild_mapping_ok (enc : LabelEncoder) (domains : list string) :
  (forall name, In name domains -> In name (classes_ enc)) ->
  forall acc, exists mp, rebuild_mapping enc domains acc = Ok mp.
Proof.
  induction domains as [| d rest IH]; intros Hknown acc; cbn [rebuild_mapping].
  - eauto.
  - destruct (transform_known enc d (Hknown d (or_introl eq_refl))) as (c & -> & _).
    cbn [bind]. apply IH. intros name H. apply Hknown. right. exact H.
Qed.

Lemma summarize_done (rt : Runtime) (m : Model) (enc : LabelEncoder)
    (names : list string) :
  snd (summarize rt m enc names) = true <-> summary_completes m names.
Proof.
  unfold summarize, summary_completes.
  destruct (coef_ m) as [coefs |].
  - rewrite <- (by_feature_ok names coefs).
    destruct (by_feature names coefs 0 []) as [d |].
    + destruct (intercept_ m); cbn [snd]; split.
      * intros _. split; [eauto | discriminate].
      * reflexivity.
      * discriminate.
      * intros [_ H]. congruence.
    + cbn [snd]. split; [discriminate |]. intros [[d H] _]. discriminate H.
  - destruct (feature_importances_ m) as [importances |]; [| cbn [snd]; tauto].
    rewrite <- (by_feature_ok names importances).
    destruct (by_feature names importances 0 []) as [d |]; cbn [snd]; split;
      try eauto; try discriminate.
    intros [d H]. discriminate H.
Qed.

(** X3. The service comes up loaded exactly when the model, the encoder and
    the feature names are unpickled, the mapping is unpickled or its file is
    missing (it is rebuilt then), and the summary can be completed: a model
    with [coef_] needs one coefficient per feature name and an
    [intercept_], a model with [feature_importances_] one importance per
    feature name. *)
Theorem startup_loaded_iff (rt : Runtime) (a : artifacts) :
  model_loaded (startup rt a) = true
  <-> exists m enc names,
        pickled_model a = Ok m
        /\ pickled_encoder a = Ok enc
        /\ pickled_features a = Ok names
        /\ (match pickled_mapping a with
            | Ok _ => True
            | Raise e => exn_cls e = FileNotFoundError
            end)
        /\ summary_completes m names.
Proof.
  rewrite startup_flag. unfold load_model_components. split.
  - destruct (pickled_model a) as [m |]; [| discriminate].
    destruct (pickled_encoder a) as [enc |]; [| discriminate].
    destruct (pickled_features a) as [names |]; [| discriminate].
    unfold load_mapping.
    destruct (pickled_mapping a) as [mp | e].
    + pose proof (summarize_done rt m enc names) as Hs.
      destruct (summarize rt m enc names) as [info done]. cbn [snd] in *.
      intros H. exists m, enc, names. repeat split; tauto.
    + destruct (exn_class_beq (exn_cls e) FileNotFoundError) eqn:Hcls; [| discriminate].
      destruct (rebuild_mapping enc (classes_ enc) []) as [mp |]; [| discriminate].
      pose proof (summarize_done rt m enc names) as Hs.
      destruct (summarize rt m enc names) as [info done]. cbn [snd] in *.
      intros H. exists m, enc, names. repeat split; try tauto.
      destruct (exn_cls e); try discriminate Hcls. reflexivity.
  - intros (m & enc & names & -> & -> & -> & Hmap & Hsum).
    apply (summarize_done rt m enc names) in Hsum.
    assert (Hload : exists mp, load_mapping a enc = Ok mp).
    { unfold load_mapping. destruct (pickled_mapping a) as [mp | e]; [eauto |].
      rewrite Hmap. cbn [exn_class_beq].
      apply rebuild_mapping_ok. tauto. }
    destruct Hload as [mp ->].
    destruct (summarize rt m enc names) as [info done]. exact Hsum.
Qed.

(** What a successful load leaves in the globals. *)
Lemma startup_loaded_inv (rt : Runtime) (a : artifacts) :
  model_loaded (startup rt a) = true ->
  exists m enc names info,
    pickled_model a = Ok m
    /\ summarize rt m enc names = (info, true)
    /\ model (startup rt a) = Some m
    /\ label_encoder (startup rt a) = Some enc
    /\ feature_names (startup rt a) = Some names
    /\ model_info (startup rt a) = info.
Proof.
  unfold startup, load_model_components.
  destruct (pickled_model a) as [m |]; [| discriminate].
  destruct (pickled_encoder a) as [enc |]; [| discriminate].
  destruct (pickled_features a) as [names |]; [| discriminate].
  destruct (load_mapping a enc) as [mp |]; [| discriminate].
  destruct (summarize rt m enc names) as [info done] eqn:Hs. cbn.
  intros ->. exists m, enc, names, info. repeat split. exact Hs.
Qed.

(** The keys of a completed summary: the type and the load time are set,
    and coefficients never come without an intercept. *)
Lemma summarize_keys (rt : Runtime) (m : Model) (enc : LabelEncoder)
    (names : list string) (info : dict) :
  summarize rt m enc names = (info, true) ->
  dict_has info "type" = true
  /\ dict_get info "type" = JStr (model_type m)
  /\ dict_has info "loaded_at" = true
  /\ dict_get info "loaded_at" = JStr (now rt)
  /\ dict_has info "coefficients" = dict_has info "intercept"
  /\ (dict_has info "coefficients" = true <-> coef_ m <> None).
Proof.
  unfold summarize.
  destruct (coef_ m) as [coefs |].
  - destruct (by_feature names coefs 0 []) as [d |]; [| discriminate].
    destruct (intercept_ m); [| discriminate].
    intros H. injection H as <-.
    cbn. repeat split; congruence.
  - destruct (feature_importances_ m) as [importances |].
    + destruct (by_feature names importances 0 []) as [d |]; [| discriminate].
      intros H. injection H as <-.
      cbn. repeat split; congruence.
    + intros H. injection H as <-. cbn. repeat split; congruence.
Qed.

(** X4. After a successful load [/model_info] answers 200, never its 500:
    the body reports the model's type name and the load time (not the
    "N/A" fallbacks), the number of categories, every category name with its
    code, and the intercept exactly when it reports coefficients, which is
    when the model has [coef_]. *)
Theorem model_info_after_startup (rt : Runtime) (a : artifacts) :
  model_loaded (startup rt a) = true ->
  exists (body : json) (m : Model) (enc : LabelEncoder) (codes : dict),
    model (startup rt a) = Some m
    /\ label_encoder (startup rt a) = Some enc
    /\ model_info_endpoint rt (startup rt a) = Response body 200
    /\ field2 "modele" "type" body = Some (JStr (model_type m))
    /\ field2 "modele" "charge_le" body = Some (JStr (now rt))
    /\ field2 "modele" "nombre_domaines" body = Some (JInt (len (classes_ enc)))
    /\ field "encodage_domaines" body = Some (JObj codes)
    /\ (forall name code,
          In name (classes_ enc) -> transform enc name = Ok code ->
          dict_get codes name = JInt code)
    /\ (field "coefficients" body <> None <-> coef_ m <> None)
    /\ (field "ordonnee_origine" body <> None <-> coef_ m <> None).
Proof.
  intros Hloaded.
  destruct (startup_loaded_inv rt a Hloaded)
    as (m & enc & names & info & _ & Hsum & Hm & Henc & Hnames & Hinfo).
  destruct (summarize_keys rt m enc names info Hsum)
    as (Htype & Htypev & Hat & Hatv & Hpair & Hcoef).
  destruct (encode_all_known (startup rt a) enc (fun _ code => JInt code)
              (classes_ enc) Henc (fun _ H => H) [])
    as (codes & Hcodes & _ & Hget & _).
  unfold model_info_endpoint, model_info_try, the_classes, dict_get_default, dict_item.
  rewrite Hloaded, Henc, Hinfo, Hnames. cbn [negb need bind].
  rewrite Hcodes, Htype, Htypev, Hat, Hatv. cbn [bind].
  destruct (dict_has info "coefficients") eqn:Hc.
  - rewrite <- Hpair. cbn [bind].
    eexists. exists m, enc, codes.
    split; [exact Hm |]. split; [reflexivity |]. split; [reflexivity |].
    cbn. repeat split; try (intros; discriminate);
      try (intros; apply Hcoef; reflexivity).
    exact Hget.
  - eexists. exists m, enc, codes.
    split; [exact Hm |]. split; [reflexivity |]. split; [reflexivity |].
    cbn. repeat split; try congruence; try exact Hget.
    + intros H. apply Hcoef in H. discriminate H.
    + intros H. apply Hcoef in H. discriminate H.
Qed.

Lemma model_info_after_startup_witness :
  status_of (model_info_endpoint runtime (startup runtime (trained cost_plus))) = 200.
Proof.
  destruct (model_info_after_startup runtime (trained cost_plus) eq_refl)
    as (body & m & enc & codes & _ & _ & -> & _).
  reflexivity.
Defined.

(* ===================================================================== *)
(** * Domain resolution, case by case *)
(* ===================================================================== *)

(** The head of a filtered list is the first element that passes. *)
Lemma filter_first {A : Type} (f : A -> bool) (l : list A) (d : A) (rest : list A) :
  filter f l = d :: rest ->
  exists before after,
    l = before ++ d :: after
    /\ f d = true
    /\ (forall x, In x before -> f x = false).
Proof.
  induction l as [| y l IH]; cbn [filter]; [discriminate |].
  destruct (f y) eqn:Hy.
  - intros H. injection H as -> _. exists [], l. repeat split; [exact Hy | intros x []].
  - intros H. destruct (IH H) as (before & after & -> & Hd & Hnone).
    exists (y :: before), after. repeat split; [exact Hd |].
    intros x [<- | Hx]; [exact Hy | apply Hnone; exact Hx].
Qed.

Lemma filter_none {A : Type} (f : A -> bool) (l : list A) :
  filter f l = [] <-> (forall x, In x l -> f x = false).
Proof.
  induction l as [| y l IH]; cbn [filter In].
  - split; [intros _ x [] | reflexivity].
  - destruct (f y) eqn:Hy; split.
    + discriminate.
    + intros H. rewrite (H y (or_introl eq_refl)) in Hy. discriminate Hy.
    + intros H x [<- | Hx]; [exact Hy | apply IH; assumption].
    + intros H. apply IH. intros x Hx. apply H. right. exact Hx.
Qed.

(** The position of the first occurrence. *)
Lemma index_of_first (d : string) (before after : list string) :
  ~ In d before -> index_of d (before ++ d :: after) = Some (len before).
Proof.
  unfold len. induction before as [| y before IH]; intros Hnot; cbn [app index_of].
  - rewrite String.eqb_refl. reflexivity.
  - destruct (String.eqb_spec d y) as [-> | _]; [elim Hnot; left; reflexivity |].
    rewrite IH by (intros H; apply Hnot; right; exact H).
    cbn [List.length]. f_equal. lia.
Qed.

(** The resolution of a string that is not a category name, for a given
    matching test. *)
Lemma resolve_unknown_with (matches : string -> bool) (enc : LabelEncoder) (s : string) :
  (filter matches (classes_ enc) = []
   <-> (forall d, In d (classes_ enc) -> matches d = false))
  /\ (forall d rest,
        filter matches (classes_ enc) = d :: rest ->
        exists before after,
          classes_ enc = before ++ d :: after
          /\ matches d = true
          /\ (forall x, In x before -> matches x = false)
          /\ transform enc d = Ok (len before)).
Proof.
  split; [apply filter_none |].
  intros d rest H.
  destruct (filter_first matches (classes_ enc) d rest H)
    as (before & after & Hsplit & Hd & Hnone).
  exists before, after. repeat split; try assumption.
  unfold transform. rewrite Hsplit, index_of_first; [reflexivity |].
  intros Hin. rewrite (Hnone d Hin) in Hd. discriminate Hd.
Qed.

(** X5. A string that is not a category name resolves to the first category,
    in the order of [classes_], that passes the substring test, with the
    position of that category as code; it is not recognized exactly when no
    category passes. This holds on the single path with the two-way test and
    on the batch path with the one-way test. *)
Theorem fuzzy_takes_first_match (rt : Runtime) (st : app_state) (enc : LabelEncoder)
    (s : string) :
  label_encoder st = Some enc ->
  ~ In s (classes_ enc) ->
  let first_match (matches : string -> bool) (outcome : result domain_outcome) :=
    (outcome = Ok (NotRecognized s)
     <-> (forall d, In d (classes_ enc) -> matches d = false))
    /\ (forall d code,
          outcome = Ok (Resolved d code) <->
          exists before after,
            classes_ enc = before ++ d :: after
            /\ matches d = true
            /\ (forall x, In x before -> matches x = false)
            /\ code = len before) in
  first_match (fuzzy_match rt s) (predict_resolve rt st (JStr s))
  /\ first_match (batch_fuzzy_match rt s) (batch_resolve rt st (JStr s)).
Proof.
  intros Henc Hnot. cbv zeta.
  assert (Hmem : PyStr.mem s (classes_ enc) = false).
  { destruct (PyStr.mem s (classes_ enc)) eqn:E; [| reflexivity].
    apply mem_In in E. contradiction. }
  assert (Hgen : forall matches : string -> bool,
    let outcome :=
      match filter matches (classes_ enc) with
      | d :: _ => code <- transform enc d ;; Ok (Resolved d code)
      | [] => Ok (NotRecognized s)
      end in
    (outcome = Ok (NotRecognized s)
     <-> (forall d, In d (classes_ enc) -> matches d = false))
    /\ (forall d code,
          outcome = Ok (Resolved d code) <->
          exists before after,
            classes_ enc = before ++ d :: after
            /\ matches d = true
            /\ (forall x, In x before -> matches x = false)
            /\ code = len before)).
  { intros matches. cbv zeta.
    destruct (resolve_unknown_with matches enc s) as [Hnone Hfirst].
    destruct (filter matches (classes_ enc)) as [| d0 rest] eqn:Hf.
    - split.
      + split; [intros _; apply Hnone; reflexivity | reflexivity].
      + intros d code. split; [discriminate |].
        intros (before & after & Hsplit & Hd & _).
        destruct Hnone as [Hnone _]. rewrite (Hnone eq_refl d) in Hd; [discriminate Hd |].
        rewrite Hsplit. apply in_or_app. right. left. reflexivity.
    - destruct (Hfirst d0 rest eq_refl) as (before & after & Hsplit & Hd & Hbefore & Ht).
      rewrite Ht. cbn [bind]. split.
      + split; [discriminate |]. intros Hall.
        rewrite (Hall d0) in Hd; [discriminate Hd |].
        rewrite Hsplit. apply in_or_app. right. left. reflexivity.
      + intros d code. split.
        * intros H. injection H as <- <-. exists before, after. repeat split; assumption.
        * intros (before' & after' & Hsplit' & Hd' & Hbefore' & ->).
          assert (Hf' : filter matches (classes_ enc) = d :: filter matches after').
          { rewrite Hsplit', filter_app. cbn [filter]. rewrite Hd'.
            replace (filter matches before') with (@nil string); [reflexivity |].
            symmetry. apply filter_none. exact Hbefore'. }
          rewrite Hf in Hf'. injection Hf' as -> _.
          destruct (Hfirst d rest eq_refl) as (b2 & a2 & Hs2 & _ & Hb2 & Ht2).
          rewrite Ht in Ht2. injection Ht2 as Hlen.
          assert (Hsame : len before' = len before).
          { assert (Hi : index_of d (classes_ enc) = Some (len before')).
            { rewrite Hsplit'. apply index_of_first. intros Hin.
              rewrite (Hbefore' d Hin) in Hd'. discriminate Hd'. }
            assert (Hj : index_of d (classes_ enc) = Some (len before)).
            { rewrite Hsplit. apply index_of_first. intros Hin.
              rewrite (Hbefore d Hin) in Hd. discriminate Hd. }
            congruence. }
          rewrite Hsame. reflexivity. }
  unfold predict_resolve, batch_resolve, the_classes.
  rewrite Henc. cbn [need bind]. rewrite Hmem. cbn [negb].
  split; [apply (Hgen (fuzzy_match rt s)) | apply (Hgen (batch_fuzzy_match rt s))].
Qed.

Lemma fuzzy_takes_first_match_witness :
  predict_resolve runtime crafts_state (JStr "artisan") = Ok (Resolved "Art" 0)
  <-> exists before after,
        classes_ crafts = before ++ "Art" :: after
        /\ fuzzy_match runtime "artisan" "Art" = true
        /\ (forall x, In x before -> fuzzy_match runtime "artisan" x = false)
        /\ 0 = len before.
Proof.
  assert (Hnot : ~ In "artisan" (classes_ crafts)).
  { cbn. intros [H | [H | []]]; discriminate H. }
  destruct (fuzzy_takes_first_match runtime crafts_state crafts "artisan" eq_refl Hnot)
    as [[_ H] _].
  apply (H "Art" 0).
Defined.

(** The outcome of either path on a string, for a given matching test. *)
Lemma resolved_string_in_range (matches : string -> bool) (enc : LabelEncoder)
    (s nom : string) (code : Z) :
  (if negb (PyStr.mem s (classes_ enc)) then
     match filter matches (classes_ enc) with
     | d :: _ => c <- transform enc d ;; Ok (Resolved d c)
     | [] => Ok (NotRecognized s)
     end
   else c <- transform enc s ;; Ok (Resolved s c)) = Ok (Resolved nom code) ->
  0 <= code < len (classes_ enc)
  /\ nth_error (classes_ enc) (Z.to_nat code) = Some nom.
Proof.
  unfold transform.
  destruct (PyStr.mem s (classes_ enc)); cbn [negb].
  - destruct (index_of s (classes_ enc)) as [i |] eqn:Hi; cbn [bind]; [| discriminate].
    intros H. injection H as <- <-. apply (index_of_nth _ _ _ Hi).
  - destruct (filter matches (classes_ enc)) as [| d rest]; [discriminate |].
    destruct (index_of d (classes_ enc)) as [i |] eqn:Hi; cbn [bind]; [| discriminate].
    intros H. injection H as <- <-. apply (index_of_nth _ _ _ Hi).
Qed.

Lemma resolved_code_in_range (enc : LabelEncoder) (v : json) (nom : string) (code : Z) :
  (c <- py_int v ;;
   if (c <? 0) || (c >=? len (classes_ enc)) then Ok (InvalidCode v)
   else n <- subscript "classes_" (classes_ enc) c ;; Ok (Resolved n c))
  = Ok (Resolved nom code) ->
  0 <= code < len (classes_ enc)
  /\ nth_error (classes_ enc) (Z.to_nat code) = Some nom.
Proof.
  destruct (py_int v) as [c |]; cbn [bind]; [| discriminate].
  destruct ((c <? 0) || (c >=? len (classes_ enc))) eqn:Hrange; [discriminate |].
  unfold subscript.
  destruct (nth_error (classes_ enc) (Z.to_nat c)) as [n |] eqn:Hnth; cbn [bind];
    [| discriminate].
  intros H. injection H as <- <-. apply orb_false_iff in Hrange. split; [lia | exact Hnth].
Qed.

(** X6. However a domain is resolved (exact name, substring match or code,
    single or batch path), the name and the code that come out belong
    together: the code is in range and the name is the category at that
    position. *)
Theorem resolved_name_sits_at_code (rt : Runtime) (st : app_state) (enc : LabelEncoder)
    (domaine : json) (nom : string) (code : Z) :
  label_encoder st = Some enc ->
  predict_resolve rt st domaine = Ok (Resolved nom code)
  \/ batch_resolve rt st domaine = Ok (Resolved nom code) ->
  0 <= code < len (classes_ enc)
  /\ nth_error (classes_ enc) (Z.to_nat code) = Some nom.
Proof.
  intros Henc.
  unfold predict_resolve, batch_resolve, the_classes. rewrite Henc. cbn [need bind].
  destruct domaine;
    try (intros [H | H]; apply (resolved_code_in_range enc _ nom code H)).
  intros [H | H].
  - apply (resolved_string_in_range (fuzzy_match rt s) enc s nom code H).
  - apply (resolved_string_in_range (batch_fuzzy_match rt s) enc s nom code H).
Qed.

Lemma resolved_name_sits_at_code_witness :
  0 <= 3 < len (classes_ encoder)
  /\ nth_error (classes_ encoder) (Z.to_nat 3) = Some "Mode".
Proof.
  apply (resolved_name_sits_at_code runtime (startup runtime (trained follow_competitor))
           encoder (JStr "Mode Femme") "Mode" 3 eq_refl).
  left. reflexivity.
Defined.

(** X7. A domain that is not a string is read as an integer, a boolean as 0
    or 1 and a float by truncation toward zero; it resolves to the category
    at that position exactly when 0 <= code < number of categories, and is an
    invalid code otherwise. A NaN raises [ValueError], an infinity
    [OverflowError], a list or a dict [TypeError]. *)
Theorem domain_code_bounds (rt : Runtime) (st : app_state) (enc : LabelEncoder)
    (v : json) :
  label_encoder st = Some enc ->
  (forall s, v <> JStr s) ->
  match py_int v with
  | Ok code =>
      (0 <= code < len (classes_ enc) ->
       exists nom, nth_error (classes_ enc) (Z.to_nat code) = Some nom
                   /\ predict_resolve rt st v = Ok (Resolved nom code)
                   /\ batch_resolve rt st v = Ok (Resolved nom code))
      /\ (code < 0 \/ len (classes_ enc) <= code ->
          predict_resolve rt st v = Ok (InvalidCode v)
          /\ batch_resolve rt st v = Ok (InvalidCode v))
  | Raise e =>
      predict_resolve rt st v = Raise e /\ batch_resolve rt st v = Raise e
  end
  /\ py_int (JBool true) = Ok 1
  /\ py_int (JBool false) = Ok 0
  /\ (forall x, PrimFloat.is_nan x = true ->
                py_int (JFloat x) = Raise (Raised ValueError "int" (JFloat x)))
  /\ (forall x, PrimFloat.is_nan x = false -> PyFloat.trunc x = None ->
                py_int (JFloat x) = Raise (Raised OverflowError "int" (JFloat x)))
  /\ (forall l, py_int (JList l) = Raise (Raised TypeError "int" (JList l)))
  /\ (forall d, py_int (JObj d) = Raise (Raised TypeError "int" (JObj d))).
Proof.
  intros Henc Hstr. split.
  - assert (Hshape :
      predict_resolve rt st v
      = (c <- py_int v ;;
         if (c <? 0) || (c >=? len (classes_ enc)) then Ok (InvalidCode v)
         else n <- subscript "classes_" (classes_ enc) c ;; Ok (Resolved n c))
      /\ batch_resolve rt st v
         = (c <- py_int v ;;
            if (c <? 0) || (c >=? len (classes_ enc)) then Ok (InvalidCode v)
            else n <- subscript "classes_" (classes_ enc) c ;; Ok (Resolved n c))).
    { unfold predict_resolve, batch_resolve, the_classes. rewrite Henc.
      destruct v; try (split; destruct (py_int _); reflexivity).
      elim (Hstr s). reflexivity. }
    destruct Hshape as [-> ->].
    destruct (py_int v) as [code | e]; cbn [bind]; [| split; reflexivity].
    split.
    + intros Hrange.
      assert (Hlow : (code <? 0) = false) by lia.
      assert (Hhigh : (code >=? len (classes_ enc)) = false) by lia.
      rewrite Hlow, Hhigh. cbn [orb]. unfold subscript.
      destruct (nth_error (classes_ enc) (Z.to_nat code)) as [nom |] eqn:Hnth.
      * exists nom. repeat split.
      * apply nth_error_None in Hnth. unfold len in Hrange. lia.
    + intros Hout.
      assert (Hor : (code <? 0) || (code >=? len (classes_ enc)) = true).
      { apply orb_true_iff. destruct Hout; [left | right]; lia. }
      rewrite Hor. split; reflexivity.
  - repeat split.
    + intros x Hnan. unfold py_int, PyFloat.trunc.
      assert (Hsf : Prim2SF x = S754_nan).
      { destruct (Prim2SF x) eqn:E; try reflexivity;
          assert (Hn : not_nan x) by (unfold not_nan; rewrite E; discriminate);
          apply not_nan_is_nan in Hn; congruence. }
      rewrite Hsf, Hnan. reflexivity.
    + intros x Hnan Htrunc. unfold py_int. rewrite Htrunc, Hnan. reflexivity.
Qed.

Lemma domain_code_bounds_witness :
  let st := startup runtime (trained follow_competitor) in
  predict_resolve runtime st (JBool true) = Ok (Resolved "Livres" 1)
  /\ predict_resolve runtime st (JFloat 2.9) = Ok (Resolved "Maison" 2)
  /\ predict_resolve runtime st (JFloat (-0.5)) = Ok (Resolved "Automobile" 0)
  /\ predict_resolve runtime st (JInt 4) = Ok (Resolved "Sport" 4)
  /\ predict_resolve runtime st (JInt 5) = Ok (InvalidCode (JInt 5))
  /\ predict_resolve runtime st (JInt (-1)) = Ok (InvalidCode (JInt (-1))).
Proof.
  cbv zeta.
  assert (Hint : forall n, forall s, JInt n <> JStr s) by (intros; discriminate).
  pose proof (domain_code_bounds runtime (startup runtime (trained follow_competitor))
                encoder (JInt 5) eq_refl (Hint 5)) as [[_ H5] _].
  pose proof (domain_code_bounds runtime (startup runtime (trained follow_competitor))
                encoder (JInt (-1)) eq_refl (Hint (-1))) as [[_ Hm] _].
  do 4 (split; [reflexivity |]). split.
  - apply H5. right. cbn. lia.
  - apply Hm. left. lia.
Defined.

(** X8. An empty domain string is not a missing field, and it is contained
    in every name: when it is not itself a category it resolves to the first
    category, on both paths. *)
Theorem empty_domain_resolves_to_first (rt : Runtime) (st : app_state)
    (enc : LabelEncoder) (first : string) (others : list string) :
  label_encoder st = Some enc ->
  classes_ enc = first :: others ->
  lower rt "" = "" ->
  ~ In "" (classes_ enc) ->
  is_none (JStr "") = false
  /\ predict_resolve rt st (JStr "") = Ok (Resolved first 0)
  /\ batch_resolve rt st (JStr "") = Ok (Resolved first 0).
Proof.
  intros Henc Hclasses Hlower Hnot.
  assert (Hmem : PyStr.mem "" (classes_ enc) = false).
  { destruct (PyStr.mem "" (classes_ enc)) eqn:E; [| reflexivity].
    apply mem_In in E. contradiction. }
  unfold predict_resolve, batch_resolve, the_classes, transform.
  rewrite Henc. cbn [need bind]. rewrite Hmem. cbn [negb].
  rewrite Hclasses. cbn [filter index_of].
  unfold fuzzy_match, batch_fuzzy_match. rewrite Hlower.
  assert (Hc : PyStr.contains "" (lower rt first) = true)
    by (destruct (lower rt first); reflexivity).
  rewrite Hc. cbn [orb index_of]. rewrite String.eqb_refl. repeat split.
Qed.

Lemma empty_domain_resolves_to_first_witness :
  let st := startup runtime (trained follow_competitor) in
  is_none (JStr "") = false
  /\ predict_resolve runtime st (JStr "") = Ok (Resolved "Automobile" 0)
  /\ batch_resolve runtime st (JStr "") = Ok (Resolved "Automobile" 0).
Proof.
  cbv zeta.
  apply (empty_domain_resolves_to_first runtime (startup runtime (trained follow_competitor))
           encoder "Automobile" ["Livres"; "Maison"; "Mode"; "Sport"]);
    try reflexivity.
  cbn. intros [H | [H | [H | [H | [H | []]]]]]; discriminate H.
Defined.

(** A complete payload reaches the domain block. *)
Lemma predict_try_complete (rt : Runtime) (st : app_state) (d : dict) :
  d <> [] ->
  missing_fields (read_fields d) = [] ->
  predict_try rt st (Ok (JObj d)) =
    (let resolution :=
       match predict_resolve rt st (raw_domaine (read_fields d)) with
       | Ok (Resolved nom code) => Ok (inr (nom, code))
       | Ok (NotRecognized s) =>
           classes <- the_classes st ;;
           Ok (inl (Response (not_recognized_body s classes) 400))
       | Ok (InvalidCode v) =>
           classes <- the_classes st ;;
           m <- jsonify_mapping (domain_mapping st) ;;
           Ok (inl (Response (invalid_code_body rt v classes m) 400))
       | Raise e => Raise e
       end in
     r <- match resolution with
          | Raise e =>
              if caught [ValueError; IndexError] e then
                classes <- the_classes st ;;
                Ok (inl (Response (encoding_error_body rt e classes) 400))
              else Raise e
          | r => r
          end ;;
     match r with
     | inl response => Ok response
     | inr (domaine_nom, domaine_encode) =>
         match coerce_numbers rt (read_fields d) with
         | Raise e =>
             if caught [ValueError; TypeError] e
             then Ok (Response (conversion_error_body rt e) 400)
             else Raise e
         | Ok (prix, cout, marge) =>
             match validate_numeric_ranges prix cout marge with
             | (_ :: _) as validation_errors =>
                 Ok (Response (validation_error_body validation_errors prix cout marge) 400)
             | [] =>
                 predicted_price <- run_model st domaine_encode prix cout marge ;;
                 Ok (Response
                       (success_body rt domaine_nom domaine_encode prix cout marge
                                     predicted_price) 200)
             end
         end
     end).
Proof.
  intros Hne Hmissing. unfold predict_try. cbn [bind as_dict].
  assert (Htrue : py_bool (JObj d) = true) by (destruct d; [congruence | reflexivity]).
  rewrite Htrue. cbn [negb]. rewrite Hmissing. reflexivity.
Qed.

Lemma batch_item_try_complete (rt : Runtime) (st : app_state) (i : Z) (d : dict) :
  missing_fields (read_fields d) = [] ->
  batch_item_try rt st i (JObj d) =
    (r <- match batch_resolve rt st (raw_domaine (read_fields d)) with
          | Ok (Resolved nom code) => Ok (inr (nom, code))
          | Ok (NotRecognized s) =>
              Ok (inl (Failure i ("Domaine " ++ PyStr.quoted s ++ " non reconnu")%string
                               [] (JObj d)))
          | Ok (InvalidCode v) =>
              Ok (inl (Failure i ("Code domaine " ++ py_str rt v ++ " invalide")%string
                               [] (JObj d)))
          | Raise e =>
              if caught [ValueError; IndexError] e then
                Ok (inl (Failure i ("Erreur d'encodage du domaine: " ++ str_exn rt e)%string
                                 [] (JObj d)))
              else Raise e
          end ;;
     match r with
     | inl entry => Ok entry
     | inr (domaine_nom, domaine_encode) =>
         match coerce_numbers rt (read_fields d) with
         | Raise e =>
             if caught [ValueError; TypeError] e then
               Ok (Failure i ("Erreur de conversion numérique: " ++ str_exn rt e)%string
                           [] (JObj d))
             else Raise e
         | Ok (prix, cout, marge) =>
             match validate_numeric_ranges prix cout marge with
             | (_ :: _) as validation_errors =>
                 Ok (Failure i "Erreurs de validation"
                             [("details", json_strings validation_errors)] (JObj d))
             | [] =>
                 predicted_price <- run_model st domaine_encode prix cout marge ;;
                 let marge_c := marge_calculee predicted_price cout in
                 let ratio := ratio_concurrent predicted_price prix in
                 Ok (Success i (py_round predicted_price 2) domaine_nom
                             (py_round marge_c 4) (rounded_ratio ratio) (JObj d))
             end
         end
     end).
Proof.
  intros Hmissing. unfold batch_item_try. cbn [bind as_dict]. rewrite Hmissing.
  reflexivity.
Qed.

(** X9. A complete record whose domain string is neither a category name nor
    a substring match of one is refused before its numbers are looked at:
    [/predict] answers 400 with the full list of category names, and the
    batch loop appends an error entry for it. *)
Theorem unknown_domain_is_refused (rt : Runtime) (st : app_state) (enc : LabelEncoder)
    (d : dict) (s : string) (i : Z) :
  model_loaded st = true ->
  label_encoder st = Some enc ->
  d <> [] ->
  missing_fields (read_fields d) = [] ->
  dict_get d "domaine" = JStr s ->
  ~ In s (classes_ enc) ->
  (forall c, In c (classes_ enc) -> fuzzy_match rt s c = false) ->
  predict rt st (Ok (JObj d)) = Response (not_recognized_body s (classes_ enc)) 400
  /\ field "domaines_disponibles" (not_recognized_body s (classes_ enc))
     = Some (json_strings (classes_ enc))
  /\ batch_item rt st i (JObj d)
     = Failure i ("Domaine " ++ PyStr.quoted s ++ " non reconnu")%string [] (JObj d).
Proof.
  intros Hloaded Henc Hne Hmissing Hdom Hnot Hnone.
  assert (Hraw : raw_domaine (read_fields d) = JStr s) by exact Hdom.
  assert (Hmem : PyStr.mem s (classes_ enc) = false).
  { destruct (PyStr.mem s (classes_ enc)) eqn:E; [| reflexivity].
    apply mem_In in E. contradiction. }
  assert (Hsingle : filter (fuzzy_match rt s) (classes_ enc) = [])
    by (apply filter_none; exact Hnone).
  assert (Hbatch : filter (batch_fuzzy_match rt s) (classes_ enc) = []).
  { apply filter_none. intros c Hc. specialize (Hnone c Hc).
    unfold fuzzy_match in Hnone. apply orb_false_iff in Hnone. apply Hnone. }
  split; [| split; [reflexivity |]].
  - unfold predict. rewrite Hloaded. cbn [negb].
    rewrite (predict_try_complete rt st d Hne Hmissing). cbv zeta.
    rewrite Hraw.
    unfold predict_resolve, the_classes. rewrite Henc. cbn [need bind].
    rewrite Hmem. cbn [negb]. rewrite Hsingle. reflexivity.
  - unfold batch_item. rewrite (batch_item_try_complete rt st i d Hmissing).
    rewrite Hraw.
    unfold batch_resolve, the_classes. rewrite Henc. cbn [need bind].
    rewrite Hmem. cbn [negb]. rewrite Hbatch. reflexivity.
Qed.

Lemma unknown_domain_is_refused_witness :
  let st := startup runtime (trained follow_competitor) in
  let d := [ ("domaine", JStr "Inexistant"); ("prix_concurrent", JStr "abc");
             ("cout_production", JFloat (-1)); ("marge_voulue", JFloat 0.6) ] in
  predict runtime st (Ok (JObj d))
  = Response (not_recognized_body "Inexistant" (classes_ encoder)) 400
  /\ field "domaines_disponibles" (not_recognized_body "Inexistant" (classes_ encoder))
     = Some (json_strings (classes_ encoder))
  /\ batch_item runtime st 7 (JObj d)
     = Failure 7 ("Domaine " ++ PyStr.quoted "Inexistant" ++ " non reconnu")%string []
               (JObj d).
Proof.
  cbv zeta.
  apply (unknown_domain_is_refused runtime (startup runtime (trained follow_competitor))
           encoder); try reflexivity.
  - discriminate.
  - cbn. intros [H | [H | [H | [H | [H | []]]]]]; discriminate H.
  - cbn. intros c [<- | [<- | [<- | [<- | [<- | []]]]]]; reflexivity.
Defined.

(** X10. A complete record whose domain is a number out of range is refused
    before its numbers are looked at: when the domain mapping can be
    serialized, [/predict] answers 400 with the valid range "0 à N-1" and the
    mapping, and the batch loop appends an error entry. *)
Theorem invalid_code_is_refused (rt : Runtime) (st : app_state) (enc : LabelEncoder)
    (d : dict) (v : json) (code : Z) (m : json) (i : Z) :
  model_loaded st = true ->
  label_encoder st = Some enc ->
  d <> [] ->
  missing_fields (read_fields d) = [] ->
  dict_get d "domaine" = v ->
  (forall s, v <> JStr s) ->
  py_int v = Ok code ->
  code < 0 \/ len (classes_ enc) <= code ->
  jsonify_mapping (domain_mapping st) = Ok m ->
  predict rt st (Ok (JObj d)) = Response (invalid_code_body rt v (classes_ enc) m) 400
  /\ field "codes_valides" (invalid_code_body rt v (classes_ enc) m)
     = Some (JStr ("0 à " ++ PyStr.of_Z (len (classes_ enc) - 1))%string)
  /\ field "domaines_disponibles" (invalid_code_body rt v (classes_ enc) m) = Some m
  /\ batch_item rt st i (JObj d)
     = Failure i ("Code domaine " ++ py_str rt v ++ " invalide")%string [] (JObj d).
Proof.
  intros Hloaded Henc Hne Hmissing Hdom Hstr Hint Hout Hmap.
  assert (Hraw : raw_domaine (read_fields d) = v) by exact Hdom.
  assert (Hor : (code <? 0) || (code >=? len (classes_ enc)) = true).
  { apply orb_true_iff. destruct Hout; [left | right]; lia. }
  assert (Hsingle : predict_resolve rt st v = Ok (InvalidCode v)).
  { unfold predict_resolve, the_classes. rewrite Henc.
    destruct v; try (rewrite Hint; cbn [need bind]; rewrite Hor; reflexivity).
    elim (Hstr s). reflexivity. }
  assert (Hbatch : batch_resolve rt st v = Ok (InvalidCode v)).
  { unfold batch_resolve, the_classes. rewrite Henc.
    destruct v; try (rewrite Hint; cbn [need bind]; rewrite Hor; reflexivity).
    elim (Hstr s). reflexivity. }
  split; [| split; [reflexivity | split; [reflexivity |]]].
  - unfold predict. rewrite Hloaded. cbn [negb].
    rewrite (predict_try_complete rt st d Hne Hmissing). cbv zeta.
    rewrite Hraw, Hsingle.
    unfold the_classes. rewrite Henc. cbn [need bind]. rewrite Hmap. reflexivity.
  - unfold batch_item. rewrite (batch_item_try_complete rt st i d Hmissing).
    rewrite Hraw, Hbatch. reflexivity.
Qed.

Lemma invalid_code_is_refused_witness :
  let st := startup runtime (trained follow_competitor) in
  let d := [ ("domaine", JInt 99); ("prix_concurrent", JFloat 750);
             ("cout_production", JFloat 500); ("marge_voulue", JFloat 0.6) ] in
  let m := JObj [ ("Automobile", JInt 0); ("Livres", JInt 1); ("Maison", JInt 2);
                  ("Mode", JInt 3); ("Sport", JInt 4) ] in
  predict runtime st (Ok (JObj d))
  = Response (invalid_code_body runtime (JInt 99) (classes_ encoder) m) 400
  /\ field "codes_valides" (invalid_code_body runtime (JInt 99) (classes_ encoder) m)
     = Some (JStr "0 à 4")
  /\ field "domaines_disponibles" (invalid_code_body runtime (JInt 99) (classes_ encoder) m)
     = Some m
  /\ batch_item runtime st 0 (JObj d) = Failure 0 "Code domaine 99 invalide" [] (JObj d).
Proof.
  cbv zeta.
  apply (invalid_code_is_refused runtime (startup runtime (trained follow_competitor))
           encoder _ (JInt 99) 99); try reflexivity; try discriminate.
  right. cbn. lia.
Defined.

(* ===================================================================== *)
(** * Numeric coercion and validation *)
(* ===================================================================== *)





(** ** The product [prix_concurrent * 0.9] *)

Lemma shr_1_nonneg (mrs : shr_record) : 0 <= shr_m mrs -> 0 <= shr_m (shr_1 mrs).
Proof.
  destruct mrs as [m r s]. cbn [shr_m].
  destruct m as [| [q | q |] | q]; cbn; lia.
Qed.

Lemma iter_pos_shr_1_nonneg (n : positive) (mrs : shr_record) :
  0 <= shr_m mrs -> 0 <= shr_m (iter_pos shr_1 n mrs).
Proof.
  revert mrs. induction n as [n IH | n IH |]; intros mrs H; cbn [iter_pos].
  - apply IH, IH, shr_1_nonneg, H.
  - apply IH, IH, H.
  - apply shr_1_nonneg, H.
Qed.

Lemma shr_fexp_nonneg (prec emax m e : Z) (l : location) :
  0 <= m -> 0 <= shr_m (fst (shr_fexp prec emax m e l)).
Proof.
  intros H. unfold shr_fexp, shr.
  assert (H0 : 0 <= shr_m (shr_record_of_loc m l))
    by (destruct l as [| []]; exact H).
  destruct (fexp prec emax (Zdigits2 m + e) - e); cbn [fst];
    [exact H0 | apply iter_pos_shr_1_nonneg, H0 | exact H0].
Qed.

Lemma binary_round_aux_not_nan (prec emax : Z) (s : bool) (m e : Z) (l : location) :
  0 <= m -> binary_round_aux prec emax s m e l <> S754_nan.
Proof.
  intros H. unfold binary_round_aux.
  pose proof (shr_fexp_nonneg prec emax m e l H) as H1.
  destruct (shr_fexp prec emax m e l) as [mrs1 e1]. cbn [fst] in H1.
  assert (H2 : 0 <= round_nearest_even (shr_m mrs1) (loc_of_shr_record mrs1)).
  { unfold round_nearest_even.
    destruct (loc_of_shr_record mrs1) as [| []];
      try destruct (IntDef.Z.even (shr_m mrs1)); lia. }
  pose proof (shr_fexp_nonneg prec emax _ e1 loc_Exact H2) as H3.
  destruct (shr_fexp prec emax _ e1 loc_Exact) as [mrs2 e2]. cbn [fst] in H3.
  destruct (shr_m mrs2); [discriminate | | lia].
  destruct (e2 <=? emax - prec); discriminate.
Qed.

(** A NaN has no image but NaN. *)
Lemma is_nan_Prim2SF (x : float) : PrimFloat.is_nan x = true <-> Prim2SF x = S754_nan.
Proof.
  split.
  - intros H. destruct (Prim2SF x) eqn:E; try reflexivity;
      assert (N : not_nan x) by (unfold not_nan; rewrite E; discriminate);
      apply not_nan_is_nan in N; congruence.
  - intros E. destruct (PrimFloat.is_nan x) eqn:H; [reflexivity |].
    apply not_nan_is_nan in H. contradiction.
Qed.

(** Nine tenths of a price is NaN exactly when the price is. *)
Lemma mul_09_nan (p : float) :
  PrimFloat.is_nan (p * 0.9)%float = PrimFloat.is_nan p.
Proof.
  destruct (PrimFloat.is_nan p) eqn:Hp.
  - apply is_nan_Prim2SF. apply is_nan_Prim2SF in Hp.
    rewrite mul_spec, Hp. reflexivity.
  - apply not_nan_is_nan. apply not_nan_is_nan in Hp. unfold not_nan in *.
    rewrite mul_spec. unfold SF64mul.
    change (Prim2SF 0.9) with (S754_finite false 8106479329266893 (-53)).
    destruct (Prim2SF p) as [s | s | | s m e]; cbn [SFmul];
      [discriminate | discriminate | congruence |].
    apply binary_round_aux_not_nan. lia.
Qed.

(** A comparison with NaN is false. *)
Lemma ltb_nan_l (x y : float) : PrimFloat.is_nan x = true -> (x <? y)%float = false.
Proof.
  intros H. apply is_nan_Prim2SF in H. rewrite ltb_spec, H. reflexivity.
Qed.

Lemma ltb_nan_r (x y : float) : PrimFloat.is_nan y = true -> (x <? y)%float = false.
Proof.
  intros H. apply is_nan_Prim2SF in H. rewrite ltb_spec, H.
  unfold SFltb. destruct (Prim2SF x); reflexivity.
Qed.

(** X12. Range validation never rejects NaN: a NaN price draws neither the
    price message nor the business message, a NaN cost neither the cost
    message nor the business message, a NaN margin no message; a record
    whose three numbers are NaN passes validation. *)
Theorem nan_escapes_validation (p c m : float) :
  let errors := validate_numeric_ranges p c m in
  (PrimFloat.is_nan p = true ->
   ~ In msg_prix_concurrent errors /\ ~ In msg_cout_eleve errors)
  /\ (PrimFloat.is_nan c = true ->
      ~ In msg_cout_production errors /\ ~ In msg_cout_eleve errors)
  /\ (PrimFloat.is_nan m = true -> ~ In msg_marge_voulue errors)
  /\ (PrimFloat.is_nan p = true -> PrimFloat.is_nan c = true ->
      PrimFloat.is_nan m = true -> errors = []).
Proof.
  cbv zeta.
  destruct (validate_numeric_ranges_in p c m) as (Hp & Hc & Hm & Hb).
  cbv zeta in Hp, Hc, Hm, Hb.
  assert (Hprod : PrimFloat.is_nan p = true -> (p * 0.9 <? c)%float = false).
  { intros H. apply ltb_nan_l. rewrite mul_09_nan. exact H. }
  split; [intros H; split | split; [intros H; split | split; [intros H |]]].
  - rewrite Hp, (ltb_nan_l p 0 H). discriminate.
  - rewrite Hb, (Hprod H). discriminate.
  - rewrite Hc, (ltb_nan_l c 0 H). discriminate.
  - rewrite Hb, (ltb_nan_r _ c H). discriminate.
  - rewrite Hm, (ltb_nan_l m 0 H). discriminate.
  - intros H1 H2 H3. rewrite validate_numeric_ranges_eq.
    rewrite (ltb_nan_l p 0 H1), (ltb_nan_l c 0 H2), (ltb_nan_l m 0 H3), (Hprod H1).
    reflexivity.
Qed.

(** X13. What validation guarantees for numbers that are not NaN: a record
    that draws no message has a price, a cost and a margin that are at
    least zero, and a cost that is at most nine tenths of the price (the
    binary64 product). *)
Theorem validated_numbers_are_ordered (p c m : float) :
  validate_numeric_ranges p c m = [] ->
  not_nan p -> not_nan c -> not_nan m ->
  (0 <=? p)%float = true
  /\ (0 <=? c)%float = true
  /\ (0 <=? m)%float = true
  /\ (c <=? p * 0.9)%float = true
  /\ (0 <=? p * 0.9)%float = true.
Proof.
  intros Hnone Hp Hc Hm.
  rewrite validate_numeric_ranges_eq in Hnone.
  destruct (p <? 0)%float eqn:Ep; [discriminate Hnone |].
  destruct (c <? 0)%float eqn:Ec; [discriminate Hnone |].
  destruct (m <? 0)%float eqn:Em; [discriminate Hnone |].
  destruct (p * 0.9 <? c)%float eqn:Eb; [discriminate Hnone |].
  assert (H0 : not_nan 0) by (apply not_nan_is_nan; reflexivity).
  assert (Hprod : not_nan (p * 0.9)).
  { apply not_nan_is_nan. rewrite mul_09_nan. apply not_nan_is_nan, Hp. }
  assert (Hcost : (0 <=? c)%float = true) by (apply leb_of_not_ltb; assumption).
  assert (Hbound : (c <=? p * 0.9)%float = true) by (apply leb_of_not_ltb; assumption).
  repeat split; try (apply leb_of_not_ltb; assumption).
  exact (leb_trans _ _ _ Hcost Hbound).
Qed.

Lemma validated_numbers_are_ordered_witness :
  (0 <=? 750)%float = true /\ (500 <=? 750 * 0.9)%float = true.
Proof.
  assert (N : forall x : float, PrimFloat.is_nan x = false -> not_nan x)
    by (intros x; apply not_nan_is_nan).
  destruct (validated_numbers_are_ordered 750 500 0.6 eq_refl
              (N 750%float eq_refl) (N 500%float eq_refl) (N 0.6%float eq_refl))
    as (H1 & _ & _ & H4 & _).
  split; [exact H1 | exact H4].
Defined.

(* ===================================================================== *)
(** * The batch loop, record by record *)
(* ===================================================================== *)

(** Whatever happens to a record, its entry carries the position and the
    record it was computed from. *)
Lemma batch_item_try_index (rt : Runtime) (st : app_state) (i : Z) (item : json)
    (entry : batch_entry) :
  batch_item_try rt st i item = Ok entry ->
  entry_index entry = i /\ entry_record entry = item.
Proof.
  unfold batch_item_try.
  destruct (as_dict item) as [d |]; cbn [bind]; [| discriminate].
  destruct (missing_fields (read_fields d)).
  2: { intros H. injection H as <-. split; reflexivity. }
  destruct (batch_resolve rt st (raw_domaine (read_fields d))) as [[nom code | s | v] | e];
    cbn [bind].
  - destruct (coerce_numbers rt (read_fields d)) as [[[p c] m] | e].
    + destruct (validate_numeric_ranges p c m).
      * destruct (run_model st code p c m); cbn [bind]; [| discriminate].
        intros H. injection H as <-. split; reflexivity.
      * intros H. injection H as <-. split; reflexivity.
    + destruct (caught [ValueError; TypeError] e); [| discriminate].
      intros H. injection H as <-. split; reflexivity.
  - intros H. injection H as <-. split; reflexivity.
  - intros H. injection H as <-. split; reflexivity.
  - destruct (caught [ValueError; IndexError] e); cbn [bind]; [| discriminate].
    intros H. injection H as <-. split; reflexivity.
Qed.

Lemma batch_item_index (rt : Runtime) (st : app_state) (i : Z) (item : json) :
  entry_index (batch_item rt st i item) = i
  /\ entry_record (batch_item rt st i item) = item.
Proof.
  unfold batch_item.
  destruct (batch_item_try rt st i item) as [entry |] eqn:E.
  - exact (batch_item_try_index rt st i item entry E).
  - split; reflexivity.
Qed.

Lemma batch_loop_nth (rt : Runtime) (st : app_state) (items : list json) :
  forall (i : Z) (k : nat),
    nth_error (batch_loop rt st i items []) k
    = option_map (batch_item rt st (i + Z.of_nat k)) (nth_error items k).
Proof.
  induction items as [| item rest IH]; intros i k.
  - destruct k; reflexivity.
  - cbn [batch_loop app]. rewrite batch_loop_app.
    destruct k as [| k]; cbn [nth_error app option_map].
    + rewrite Z.add_0_r. reflexivity.
    + rewrite IH. f_equal.
      replace (i + 1 + Z.of_nat k) with (i + Z.of_nat (S k)) by lia. reflexivity.
Qed.

(** X14. The batch loop treats each record on its own: the entry at
    position [k] of the results is the one computed from the record at
    position [k], whatever the other records are and whether they fail; it
    carries [index = k] and the record itself under [caracteristiques]; and
    there are as many entries as records. *)
Theorem batch_entries_are_positional (rt : Runtime) (st : app_state)
    (items : list json) (k : nat) (item : json) :
  nth_error items k = Some item ->
  exists entry,
    nth_error (batch_loop rt st 0 items []) k = Some entry
    /\ entry = batch_item rt st (Z.of_nat k) item
    /\ entry_index entry = Z.of_nat k
    /\ entry_record entry = item
    /\ len (batch_loop rt st 0 items []) = len items.
Proof.
  intros Hk. exists (batch_item rt st (Z.of_nat k) item).
  rewrite batch_loop_nth, Hk. cbn [option_map Z.add].
  destruct (batch_item_index rt st (Z.of_nat k) item) as [Hi Hr].
  repeat split; try assumption. apply batch_loop_length.
Qed.

Lemma batch_entries_are_positional_witness :
  let st := startup runtime (trained follow_competitor) in
  let good := JObj [ ("domaine", JStr "Mode"); ("prix_concurrent", JFloat 750);
                     ("cout_production", JFloat 500); ("marge_voulue", JFloat 0.6) ] in
  exists entry,
    nth_error (batch_loop runtime st 0 [JInt 7; JObj []; good] []) 2 = Some entry
    /\ statut entry = "success"
    /\ entry_index entry = 2.
Proof.
  cbv zeta.
  destruct (batch_entries_are_positional runtime
              (startup runtime (trained follow_competitor))
              [JInt 7; JObj [];
               JObj [ ("domaine", JStr "Mode"); ("prix_concurrent", JFloat 750);
                      ("cout_production", JFloat 500); ("marge_voulue", JFloat 0.6) ]]
              2 _ eq_refl) as (entry & Hnth & Hentry & Hindex & _).
  exists entry. split; [exact Hnth |]. split; [| exact Hindex].
  rewrite Hentry. vm_compute. reflexivity.
Defined.

(** X15. What [/predict_batch] answers, by the shape of the payload, on a
    loaded model. A false payload or an object without the key
    [predictions] gets the 400 format answer. An object whose [predictions]
    value can be iterated (a list, but also a dict or a string) always gets
    200, whatever its elements are: one entry per element and statistics
    whose [total] is their number. A [predictions] value that cannot be
    iterated (null, a boolean, a number) gets 500, and so does a payload
    that is not an object but contains [predictions] (a list with that
    string, a string with that substring) or does not support [in]. *)
Theorem batch_answer_by_payload (rt : Runtime) (st : app_state) (data : json) :
  model_loaded st = true ->
  (py_bool data = false -> predict_batch rt st (Ok data) = Response batch_format_body 400)
  /\ (forall d, data = JObj d -> dict_has d "predictions" = false ->
      predict_batch rt st (Ok data) = Response batch_format_body 400)
  /\ (forall d items,
      data = JObj d -> dict_has d "predictions" = true ->
      py_iter (dict_get d "predictions") = Ok items ->
      exists stats,
        predict_batch rt st (Ok data)
        = Response (JObj [ ("predictions",
                             JList (map entry_json (batch_loop rt st 0 items [])));
                           ("statistiques", stats);
                           ("timestamp", JStr (now rt)) ]) 200
        /\ len (map entry_json (batch_loop rt st 0 items [])) = len items
        /\ field "total" stats = Some (JInt (len items)))
  /\ (forall d e,
      data = JObj d -> dict_has d "predictions" = true ->
      py_iter (dict_get d "predictions") = Raise e ->
      predict_batch rt st (Ok data) = Response (batch_error_body rt e) 500)
  /\ ((forall d, data <> JObj d) -> py_bool data = true ->
      match has_predictions data with
      | Ok false => predict_batch rt st (Ok data) = Response batch_format_body 400
      | Ok true =>
          predict_batch rt st (Ok data)
          = Response (batch_error_body rt (Raised TypeError "subscript" data)) 500
      | Raise e => predict_batch rt st (Ok data) = Response (batch_error_body rt e) 500
      end).
Proof.
  intros Hloaded. unfold predict_batch. rewrite Hloaded. cbn [negb].
  unfold batch_try. cbn [bind].
  split; [| split; [| split; [| split]]].
  - intros ->. reflexivity.
  - intros d -> Hkey. cbn [has_predictions bind]. rewrite Hkey.
    destruct (py_bool (JObj d)); reflexivity.
  - intros d items -> Hkey Hiter.
    assert (Htrue : py_bool (JObj d) = true) by (destruct d; [discriminate Hkey | reflexivity]).
    rewrite Htrue. cbn [negb has_predictions bind get_predictions]. rewrite Hkey.
    cbn [negb bind]. rewrite Hiter. cbn [bind].
    pose proof (statistiques_eq (batch_loop rt st 0 items [])) as Hstats.
    cbv zeta in Hstats. rewrite Hstats. cbn [bind].
    eexists. split; [reflexivity |]. split.
    + unfold len. rewrite length_map. apply batch_loop_length.
    + cbn. rewrite batch_loop_length. reflexivity.
  - intros d e -> Hkey Hiter.
    assert (Htrue : py_bool (JObj d) = true) by (destruct d; [discriminate Hkey | reflexivity]).
    rewrite Htrue. cbn [negb has_predictions bind get_predictions]. rewrite Hkey.
    cbn [negb bind]. rewrite Hiter. reflexivity.
  - intros Hshape ->. cbn [negb].
    destruct data as [| b | n | x | s | l | d]; cbn [has_predictions bind];
      try reflexivity.
    + destruct (PyStr.contains "predictions" s); reflexivity.
    + destruct (existsb _ l); reflexivity.
    + exfalso. exact (Hshape d eq_refl).
Qed.

Lemma batch_answer_by_payload_witness :
  let st := startup runtime (trained follow_competitor) in
  predict_batch runtime st (Ok (JObj [])) = Response batch_format_body 400
  /\ status_of (predict_batch runtime st (Ok (JObj [("predictions", JStr "ab")]))) = 200
  /\ status_of (predict_batch runtime st (Ok (JObj [("predictions", JInt 3)]))) = 500
  /\ status_of (predict_batch runtime st (Ok (JList [JStr "predictions"]))) = 500.
Proof.
  cbv zeta.
  split.
  { exact (proj1 (batch_answer_by_payload runtime
                    (startup runtime (trained follow_competitor)) (JObj []) eq_refl)
                 eq_refl). }
  split.
  { destruct (batch_answer_by_payload runtime
                (startup runtime (trained follow_competitor))
                (JObj [("predictions", JStr "ab")]) eq_refl) as (_ & _ & H & _).
    destruct (H _ _ eq_refl eq_refl eq_refl) as (stats & -> & _). reflexivity. }
  split.
  { destruct (batch_answer_by_payload runtime
                (startup runtime (trained follow_competitor))
                (JObj [("predictions", JInt 3)]) eq_refl) as (_ & _ & _ & H & _).
    rewrite (H _ _ eq_refl eq_refl eq_refl). reflexivity. }
  destruct (batch_answer_by_payload runtime
              (startup runtime (trained follow_competitor))
              (JList [JStr "predictions"]) eq_refl) as (_ & _ & _ & _ & H).
  assert (Hshape : forall d, JList [JStr "predictions"] <> JObj d) by discriminate.
  specialize (H Hshape eq_refl). cbn in H. rewrite H. reflexivity.
Defined.

(** X16. Records of a batch that are refused before the domain is looked
    at, whatever the state of the encoder. A record that is not an object
    gets an error entry with the text of the [AttributeError] its [.get]
    raises. An object lacking required fields (absent or null) gets the
    entry "Caractéristiques manquantes" whose [manquantes] lists exactly
    those fields, in the order of the required fields; the empty object
    lists all four, the batch path having no guard for an empty record. *)
Theorem batch_record_shape_errors (rt : Runtime) (st : app_state) (i : Z) (item : json) :
  ((forall d, item <> JObj d) ->
   batch_item rt st i item
   = Failure i (str_exn rt (Raised AttributeError "get" item)) [] item)
  /\ (forall d,
      item = JObj d ->
      let missing := filter (fun name => is_none (dict_get d name)) required_fields in
      (forall name, In name missing <-> In name required_fields /\ dict_get d name = JNull)
      /\ (missing <> [] ->
          batch_item rt st i item
          = Failure i "Caractéristiques manquantes"
                    [("manquantes", json_strings missing)] item))
  /\ (item = JObj [] ->
      batch_item rt st i item
      = Failure i "Caractéristiques manquantes"
                [("manquantes", json_strings required_fields)] item).
Proof.
  split; [| split].
  - intros Hshape. unfold batch_item, batch_item_try.
    destruct item as [| b | n | x | s | l | d]; try reflexivity.
    exfalso. exact (Hshape d eq_refl).
  - intros d -> missing. split.
    + intros name. unfold missing. rewrite filter_In, is_none_spec. reflexivity.
    + intros Hmissing. unfold batch_item, batch_item_try. cbn [as_dict bind].
      rewrite (missing_fields_eq d). fold missing.
      destruct missing; [contradiction | reflexivity].
  - intros ->. reflexivity.
Qed.

(** A successful entry of the batch, read backwards. *)
Lemma batch_item_success_inv (rt : Runtime) (st : app_state) (i j : Z) (item it : json)
    (prix marge_r : float) (nom : string) (ratio : json) :
  batch_item rt st i item = Success j prix nom marge_r ratio it ->
  exists d code p c m price,
    item = JObj d
    /\ missing_fields (read_fields d) = []
    /\ batch_resolve rt st (raw_domaine (read_fields d)) = Ok (Resolved nom code)
    /\ coerce_numbers rt (read_fields d) = Ok (p, c, m)
    /\ validate_numeric_ranges p c m = []
    /\ run_model st code p c m = Ok price
    /\ prix = py_round price 2
    /\ marge_r = py_round (marge_calculee price c) 4
    /\ ratio = rounded_ratio (ratio_concurrent price p).
Proof.
  unfold batch_item, batch_item_try.
  destruct item as [| b | n | x | s | l | d]; cbn [as_dict bind]; try discriminate.
  destruct (missing_fields (read_fields d)) eqn:Hmissing; [| discriminate].
  destruct (batch_resolve rt st (raw_domaine (read_fields d)))
    as [[nom' code | s | v] | e] eqn:Hresolve; cbn [bind]; try discriminate.
  - destruct (coerce_numbers rt (read_fields d)) as [[[p c] m] | e] eqn:Hcoerce.
    + destruct (validate_numeric_ranges p c m) eqn:Hvalid; [| discriminate].
      destruct (run_model st code p c m) as [price |] eqn:Hrun; cbn [bind];
        [| discriminate].
      intros H. injection H as <- <- <- <- <- <-.
      exists d, code, p, c, m, price. repeat split; assumption || reflexivity.
    + destruct (caught [ValueError; TypeError] e); discriminate.
  - destruct (caught [ValueError; IndexError] e); cbn [bind]; discriminate.
Qed.

(** A record with its four fields is not the empty object. *)
Lemma complete_record_is_true (d : dict) :
  missing_fields (read_fields d) = [] -> py_bool (JObj d) = true.
Proof. destruct d; [discriminate | reflexivity]. Qed.

(** X17. On a record whose domain needs no fuzzy matching (a code, or a
    string that is a class name), the two prediction paths agree: [/predict]
    answers 200 exactly when the batch loop appends a success entry, and the
    entry then carries the same rounded price, domain name, realized margin
    and competitor ratio as the single answer. *)
Theorem batch_agrees_with_single (rt : Runtime) (st : app_state) (d : dict) (i : Z) :
  model_loaded st = true ->
  (forall s classes,
     dict_get d "domaine" = JStr s -> the_classes st = Ok classes -> In s classes) ->
  ((exists body, predict rt st (Ok (JObj d)) = Response body 200)
   <-> statut (batch_item rt st i (JObj d)) = "success")
  /\ (forall body,
      predict rt st (Ok (JObj d)) = Response body 200 ->
      exists prix nom marge_r ratio,
        batch_item rt st i (JObj d) = Success i prix nom marge_r ratio (JObj d)
        /\ field "prix_predit" body = Some (JFloat prix)
        /\ field2 "caracteristiques_utilisees" "domaine" body = Some (JStr nom)
        /\ field2 "analyse_economique" "marge_realisee" body = Some (JFloat marge_r)
        /\ field2 "analyse_economique" "ratio_prix_concurrent" body = Some ratio).
Proof.
  intros Hloaded Hexact.
  assert (Hsame : predict_resolve rt st (raw_domaine (read_fields d))
                  = batch_resolve rt st (raw_domaine (read_fields d))).
  { apply resolve_paths_agree_exact.
    change (raw_domaine (read_fields d)) with (dict_get d "domaine").
    destruct (dict_get d "domaine") as [| | | | s | |] eqn:Hdom; try exact I.
    intros classes Hclasses. apply mem_In. exact (Hexact s classes eq_refl Hclasses). }
  assert (Hforward : forall body,
            predict rt st (Ok (JObj d)) = Response body 200 ->
            exists prix nom marge_r ratio,
              batch_item rt st i (JObj d) = Success i prix nom marge_r ratio (JObj d)
              /\ field "prix_predit" body = Some (JFloat prix)
              /\ field2 "caracteristiques_utilisees" "domaine" body = Some (JStr nom)
              /\ field2 "analyse_economique" "marge_realisee" body = Some (JFloat marge_r)
              /\ field2 "analyse_economique" "ratio_prix_concurrent" body = Some ratio).
  { intros body Hok.
    destruct (predict_success_inv rt st _ body Hok)
      as (d' & nom & code & p & c & m & price & Hd & _ & Hmissing & Hresolve
          & Hcoerce & Hvalid & Hrun & ->).
    injection Hd as <-.
    exists (py_round price 2), nom, (py_round (marge_calculee price c) 4),
      (rounded_ratio (ratio_concurrent price p)).
    split; [| repeat split; reflexivity].
    unfold batch_item. rewrite (batch_item_try_complete rt st i d Hmissing).
    rewrite <- Hsame, Hresolve. cbn [bind]. rewrite Hcoerce, Hvalid, Hrun.
    reflexivity. }
  split; [split |].
  - intros (body & Hok).
    destruct (Hforward body Hok) as (prix & nom & marge_r & ratio & -> & _).
    reflexivity.
  - intros Hstatut.
    destruct (batch_item rt st i (JObj d)) as [j prix nom marge_r ratio it |] eqn:Hentry;
      [| discriminate Hstatut].
    destruct (batch_item_success_inv rt st i j _ it prix marge_r nom ratio Hentry)
      as (d' & code & p & c & m & price & Hd & Hmissing & Hresolve & Hcoerce
          & Hvalid & Hrun & _).
    injection Hd as <-.
    exists (success_body rt nom code p c m price).
    unfold predict. rewrite Hloaded. cbn [negb].
    rewrite (predict_try_validated rt st d nom code p c m
               (complete_record_is_true d Hmissing) Hmissing
               (eq_trans Hsame Hresolve) Hcoerce).
    rewrite Hvalid, Hrun. reflexivity.
  - exact Hforward.
Qed.

Lemma batch_agrees_with_single_witness :
  let st := startup runtime (trained follow_competitor) in
  let d := [ ("domaine", JStr "Mode"); ("prix_concurrent", JFloat 750);
             ("cout_production", JFloat 500); ("marge_voulue", JFloat 0.6) ] in
  In "Mode" (classes_ encoder)
  /\ statut (batch_item runtime st 4 (JObj d)) = "success".
Proof.
  cbv zeta.
  assert (Hin : In "Mode" (classes_ encoder)) by (cbn; tauto).
  split; [exact Hin |].
  refine (proj1 (proj1 (batch_agrees_with_single runtime
                   (startup runtime (trained follow_competitor))
                   [ ("domaine", JStr "Mode"); ("prix_concurrent", JFloat 750);
                     ("cout_production", JFloat 500); ("marge_voulue", JFloat 0.6) ]
                   4 eq_refl _)) _).
  - intros s classes Hs Hclasses. injection Hs as <-. injection Hclasses as <-.
    exact Hin.
  - eexists. vm_compute. reflexivity.
Defined.

(* ===================================================================== *)
(** * No exception leaves a handler that has a [try] *)
(* ===================================================================== *)

(** Case analysis on the innermost scrutinee of the goal. *)
Ltac innermost_case :=
  match goal with
  | |- context [match ?x with _ => _ end] =>
      lazymatch x with
      | context [match _ with _ => _ end] => fail
      | _ => destruct x
      end
  end.

Ltac answer_shape :=
  eexists; eexists; (split; [reflexivity |]);
  (split; [tauto |]);
  try (split; [intros H; try discriminate H; reflexivity |]);
  intros Hs; first [exfalso; apply Hs; reflexivity | eexists; reflexivity].

(** X18. The three handlers written with a [try] always answer with a JSON
    body, whatever the payload and the state of the globals: no exception
    leaves them. [/predict] and [/predict_batch] answer 200, 400 or 500 and
    [/model_info] 200 or 500; every body but a 200 one has a textual
    [error], and a 200 body of [/predict] has [statut = success]. *)
Theorem handlers_always_answer (rt : Runtime) (st : app_state) (payload : result json) :
  (exists body status,
     predict rt st payload = Response body status
     /\ (status = 200 \/ status = 400 \/ status = 500)
     /\ (status = 200 -> field "statut" body = Some (JStr "success"))
     /\ (status <> 200 -> exists msg, field "error" body = Some (JStr msg)))
  /\ (exists body status,
        predict_batch rt st payload = Response body status
        /\ (status = 200 \/ status = 400 \/ status = 500)
        /\ (status <> 200 -> exists msg, field "error" body = Some (JStr msg)))
  /\ (exists body status,
        model_info_endpoint rt st = Response body status
        /\ (status = 200 \/ status = 500)
        /\ (status <> 200 -> exists msg, field "error" body = Some (JStr msg))).
Proof.
  split; [| split].
  - unfold predict, predict_try, bind. repeat innermost_case; answer_shape.
  - unfold predict_batch, batch_try, bind. repeat innermost_case; answer_shape.
  - unfold model_info_endpoint.
    destruct (negb (model_loaded st)); [answer_shape |].
    destruct (model_info_try st); answer_shape.
Qed.


(* ===================================================================== *)
(** * The training script *)
(* ===================================================================== *)

(** ** The dataset candidates *)


Lemma exn_class_beq_true (a b : exn_class) : exn_class_beq a b = true <-> a = b.
Proof.
  destruct a, b; cbn; split; congruence.
Qed.

Lemma load_dataset_spec {D : Type} (read_csv : string -> result D) (files : list string) :
  match Train.load_dataset read_csv files with
  | Ok (Some df) =>
      exists before csv_file after,
        files = before ++ csv_file :: after
        /\ read_csv csv_file = Ok df
        /\ (forall f, In f before -> Train.not_found read_csv f)
  | Ok None => forall f, In f files -> Train.not_found read_csv f
  | Raise e =>
      exists before csv_file after,
        files = before ++ csv_file :: after
        /\ read_csv csv_file = Raise e
        /\ exn_cls e <> FileNotFoundError
        /\ (forall f, In f before -> Train.not_found read_csv f)
  end.
Proof.
  induction files as [| f rest IH]; cbn [Train.load_dataset].
  - intros f [].
  - destruct (read_csv f) as [df | e] eqn:Hread.
    + exists [], f, rest. split; [reflexivity |]. split; [exact Hread |]. intros g [].
    + destruct (exn_class_beq (exn_cls e) FileNotFoundError) eqn:Hcls.
      * apply exn_class_beq_true in Hcls.
        assert (Hf : Train.not_found read_csv f) by (exists e; split; assumption).
        destruct (Train.load_dataset read_csv rest) as [[df |] | e'].
        -- destruct IH as (before & g & after & -> & Hg & Hbefore).
           exists (f :: before), g, after. split; [reflexivity |]. split; [exact Hg |].
           intros h [<- | Hh]; [exact Hf | exact (Hbefore h Hh)].
        -- intros h [<- | Hh]; [exact Hf | exact (IH h Hh)].
        -- destruct IH as (before & g & after & -> & Hg & Hne & Hbefore).
           exists (f :: before), g, after. split; [reflexivity |]. split; [exact Hg |].
           split; [exact Hne |].
           intros h [<- | Hh]; [exact Hf | exact (Hbefore h Hh)].
      * exists [], f, rest. split; [reflexivity |]. split; [exact Hread |].
        split; [| intros g []].
        intros Heq. apply exn_class_beq_true in Heq. congruence.
Qed.

(** X20. The trainer takes the first dataset that can be read, the enriched
    file before the 100-row one. It falls back to the second file only when
    the first is not found: a first file that is there but cannot be read
    ends the run with [(None, None)] even if the second file is fine, and
    so does the absence of both; in these cases no file is written. *)
Theorem dataset_candidates_in_order {D : Type} (read_csv : string -> result D)
    (domaine_column : D -> result (list string))
    (fit_model : D -> list Z -> result Model) :
  let enriched := "dataset_projet_reseau_cameroun_enrichi.csv" in
  let small := "dataset_projet_reseau_100.csv" in
  (forall df, read_csv enriched = Ok df ->
     Train.load_dataset read_csv Train.csv_files = Ok (Some df))
  /\ (forall df, Train.not_found read_csv enriched -> read_csv small = Ok df ->
        Train.load_dataset read_csv Train.csv_files = Ok (Some df))
  /\ (Train.not_found read_csv enriched -> Train.not_found read_csv small ->
        Train.load_dataset read_csv Train.csv_files = Ok None
        /\ Train.train_cameroon_pricing_model read_csv domaine_column fit_model = None)
  /\ (forall e, read_csv enriched = Raise e -> exn_cls e <> FileNotFoundError ->
        Train.load_dataset read_csv Train.csv_files = Raise e
        /\ Train.train_cameroon_pricing_model read_csv domaine_column fit_model = None)
  /\ (forall df,
        Train.load_dataset read_csv Train.csv_files = Ok (Some df) ->
        read_csv enriched = Ok df
        \/ (Train.not_found read_csv enriched /\ read_csv small = Ok df)).
Proof.
  cbv zeta.
  assert (Hskip : forall f, Train.not_found read_csv f ->
            forall rest, Train.load_dataset read_csv (f :: rest)
                         = Train.load_dataset read_csv rest).
  { intros f (e & He & Hcls) rest. cbn [Train.load_dataset].
    rewrite He, Hcls. reflexivity. }
  assert (Hstop : forall f e, read_csv f = Raise e -> exn_cls e <> FileNotFoundError ->
            forall rest, Train.load_dataset read_csv (f :: rest) = Raise e).
  { intros f e He Hcls rest. cbn [Train.load_dataset]. rewrite He.
    destruct (exn_class_beq (exn_cls e) FileNotFoundError) eqn:Hb; [| reflexivity].
    apply exn_class_beq_true in Hb. contradiction. }
  unfold Train.train_cameroon_pricing_model, Train.csv_files.
  split; [| split; [| split; [| split]]].
  - intros df Hdf. cbn [Train.load_dataset]. rewrite Hdf. reflexivity.
  - intros df H1 H2. rewrite (Hskip _ H1). cbn [Train.load_dataset]. rewrite H2.
    reflexivity.
  - intros H1 H2. rewrite (Hskip _ H1), (Hskip _ H2). split; reflexivity.
  - intros e He Hcls. rewrite (Hstop _ e He Hcls). split; reflexivity.
  - intros df Hload.
    pose proof (load_dataset_spec read_csv
                  [ "dataset_projet_reseau_cameroun_enrichi.csv";
                    "dataset_projet_reseau_100.csv" ]) as Hspec.
    rewrite Hload in Hspec.
    destruct Hspec as (before & f & after & Hsplit & Hf & Hbefore).
    destruct before as [| b1 before].
    + injection Hsplit as <- _. left. exact Hf.
    + injection Hsplit as <- Hsplit. right.
      split; [apply Hbefore; left; reflexivity |].
      destruct before as [| b2 before].
      * injection Hsplit as <- _. exact Hf.
      * injection Hsplit as _ Hsplit. destruct before; discriminate Hsplit.
Qed.

(** ** Fitting the encoder *)

(** The order of strings is a strict total order. *)
Lemma string_compare_refl (s : string) : String.compare s s = Eq.
Proof.
  induction s as [| c s IH]; cbn; [reflexivity |].
  unfold Ascii.compare. rewrite N.compare_refl. exact IH.
Qed.

Lemma string_compare_lt_trans (a b c : string) :
  String.compare a b = Lt -> String.compare b c = Lt -> String.compare a c = Lt.
Proof.
  revert b c. induction a as [| x a IH]; intros [| y b] [| z c]; cbn;
    try discriminate; try reflexivity.
  unfold Ascii.compare.
  destruct (N.compare_spec (N_of_ascii x) (N_of_ascii y)) as [Hxy | Hxy | Hxy];
    try discriminate;
    destruct (N.compare_spec (N_of_ascii y) (N_of_ascii z)) as [Hyz | Hyz | Hyz];
    try discriminate; intros H1 H2.
  - rewrite Hxy, Hyz, N.compare_refl. exact (IH b c H1 H2).
  - rewrite Hxy. apply N.compare_lt_iff in Hyz. rewrite Hyz. reflexivity.
  - rewrite <- Hyz. apply N.compare_lt_iff in Hxy. rewrite Hxy. reflexivity.
  - assert (Hxz : (N_of_ascii x < N_of_ascii z)%N) by lia.
    apply N.compare_lt_iff in Hxz. rewrite Hxz. reflexivity.
Qed.

Lemma insert_unique_In (x : string) (xs : list string) (y : string) :
  In y (Train.insert_unique x xs) <-> y = x \/ In y xs.
Proof.
  induction xs as [| z xs IH]; cbn [Train.insert_unique].
  - cbn. intuition congruence.
  - destruct (String.compare x z) eqn:Hc.
    + apply String.compare_eq_iff in Hc. subst z. cbn. intuition congruence.
    + cbn. intuition congruence.
    + cbn [In]. rewrite IH. intuition congruence.
Qed.

Lemma insert_unique_increasing (x : string) (xs : list string) :
  Train.increasing xs -> Train.increasing (Train.insert_unique x xs).
Proof.
  unfold Train.increasing.
  induction xs as [| z xs IH]; intros Hs; cbn [Train.insert_unique].
  - constructor; constructor.
  - inversion Hs as [| z' xs' Hrest Hall]; subst.
    destruct (String.compare x z) eqn:Hc.
    + exact Hs.
    + constructor; [exact Hs |]. constructor; [exact Hc |].
      rewrite Forall_forall in *. intros y Hy.
      exact (string_compare_lt_trans x z y Hc (Hall y Hy)).
    + constructor; [exact (IH Hrest) |].
      rewrite Forall_forall in *. intros y Hy.
      apply insert_unique_In in Hy. destruct Hy as [-> | Hy]; [| exact (Hall y Hy)].
      rewrite String.compare_antisym, Hc. reflexivity.
Qed.

Lemma unique_In (column : list string) (s : string) :
  In s (Train.unique column) <-> In s column.
Proof.
  induction column as [| x column IH]; cbn [Train.unique fold_right]; [reflexivity |].
  fold (Train.unique column). rewrite insert_unique_In, IH. cbn. intuition congruence.
Qed.

Lemma unique_increasing (column : list string) : Train.increasing (Train.unique column).
Proof.
  induction column as [| x column IH]; cbn [Train.unique fold_right].
  - constructor.
  - apply insert_unique_increasing. exact IH.
Qed.

Lemma increasing_NoDup (xs : list string) : Train.increasing xs -> NoDup xs.
Proof.
  unfold Train.increasing. induction 1 as [| x xs Hs IH Hall]; constructor; [| exact IH].
  intros Hin. rewrite Forall_forall in Hall. specialize (Hall x Hin).
  rewrite string_compare_refl in Hall. discriminate.
Qed.

(** The codes of a list of known names, one by one. *)
Lemma map_result_transform (enc : LabelEncoder) (names : list string) :
  (forall s, In s names -> In s (classes_ enc)) ->
  exists codes,
    map_result (transform enc) names = Ok codes
    /\ List.length codes = List.length names
    /\ (forall k s, nth_error names k = Some s ->
          exists code, nth_error codes k = Some code
                       /\ transform enc s = Ok code).
Proof.
  induction names as [| x names IH]; intros Hknown; cbn [map_result].
  - exists []. split; [reflexivity |]. split; [reflexivity |].
    intros k s H. destruct k; discriminate H.
  - destruct (transform_known enc x (Hknown x (or_introl eq_refl))) as (c & Hc & _).
    destruct IH as (codes & Hcodes & Hlen & Hnth).
    { intros s Hs. apply Hknown. right. exact Hs. }
    rewrite Hc. cbn [bind]. rewrite Hcodes. cbn [bind].
    exists (c :: codes). split; [reflexivity |]. split; [cbn; congruence |].
    intros [| k] s H; cbn [nth_error] in *.
    + injection H as <-. exists c. split; [reflexivity | exact Hc].
    + exact (Hnth k s H).
Qed.

(** X21. Fitting the encoder on the domain column: [classes_] holds exactly
    the values of the column, each once, in increasing order; encoding the
    column never raises, and the code of a row is the position of its domain
    in [classes_], so that two rows get the same code only when their
    domains are equal. *)
Theorem fit_encodes_the_column (column : list string) :
  (forall s, In s (classes_ (Train.fit column)) <-> In s column)
  /\ Train.increasing (classes_ (Train.fit column))
  /\ NoDup (classes_ (Train.fit column))
  /\ exists codes,
       Train.fit_transform column = Ok (Train.fit column, codes)
       /\ List.length codes = List.length column
       /\ (forall k s, nth_error column k = Some s ->
             exists code,
               nth_error codes k = Some code
               /\ 0 <= code < len (classes_ (Train.fit column))
               /\ nth_error (classes_ (Train.fit column)) (Z.to_nat code) = Some s).
Proof.
  split; [exact (unique_In column) |].
  split; [exact (unique_increasing column) |].
  split; [exact (increasing_NoDup _ (unique_increasing column)) |].
  destruct (map_result_transform (Train.fit column) column) as (codes & Hcodes & Hlen & Hnth).
  { intros s Hs. apply unique_In. exact Hs. }
  exists codes. unfold Train.fit_transform. rewrite Hcodes. cbn [bind].
  split; [reflexivity |]. split; [exact Hlen |].
  intros k s Hk. destruct (Hnth k s Hk) as (code & Hcode & Htransform).
  exists code. split; [exact Hcode |].
  unfold transform in Htransform.
  destruct (index_of s (classes_ (Train.fit column))) as [i |] eqn:Hi;
    [| discriminate Htransform].
  injection Htransform as <-. exact (index_of_nth _ _ _ Hi).
Qed.

(** ** The mapping file and the service started on the trainer's files *)

(** With distinct classes, the code of a class is its position. *)
Lemma transform_position (enc : LabelEncoder) (k : nat) (s : string) :
  NoDup (classes_ enc) ->
  nth_error (classes_ enc) k = Some s ->
  transform enc s = Ok (Z.of_nat k).
Proof.
  intros Hnodup Hk.
  destruct (nth_error_split _ _ Hk) as (before & after & Hsplit & Hlen).
  unfold transform. rewrite Hsplit in *.
  rewrite index_of_first.
  - unfold len. rewrite Hlen. reflexivity.
  - intros Hin. apply (NoDup_remove_2 _ _ _ Hnodup). apply in_or_app. left. exact Hin.
Qed.

Lemma mapping_set_fresh (m : mapping) (k : string) (v : code_value) :
  ~ In k (map fst m) -> mapping_set m k v = m ++ [(k, v)].
Proof.
  induction m as [| [k' w] m IH]; intros Hfresh; cbn [mapping_set app]; [reflexivity |].
  destruct (String.eqb_spec k' k) as [-> | _].
  - elim Hfresh. left. reflexivity.
  - rewrite IH; [reflexivity |]. intros H. apply Hfresh. right. exact H.
Qed.

Lemma zip_mapping (names : list string) :
  forall (codes : list Z) (acc : mapping),
    NoDup (map fst acc ++ names) ->
    List.length codes = List.length names ->
    fold_left (fun m kv => mapping_set m (fst kv) (NumpyInt64 (snd kv)))
              (combine names codes) acc
    = acc ++ combine names (map NumpyInt64 codes).
Proof.
  induction names as [| x names IH]; intros codes acc Hnodup Hlen.
  - cbn. rewrite app_nil_r. reflexivity.
  - destruct codes as [| c codes]; [discriminate Hlen |].
    cbn [combine fold_left map fst snd].
    rewrite mapping_set_fresh.
    + rewrite IH.
      * rewrite <- app_assoc. reflexivity.
      * rewrite map_app, <- app_assoc. exact Hnodup.
      * cbn in Hlen. congruence.
    + intros Hin. apply (NoDup_remove_2 _ _ _ Hnodup). apply in_or_app. left. exact Hin.
Qed.

Lemma nth_error_combine {A B : Type} (l : list A) (l' : list B) (k : nat) (a : A) (b : B) :
  nth_error l k = Some a -> nth_error l' k = Some b ->
  nth_error (combine l l') k = Some (a, b).
Proof.
  revert l' k. induction l as [| x l IH]; intros [| y l'] [| k]; cbn; try discriminate.
  - intros H1 H2. congruence.
  - apply IH.
Qed.

(** The mapping the trainer builds, code by code. *)
Lemma domain_mapping_eq (column : list string) :
  exists codes,
    Train.domain_mapping (Train.fit column)
    = Ok (combine (classes_ (Train.fit column)) (map NumpyInt64 codes))
    /\ List.length codes = List.length (classes_ (Train.fit column))
    /\ (forall k s,
          nth_error (classes_ (Train.fit column)) k = Some s ->
          nth_error codes k = Some (Z.of_nat k)).
Proof.
  set (le := Train.fit column).
  assert (Hnodup : NoDup (classes_ le))
    by exact (increasing_NoDup _ (unique_increasing column)).
  destruct (map_result_transform le (classes_ le) (fun _ H => H))
    as (codes & Hcodes & Hlen & Hnth).
  exists codes. split; [| split; [exact Hlen |]].
  - unfold Train.domain_mapping. rewrite Hcodes. cbn [bind].
    rewrite (zip_mapping (classes_ le) codes [] Hnodup Hlen). reflexivity.
  - intros k s Hk. destruct (Hnth k s Hk) as (code & Hcode & Htransform).
    rewrite (transform_position le k s Hnodup Hk) in Htransform. congruence.
Qed.

Lemma trainer_mapping_raises (column : list string) (mp : mapping) :
  column <> [] ->
  Train.domain_mapping (Train.fit column) = Ok mp ->
  jsonify_mapping (Some mp) = Raise (Raised TypeError "jsonify" (JInt 0)).
Proof.
  intros Hne Hmp.
  destruct (domain_mapping_eq column) as (codes & Heq & Hlen & Hpos).
  rewrite Hmp in Heq. injection Heq as ->.
  destruct (classes_ (Train.fit column)) as [| c classes] eqn:Hclasses.
  - destruct column as [| x column]; [elim Hne; reflexivity |].
    assert (Hin : In x (classes_ (Train.fit (x :: column))))
      by (apply (proj2 (unique_In (x :: column) x)); left; reflexivity).
    rewrite Hclasses in Hin. destruct Hin.
  - specialize (Hpos 0%nat c eq_refl).
    destruct codes as [| n codes]; [discriminate Hpos |].
    injection Hpos as ->.
    change (Train.unique column) with (classes_ (Train.fit column)).
    rewrite Hclasses. reflexivity.
Qed.

(** X22. The domain mapping the trainer pickles binds the classes, in
    their order, each to its position as a [numpy.int64], the code
    [transform] gives the class; unless the column is empty, [jsonify]
    raises a [TypeError] on it. *)
Theorem trainer_mapping_codes (column : list string) :
  exists mp,
    Train.domain_mapping (Train.fit column) = Ok mp
    /\ List.length mp = List.length (classes_ (Train.fit column))
    /\ (forall k s,
          nth_error (classes_ (Train.fit column)) k = Some s ->
          nth_error mp k = Some (s, NumpyInt64 (Z.of_nat k))
          /\ transform (Train.fit column) s = Ok (Z.of_nat k))
    /\ (column = [] -> jsonify_mapping (Some mp) = Ok (JObj []))
    /\ (column <> [] ->
        jsonify_mapping (Some mp) = Raise (Raised TypeError "jsonify" (JInt 0))).
Proof.
  destruct (domain_mapping_eq column) as (codes & Hmp & Hlen & Hpos).
  exists (combine (classes_ (Train.fit column)) (map NumpyInt64 codes)).
  split; [exact Hmp |]. split.
  { rewrite length_combine, length_map, Hlen. apply Nat.min_id. }
  split.
  { intros k s Hk. split.
    - apply nth_error_combine; [exact Hk |].
      rewrite nth_error_map, (Hpos k s Hk). reflexivity.
    - apply transform_position; [| exact Hk].
      exact (increasing_NoDup _ (unique_increasing column)). }
  split.
  - intros ->. reflexivity.
  - intros Hne. exact (trainer_mapping_raises column _ Hne Hmp).
Qed.

(** The globals startup leaves on the files of a training run. *)
Lemma startup_on_model_files (rt : Runtime) (m : Model) (le : LabelEncoder) (mp : mapping) :
  let st := startup rt (Train.model_files m le mp) in
  model st = Some m
  /\ label_encoder st = Some le
  /\ feature_names st = Some Train.feature_columns
  /\ domain_mapping st = Some mp
  /\ (model_loaded st = true <-> summary_completes m Train.feature_columns).
Proof.
  cbv zeta. rewrite <- (summarize_done rt m le Train.feature_columns).
  unfold startup, load_model_components, Train.model_files, load_mapping.
  cbn [pickled_model pickled_encoder pickled_features pickled_mapping].
  destruct (summarize rt m le Train.feature_columns) as [info done].
  cbn. repeat split; intros H; exact H.
Qed.

(** X23. The service started on the files of a training run encodes a
    domain as the trainer did: every domain of the training column is
    resolved, by its name on both prediction paths and by its code, to the
    code [fit_transform] gave its rows. The four globals are the pickled
    objects, and the model counts as loaded exactly when its summary can be
    completed. *)
Theorem trained_files_keep_the_codes (rt : Runtime) (column : list string) (m : Model)
    (mp : mapping) (s : string) (code : Z) :
  In s column ->
  transform (Train.fit column) s = Ok code ->
  let st := startup rt (Train.model_files m (Train.fit column) mp) in
  predict_resolve rt st (JStr s) = Ok (Resolved s code)
  /\ batch_resolve rt st (JStr s) = Ok (Resolved s code)
  /\ predict_resolve rt st (JInt code) = Ok (Resolved s code)
  /\ batch_resolve rt st (JInt code) = Ok (Resolved s code)
  /\ domain_mapping st = Some mp
  /\ (model_loaded st = true <-> summary_completes m Train.feature_columns).
Proof.
  intros Hin Hcode st.
  destruct (startup_on_model_files rt m (Train.fit column) mp)
    as (_ & Henc & _ & Hmp & Hloaded).
  fold st in Henc, Hmp, Hloaded.
  assert (Hclass : In s (classes_ (Train.fit column))) by (apply unique_In; exact Hin).
  assert (Hmem : PyStr.mem s (classes_ (Train.fit column)) = true)
    by (apply mem_In; exact Hclass).
  assert (Hrange : 0 <= code < len (classes_ (Train.fit column))
                   /\ nth_error (classes_ (Train.fit column)) (Z.to_nat code) = Some s).
  { unfold transform in Hcode.
    destruct (index_of s (classes_ (Train.fit column))) as [j |] eqn:Hj;
      [| discriminate Hcode].
    injection Hcode as <-. exact (index_of_nth _ _ _ Hj). }
  destruct Hrange as [Hrange Hnth].
  destruct (resolve_by_code rt st (Train.fit column) s code Henc Hrange Hnth)
    as [Hsingle Hbatch].
  split; [| split; [| split; [exact Hsingle | split; [exact Hbatch | split; assumption]]]].
  - unfold predict_resolve, the_classes. rewrite Henc. cbn [need bind].
    rewrite Hmem. cbn [negb bind]. rewrite Hcode. reflexivity.
  - unfold batch_resolve, the_classes. rewrite Henc. cbn [need bind].
    rewrite Hmem. cbn [negb bind]. rewrite Hcode. reflexivity.
Qed.

Lemma trained_files_keep_the_codes_witness :
  let column := ["Sport"; "Mode"; "Sport"; "Livres"] in
  let st := startup runtime (Train.model_files follow_competitor (Train.fit column) []) in
  classes_ (Train.fit column) = ["Livres"; "Mode"; "Sport"]
  /\ predict_resolve runtime st (JStr "Sport") = Ok (Resolved "Sport" 2)
  /\ predict_resolve runtime st (JInt 2) = Ok (Resolved "Sport" 2).
Proof.
  cbv zeta. split; [reflexivity |].
  destruct (trained_files_keep_the_codes runtime ["Sport"; "Mode"; "Sport"; "Livres"]
              follow_competitor [] "Sport" 2 (or_introl eq_refl) eq_refl)
    as (H1 & _ & H3 & _).
  split; [exact H1 | exact H3].
Defined.

(** X24. With the mapping file the trainer writes, a complete record whose
    domain is a number out of range is not answered 400 by [/predict]: the
    answer holds the mapping, [jsonify] raises a [TypeError] on its
    [numpy.int64] codes, and the outer handler answers 500. The batch path,
    which does not put the mapping in its entry, reports the invalid code. *)
Theorem trained_mapping_invalid_code (rt : Runtime) (column : list string) (m : Model)
    (mp : mapping) (d : dict) (v : json) (code : Z) (i : Z) :
  column <> [] ->
  Train.domain_mapping (Train.fit column) = Ok mp ->
  model_loaded (startup rt (Train.model_files m (Train.fit column) mp)) = true ->
  d <> [] ->
  missing_fields (read_fields d) = [] ->
  dict_get d "domaine" = v ->
  (forall s, v <> JStr s) ->
  py_int v = Ok code ->
  code < 0 \/ len (classes_ (Train.fit column)) <= code ->
  let st := startup rt (Train.model_files m (Train.fit column) mp) in
  predict rt st (Ok (JObj d))
  = Response (internal_error_body rt (Raised TypeError "jsonify" (JInt 0))) 500
  /\ batch_item rt st i (JObj d)
     = Failure i ("Code domaine " ++ py_str rt v ++ " invalide")%string [] (JObj d).
Proof.
  intros Hcolumn Hmp Hloaded Hne Hmissing Hdom Hstr Hint Hout st.
  destruct (startup_on_model_files rt m (Train.fit column) mp)
    as (_ & Henc & _ & Hmapping & _).
  fold st in Henc, Hmapping, Hloaded.
  assert (Hjson : jsonify_mapping (domain_mapping st)
                  = Raise (Raised TypeError "jsonify" (JInt 0))).
  { rewrite Hmapping.
    exact (trainer_mapping_raises column mp Hcolumn Hmp). }
  assert (Hraw : raw_domaine (read_fields d) = v) by exact Hdom.
  assert (Hor : (code <? 0) || (code >=? len (classes_ (Train.fit column))) = true).
  { apply orb_true_iff. destruct Hout; [left | right]; lia. }
  assert (Hsingle : predict_resolve rt st v = Ok (InvalidCode v)).
  { unfold predict_resolve, the_classes. rewrite Henc.
    destruct v; try (rewrite Hint; cbn [need bind]; rewrite Hor; reflexivity).
    elim (Hstr s). reflexivity. }
  assert (Hbatch : batch_resolve rt st v = Ok (InvalidCode v)).
  { unfold batch_resolve, the_classes. rewrite Henc.
    destruct v; try (rewrite Hint; cbn [need bind]; rewrite Hor; reflexivity).
    elim (Hstr s). reflexivity. }
  split.
  - unfold predict. rewrite Hloaded. cbn [negb].
    rewrite (predict_try_complete rt st d Hne Hmissing). cbv zeta.
    rewrite Hraw, Hsingle.
    unfold the_classes. rewrite Henc. cbn [need bind]. rewrite Hjson. reflexivity.
  - unfold batch_item. rewrite (batch_item_try_complete rt st i d Hmissing).
    rewrite Hraw, Hbatch. reflexivity.
Qed.

Lemma trained_mapping_invalid_code_witness :
  let column := ["Sport"; "Mode"; "Sport"; "Livres"] in
  let mp := [("Livres", NumpyInt64 0); ("Mode", NumpyInt64 1); ("Sport", NumpyInt64 2)] in
  let st := startup runtime (Train.model_files follow_competitor (Train.fit column) mp) in
  let d := [ ("domaine", JInt 3); ("prix_concurrent", JFloat 750);
             ("cout_production", JFloat 500); ("marge_voulue", JFloat 0.6) ] in
  Train.domain_mapping (Train.fit column) = Ok mp
  /\ status_of (predict runtime st (Ok (JObj d))) = 500
  /\ statut (batch_item runtime st 0 (JObj d)) = "error".
Proof.
  cbv zeta. split; [reflexivity |].
  destruct (trained_mapping_invalid_code runtime ["Sport"; "Mode"; "Sport"; "Livres"]
              follow_competitor
              [("Livres", NumpyInt64 0); ("Mode", NumpyInt64 1); ("Sport", NumpyInt64 2)]
              [ ("domaine", JInt 3); ("prix_concurrent", JFloat 750);
                ("cout_production", JFloat 500); ("marge_voulue", JFloat 0.6) ]
              (JInt 3) 3 0) as [Hsingle Hbatch];
    try reflexivity; try discriminate.
  - right. cbn. lia.
  - rewrite Hsingle, Hbatch. split; reflexivity.
Defined.

(** The table the service builds on the trainer's column names. *)
Lemma run_model_on_model_files (rt : Runtime) (m : Model) (le : LabelEncoder)
    (mp : mapping) (code : Z) (p c mv : float) :
  run_model (startup rt (Train.model_files m le mp)) code p c mv
  = model_predict m [ ("Domaine_encoded", CInt code); ("Prix_concurrent", CFloat p);
                      ("Cout_production", CFloat c); ("Marge_voulue", CFloat mv) ].
Proof.
  destruct (startup_on_model_files rt m le mp) as (Hmodel & _ & Hnames & _).
  cbv zeta in Hmodel, Hnames.
  unfold run_model. rewrite Hnames, Hmodel. reflexivity.
Qed.

(** A record whose three numbers coerce has them, and is not empty. *)
Lemma coerced_record_is_complete (rt : Runtime) (d : dict) (s : string)
    (p c mv : float) :
  dict_get d "domaine" = JStr s ->
  coerce_numbers rt (read_fields d) = Ok (p, c, mv) ->
  missing_fields (read_fields d) = [].
Proof.
  intros Hdom Hcoerce. rewrite missing_fields_eq. unfold required_fields.
  unfold coerce_numbers, read_fields in Hcoerce.
  cbn [raw_prix_concurrent raw_cout_production raw_marge_voulue] in Hcoerce.
  cbn [filter]. rewrite Hdom. cbn [is_none].
  destruct (dict_get d "prix_concurrent"); try discriminate Hcoerce;
    destruct (py_float rt _) in Hcoerce; try discriminate Hcoerce; cbn [bind] in Hcoerce;
    destruct (dict_get d "cout_production"); try discriminate Hcoerce;
    destruct (py_float rt _) in Hcoerce; try discriminate Hcoerce; cbn [bind] in Hcoerce;
    destruct (dict_get d "marge_voulue"); try discriminate Hcoerce;
    reflexivity.
Qed.

(** X25. From training to answer. On the files of a training run, a record
    that names a domain of the training column, whose numbers coerce and
    pass validation, is priced by the pickled model on one row holding the
    trainer's code of the domain and the three numbers, under the training
    column names and in their order; [/predict] answers 200 with that price
    rounded to 2 decimals, and 500 when the model raises. *)
Theorem trained_service_predicts (rt : Runtime) (column : list string) (m : Model)
    (mp : mapping) (d : dict) (s : string) (code : Z) (p c mv : float) :
  model_loaded (startup rt (Train.model_files m (Train.fit column) mp)) = true ->
  In s column ->
  transform (Train.fit column) s = Ok code ->
  dict_get d "domaine" = JStr s ->
  coerce_numbers rt (read_fields d) = Ok (p, c, mv) ->
  validate_numeric_ranges p c mv = [] ->
  let st := startup rt (Train.model_files m (Train.fit column) mp) in
  let row := [ ("Domaine_encoded", CInt code); ("Prix_concurrent", CFloat p);
               ("Cout_production", CFloat c); ("Marge_voulue", CFloat mv) ] in
  (forall price,
     model_predict m row = Ok price ->
     predict rt st (Ok (JObj d)) = Response (success_body rt s code p c mv price) 200
     /\ field "prix_predit" (success_body rt s code p c mv price)
        = Some (JFloat (py_round price 2))
     /\ field2 "caracteristiques_utilisees" "domaine_encode"
               (success_body rt s code p c mv price) = Some (JInt code))
  /\ (forall e,
        model_predict m row = Raise e ->
        predict rt st (Ok (JObj d)) = Response (internal_error_body rt e) 500).
Proof.
  intros Hloaded Hin Hcode Hdom Hcoerce Hvalid st row.
  destruct (startup_on_model_files rt m (Train.fit column) mp) as (_ & Henc & _).
  fold st in Henc, Hloaded.
  assert (Hmissing : missing_fields (read_fields d) = [])
    by exact (coerced_record_is_complete rt d s p c mv Hdom Hcoerce).
  assert (Hmem : PyStr.mem s (classes_ (Train.fit column)) = true).
  { apply mem_In. apply unique_In. exact Hin. }
  assert (Hresolve : predict_resolve rt st (raw_domaine (read_fields d))
                     = Ok (Resolved s code)).
  { change (raw_domaine (read_fields d)) with (dict_get d "domaine"). rewrite Hdom.
    unfold predict_resolve, the_classes. rewrite Henc. cbn [need bind].
    rewrite Hmem. cbn [negb bind]. rewrite Hcode. reflexivity. }
  assert (Htry : predict_try rt st (Ok (JObj d)) =
                 (predicted_price <- model_predict m row ;;
                  Ok (Response (success_body rt s code p c mv predicted_price) 200))).
  { rewrite (predict_try_validated rt st d s code p c mv
               (complete_record_is_true d Hmissing) Hmissing Hresolve Hcoerce).
    rewrite Hvalid. unfold st. rewrite run_model_on_model_files. reflexivity. }
  unfold predict. rewrite Hloaded, Htry. cbn [negb]. split.
  - intros price ->. split; [reflexivity |]. split; reflexivity.
  - intros e ->. reflexivity.
Qed.

Lemma trained_service_predicts_witness :
  let column := ["Sport"; "Mode"; "Sport"; "Livres"] in
  let mp := [("Livres", NumpyInt64 0); ("Mode", NumpyInt64 1); ("Sport", NumpyInt64 2)] in
  let st := startup runtime (Train.model_files follow_competitor (Train.fit column) mp) in
  let d := [ ("domaine", JStr "Sport"); ("prix_concurrent", JFloat 750);
             ("cout_production", JFloat 500); ("marge_voulue", JFloat 0.6) ] in
  predict runtime st (Ok (JObj d))
  = Response (success_body runtime "Sport" 2 750 500 0.6 750) 200.
Proof.
  cbv zeta.
  refine (proj1 (proj1 (trained_service_predicts runtime
                   ["Sport"; "Mode"; "Sport"; "Livres"] follow_competitor
                   [("Livres", NumpyInt64 0); ("Mode", NumpyInt64 1); ("Sport", NumpyInt64 2)]
                   [ ("domaine", JStr "Sport"); ("prix_concurrent", JFloat 750);
                     ("cout_production", JFloat 500); ("marge_voulue", JFloat 0.6) ]
                   "Sport" 2 750 500 0.6 eq_refl _ eq_refl eq_refl eq_refl eq_refl)
                 750%float _)).
  - cbn. tauto.
  - vm_compute. reflexivity.
Defined.


